(** * Storefront bot: persistence store, access control and handlers

    A shallow embedding of the Python sources

      - [database.py]        the SQLite-backed [DatabaseManager],
      - [admin_handlers.py]  the privileged handlers and the two wizards,
      - [bot_handlers.py]    the catalog, checkout and message handlers,

    followed by the properties of the specification that are stated about
    them.

    Modelling conventions.

    - Each SQL table with a primary key is a finite map from the key to the
      remaining columns ([gmap]); [INSERT OR REPLACE] is map insertion,
      [DELETE ... WHERE key = ?] is map deletion.  A [SELECT] without
      [ORDER BY] returns the rows in an order SQL leaves open; here it is the
      order of [map_to_list].
    - [AUTOINCREMENT] keys follow SQLite: the new key is one more than the
      largest key the table ever held (the [sqlite_sequence] counter and the
      largest key present).
    - [datetime.now().isoformat()] is an input of the operation that reads
      the clock.
    - The store is reachable: no statement raises a driver error.
    - A call a handler awaits on the messaging transport either goes through
      or raises in the handler.  Inside a [try] block the [except] branch
      takes over; elsewhere the handler stops where it is, keeps what it has
      written to the store, and returns nothing. *)

From Stdlib Require Import ZArith Ascii String.
From stdpp Require Import gmap strings list fin_maps pretty.

Local Open Scope Z_scope.

(** ** Data model (the five tables of [init_database]) *)

Abbreviation timestamp := string (only parsing).

(** [users]: [user_id] is the key. *)
Record user_row := UserRow {
  u_username : string;
  u_first_name : string;
  u_last_name : option string;
  u_joined_date : timestamp;
  u_is_blocked : Z;
  u_last_activity : timestamp }.

(** [admins]: [user_id] is the key. *)
Record admin_row := AdminRow {
  a_username : string;
  a_added_by : Z;
  a_added_date : timestamp }.

(** [products]: [id] is the key. *)
Record product_row := ProductRow {
  p_category : string;
  p_name : string;
  p_features : string;
  p_price : string;
  p_description : string;
  p_created_date : timestamp }.

(** [orders]: [id] is the key. *)
Record order_row := OrderRow {
  o_user_id : Z;
  o_product_name : string;
  o_amount : string;
  o_status : string;
  o_order_date : timestamp;
  o_screenshot_file_id : option string }.

(** The database file: the five tables and the two [sqlite_sequence]
    counters of the [AUTOINCREMENT] tables. *)
Record database := Database {
  users : gmap Z user_row;
  admins : gmap Z admin_row;
  products : gmap Z product_row;
  products_seq : Z;
  orders : gmap Z order_row;
  orders_seq : Z;
  settings : gmap string string }.

Definition empty_database : database :=
  Database ∅ ∅ ∅ 0 ∅ 0 ∅.

(** ** [AUTOINCREMENT] *)

Definition max_rowid {A} (t : gmap Z A) : Z :=
  foldr (λ kr acc, Z.max kr.1 acc) 0 (map_to_list t).

Definition autoincrement {A} (seq : Z) (t : gmap Z A) : Z :=
  Z.max seq (max_rowid t) + 1.

(** ** [DatabaseManager] *)

(** [add_user]: the column list of the [INSERT OR REPLACE] leaves
    [is_blocked] out, so the new row takes the column default 0. *)
Definition add_user (user_id : Z) (username first_name : string)
    (last_name : option string) (now1 now2 : timestamp)
    (db : database) : database :=
  let row := UserRow username first_name last_name now1 0 now2 in
  Database (<[user_id := row]> (users db)) (admins db) (products db)
    (products_seq db) (orders db) (orders_seq db) (settings db).

Definition set_last_activity (now : timestamp) (r : user_row) : user_row :=
  UserRow (u_username r) (u_first_name r) (u_last_name r) (u_joined_date r)
    (u_is_blocked r) now.

Definition update_user_activity (user_id : Z) (now : timestamp)
    (db : database) : database :=
  Database (alter (set_last_activity now) user_id (users db)) (admins db)
    (products db) (products_seq db) (orders db) (orders_seq db) (settings db).

Definition add_admin (user_id : Z) (username : string) (added_by : Z)
    (now : timestamp) (db : database) : database :=
  Database (users db) (<[user_id := AdminRow username added_by now]> (admins db))
    (products db) (products_seq db) (orders db) (orders_seq db) (settings db).

Definition remove_admin (user_id : Z) (db : database) : database :=
  Database (users db) (delete user_id (admins db)) (products db)
    (products_seq db) (orders db) (orders_seq db) (settings db).

(** [is_admin]: [fetchone() is not None]. *)
Definition is_admin (user_id : Z) (db : database) : bool :=
  match admins db !! user_id with
  | Some _ => true
  | None => false
  end.

(** The dictionaries built by [get_all_users]. *)
Record user_view := UserView {
  uv_user_id : Z;
  uv_username : string;
  uv_first_name : string;
  uv_last_name : option string;
  uv_joined_date : timestamp;
  uv_last_activity : timestamp }.

(** The [WHERE is_blocked = 0] clause. *)
Definition not_blocked (kr : Z * user_row) : Prop := u_is_blocked kr.2 = 0.

Global Instance not_blocked_dec kr : Decision (not_blocked kr).
Proof. unfold not_blocked. apply _. Defined.

Definition user_view_of (kr : Z * user_row) : user_view :=
  UserView kr.1 (u_username kr.2) (u_first_name kr.2) (u_last_name kr.2)
    (u_joined_date kr.2) (u_last_activity kr.2).

(** [SELECT ... FROM users WHERE is_blocked = 0], one dictionary a row. *)
Definition get_all_users (db : database) : list user_view :=
  user_view_of <$> filter not_blocked (map_to_list (users db)).

(** [SELECT COUNT( * ) FROM users WHERE is_blocked = 0]: the aggregate runs
    over the table and counts the rows that pass the [WHERE] clause. *)
Definition get_user_count (db : database) : Z :=
  foldr (λ kr n, if bool_decide (not_blocked kr) then n + 1 else n) 0
    (map_to_list (users db)).

Definition add_product (category name features price description : string)
    (now : timestamp) (db : database) : database :=
  let id := autoincrement (products_seq db) (products db) in
  let row := ProductRow category name features price description now in
  Database (users db) (admins db) (<[id := row]> (products db)) id
    (orders db) (orders_seq db) (settings db).

(** The dictionaries built by [get_products_by_category] (no category key)
    and by [get_all_products]. *)
Record category_product := CategoryProduct {
  cp_id : Z;
  cp_name : string;
  cp_features : string;
  cp_price : string;
  cp_description : string }.

Record product := Product {
  id : Z;
  category : string;
  name : string;
  features : string;
  price : string;
  description : string }.

Definition category_product_of (kr : Z * product_row) : category_product :=
  CategoryProduct kr.1 (p_name kr.2) (p_features kr.2) (p_price kr.2)
    (p_description kr.2).

Definition product_of (kr : Z * product_row) : product :=
  Product kr.1 (p_category kr.2) (p_name kr.2) (p_features kr.2)
    (p_price kr.2) (p_description kr.2).

(** [WHERE category = ?] on a [TEXT] column: byte-wise equality. *)
Definition get_products_by_category (cat : string) (db : database)
    : list category_product :=
  category_product_of <$>
    filter (λ kr, p_category kr.2 = cat) (map_to_list (products db)).

Definition get_all_products (db : database) : list product :=
  product_of <$> map_to_list (products db).

Definition delete_product (product_id : Z) (db : database) : database :=
  Database (users db) (admins db) (delete product_id (products db))
    (products_seq db) (orders db) (orders_seq db) (settings db).

Definition add_order (user_id : Z) (product_name amount : string)
    (screenshot_file_id : option string) (now : timestamp)
    (db : database) : database :=
  let id := autoincrement (orders_seq db) (orders db) in
  let row :=
    OrderRow user_id product_name amount "pending" now screenshot_file_id in
  Database (users db) (admins db) (products db) (products_seq db)
    (<[id := row]> (orders db)) id (settings db).

(** [get_setting]: [result[0] if result else default]; a fetched row is a
    non-empty tuple, hence true whatever the value. *)
Definition get_setting (key : string) (default : option string)
    (db : database) : option string :=
  match settings db !! key with
  | Some value => Some value
  | None => default
  end.

Definition set_setting (key value : string) (db : database) : database :=
  Database (users db) (admins db) (products db) (products_seq db)
    (orders db) (orders_seq db) (<[key := value]> (settings db)).


(** ** Python helpers *)

(** [x or d] on an optional string: [None] and the empty string are false. *)
Definition py_or (x : option string) (d : string) : string :=
  match x with
  | Some (String c s) => String c s
  | _ => d
  end.

(** [s.replace(old, new)]: every non-overlapping occurrence, leftmost first.
    [skip] counts the characters of a matched occurrence still to drop. *)
Fixpoint replace_go (old new : string) (skip : nat) (s : string) : string :=
  match s with
  | EmptyString => EmptyString
  | String c s' =>
      match skip with
      | S k => replace_go old new k s'
      | O =>
          if String.prefix old s
          then new +:+ replace_go old new (Nat.pred (String.length old)) s'
          else String c (replace_go old new O s')
      end
  end.

(** With an empty [old], Python puts [new] before every character and at
    the end. *)
Fixpoint intersperse (new s : string) : string :=
  match s with
  | EmptyString => new
  | String c s' => new +:+ String c (intersperse new s')
  end.

Definition py_replace (old new s : string) : string :=
  match old with
  | EmptyString => intersperse new s
  | _ => replace_go old new O s
  end.

(** [int(s)] for an optional sign followed by ASCII decimal digits; any other
    text is a [ValueError] here ([None]).  Python also accepts surrounding
    white space and underscores between digits, which the callback data built
    by the bot never contains. *)
Definition digit_of (c : ascii) : option Z :=
  let n := Z.of_N (N_of_ascii c) in
  if bool_decide (48 ≤ n ≤ 57) then Some (n - 48) else None.

Fixpoint digits_go (acc : Z) (s : string) : option Z :=
  match s with
  | EmptyString => Some acc
  | String c s' =>
      match digit_of c with
      | Some d => digits_go (10 * acc + d) s'
      | None => None
      end
  end.

Definition digits (s : string) : option Z :=
  match s with
  | EmptyString => None
  | _ => digits_go 0 s
  end.

Definition py_int (s : string) : option Z :=
  match s with
  | String "-"%char s' => Z.opp <$> digits s'
  | String "+"%char s' => digits s'
  | _ => digits s
  end.

(** ** The messaging transport *)

(** The texts the handlers send.  A constructor stands for one literal or
    f-string of the source and carries the values interpolated into it; the
    rendering to characters (emoji, Markdown, the [[:200]] slice of the bio
    preview) is the transport's business. *)
Inductive text :=
  | AccessDenied
  | OnlyOwnersCanAdd
  | AddAdminUsage
  | AdminAdded (username : string)
  | OnlyOwnersCanRemove
  | RemoveAdminUsage
  | AdminRemoved (username : string)
  | TotalUsers (user_count : Z)
  | BioUpdated (new_bio : string)
  | Broadcasting (total sent_count failed_count : Z)
  | BroadcastCompleted (total sent_count failed_count : Z)
  | BroadcastMessage (broadcast_text : string)
  | OperationCancelled
  | Welcome (owner : bool) (who : option string) (bio_message : string)
  | NoProductsAvailable
  | ChooseCategory
  | NoProductsInCategory (category : string)
  | CategoryProducts (category : string)
  | ProductNotFound
  | PaymentInstructions (amount : option string)
  | ScreenshotReceived
  | ScreenshotError
  | Hello.

Inductive label :=
  | PremiumFiles
  | AdminPanel
  | BackToMain
  | BackToCategories
  | CategoryLabel (category : string)
  | ProductLabel (name price : string)
  | UploadScreenshot
  | MainMenu
  | GetStarted.

Record button := Button { b_label : label; callback_data : string }.

Abbreviation keyboard := (list (list button)) (only parsing).

(** The calls a handler awaits on the transport (and, for the QR image, on
    the file system). *)
Inductive call :=
  | ReplyText (t : text) (reply_markup : keyboard)
      (* update.message.reply_text *)
  | SendMessage (chat_id : Z) (t : text)
      (* context.bot.send_message *)
  | EditText (t : text)
      (* status_message.edit_text *)
  | AnswerQuery
      (* query.answer *)
  | EditMessageText (t : text) (reply_markup : keyboard)
      (* query.edit_message_text *)
  | OpenQrCode
      (* open(self.qr_manager.get_qr_code_path(), 'rb') *)
  | ReplyPhoto (caption : text) (reply_markup : keyboard)
      (* query.message.reply_photo *)
  | DeleteMessage.
      (* query.delete_message *)

(** ** Inbound events *)

Record tg_user := TgUser {
  tu_id : Z;
  tu_username : option string;
  tu_first_name : string;
  tu_last_name : option string }.

Record tg_message := TgMessage {
  m_text : option string;
  m_photo : list string }.    (* the [file_id] of each size, largest last *)

Record tg_callback_query := TgCallbackQuery {
  q_from_user : option tg_user;
  q_data : option string }.

Record tg_update := TgUpdate {
  upd_message : option tg_message;
  upd_effective_user : option tg_user;
  upd_callback_query : option tg_callback_query }.

(** ** The handler monad

    A handler runs against a world: the store, the clock reads made so far
    and the calls that went through.  It either returns a value or raises;
    what it wrote before raising stays written. *)

Record world := World {
  w_db : database;
  w_tick : nat;
  w_trace : list call }.

Inductive outcome (A : Type) :=
  | Returned (a : A)
  | Raised.
Arguments Returned {A} a.
Arguments Raised {A}.

Definition handler (A : Type) : Type := world → outcome A * world.

Global Instance handler_ret : MRet handler :=
  λ A a w, (Returned a, w).

Global Instance handler_bind : MBind handler :=
  λ A B f m w,
    match m w with
    | (Returned a, w') => f a w'
    | (Raised, w') => (Raised, w')
    end.

Definition raise {A} : handler A := λ w, (Raised, w).

Definition get_db : handler database := λ w, (Returned (w_db w), w).

Definition modify_db (f : database → database) : handler unit :=
  λ w, (Returned tt, World (f (w_db w)) (w_tick w) (w_trace w)).

(** [try: body  except Exception: handler_]. *)
Definition try_except (body handler_ : handler unit) : handler unit :=
  λ w,
    match body w with
    | (Returned _, w') => (Returned tt, w')
    | (Raised, w') => handler_ w'
    end.

(** [ConversationHandler.END] of the bot framework. *)
Definition END : Z := -1.

Definition from_option {A} (o : option A) : handler A :=
  match o with
  | Some a => mret a
  | None => raise
  end.

(** [None] and the empty string are false in a condition. *)
Definition truthy (x : option string) : option string :=
  match x with
  | Some (String c s) => Some (String c s)
  | _ => None
  end.

(** [f"{x}"] of an optional string. *)
Definition py_str (x : option string) : string := default "None" x.

Section Handlers.

(** [config.OWNER_IDS]. *)
Variable OWNER_IDS : list Z.
(** Whether the transport (or the file system) lets a call through; a call
    it refuses raises in the handler. *)
Variable net : call → bool.
(** The value of the n-th read of [datetime.now().isoformat()]. *)
Variable clock : nat → timestamp.
(** [QRCodeManager.qr_code_exists]. *)
Variable qr_code_exists : bool.

Definition await (c : call) : handler unit :=
  λ w,
    if net c
    then (Returned tt, World (w_db w) (w_tick w) (w_trace w ++ [c]))
    else (Raised, w).

(** [try: await c  except Exception: ...], telling which branch ran. *)
Definition attempt (c : call) : handler bool :=
  λ w,
    match await c w with
    | (Returned _, w') => (Returned true, w')
    | (Raised, w') => (Returned false, w')
    end.

Definition now : handler timestamp :=
  λ w, (Returned (clock (w_tick w)),
        World (w_db w) (S (w_tick w)) (w_trace w)).

(** *** [admin_handlers.py] *)

Definition is_owner_or_admin (user_id : Z) (db : database) : bool :=
  bool_decide (user_id ∈ OWNER_IDS) || is_admin user_id db.

Definition users_command (update : tg_update) (args : list string)
    : handler (option Z) :=
  match upd_effective_user update, upd_message update with
  | Some user, Some _ =>
      db ← get_db;
      if negb (is_owner_or_admin (tu_id user) db)
      then await (ReplyText AccessDenied []);; mret None
      else
        db ← get_db;
        await (ReplyText (TotalUsers (get_user_count db)) []);; mret None
  | _, _ => mret None
  end.

(** [addadmin_command]: after the owner and usage checks the body is the
    comment [# Add admin logic here] and the confirmation. *)
Definition addadmin_command (update : tg_update) (args : list string)
    : handler (option Z) :=
  match upd_effective_user update, upd_message update with
  | Some user, Some _ =>
      if negb (bool_decide (tu_id user ∈ OWNER_IDS))
      then await (ReplyText OnlyOwnersCanAdd []);; mret None
      else
        match args with
        | [] => await (ReplyText AddAdminUsage []);; mret None
        | a :: _ =>
            let username := py_replace "@" "" a in
            await (ReplyText (AdminAdded username) []);; mret None
        end
  | _, _ => mret None
  end.

(** [removeadmin_command]: likewise, around [# Remove admin logic here]. *)
Definition removeadmin_command (update : tg_update) (args : list string)
    : handler (option Z) :=
  match upd_effective_user update, upd_message update with
  | Some user, Some _ =>
      if negb (bool_decide (tu_id user ∈ OWNER_IDS))
      then await (ReplyText OnlyOwnersCanRemove []);; mret None
      else
        match args with
        | [] => await (ReplyText RemoveAdminUsage []);; mret None
        | a :: _ =>
            let username := py_replace "@" "" a in
            await (ReplyText (AdminRemoved username) []);; mret None
        end
  | _, _ => mret None
  end.

Definition handle_bio_message (update : tg_update) : handler (option Z) :=
  match upd_message update, upd_effective_user update with
  | Some message, Some user =>
      db ← get_db;
      if negb (is_owner_or_admin (tu_id user) db)
      then await (ReplyText AccessDenied []);; mret (Some END)
      else
        let new_bio := py_or (m_text message) "Default bio message" in
        modify_db (set_setting "bio_message" new_bio);;
        await (ReplyText (BioUpdated new_bio) []);;
        mret (Some END)
  | _, _ => mret (Some END)
  end.

(** The [for user in users] loop of [handle_broadcast_message].  The [try]
    block holds the send, the increment of [sent_count] and, every tenth
    sent message, the edit of the status message; whichever of the two calls
    raises, the [except] branch adds one to [failed_count]. *)
Fixpoint broadcast_loop (broadcast_text : string) (total : Z)
    (users : list user_view) (sent_count failed_count : Z)
    : handler (Z * Z) :=
  match users with
  | [] => mret (sent_count, failed_count)
  | user :: rest =>
      sent ← attempt
        (SendMessage (uv_user_id user) (BroadcastMessage broadcast_text));
      if sent : bool then
        let sent_count := sent_count + 1 in
        if bool_decide (sent_count `mod` 10 = 0) then
          edited ← attempt
            (EditText (Broadcasting total sent_count failed_count));
          if edited : bool
          then broadcast_loop broadcast_text total rest
                 sent_count failed_count
          else broadcast_loop broadcast_text total rest
                 sent_count (failed_count + 1)
        else broadcast_loop broadcast_text total rest
               sent_count failed_count
      else broadcast_loop broadcast_text total rest
             sent_count (failed_count + 1)
  end.

Definition handle_broadcast_message (update : tg_update)
    : handler (option Z) :=
  match upd_message update, upd_effective_user update with
  | Some message, Some user =>
      db ← get_db;
      if negb (is_owner_or_admin (tu_id user) db)
      then await (ReplyText AccessDenied []);; mret (Some END)
      else
        let broadcast_text := py_or (m_text message) "No message provided" in
        db ← get_db;
        let users := get_all_users db in
        let total := Z.of_nat (length users) in
        await (ReplyText (Broadcasting total 0 0) []);;
        counts ← broadcast_loop broadcast_text total users 0 0;
        await (EditText (BroadcastCompleted total counts.1 counts.2));;
        mret (Some END)
  | _, _ => mret (Some END)
  end.

Definition cancel_conversation (update : tg_update) : handler (option Z) :=
  match upd_message update with
  | Some _ => await (ReplyText OperationCancelled [])
  | None => mret tt
  end;;
  mret (Some END).

(** *** [bot_handlers.py]

    The typing indicator is a detached task ([asyncio.create_task]): it
    neither delays the handler nor raises into it, and is left out.  So is
    logging.  A [try] around store calls alone guards driver errors only
    and is transparent here. *)

Definition start_command (update : tg_update) : handler (option Z) :=
  match upd_effective_user update, upd_message update with
  | Some user, Some _ =>
      now1 ← now;
      now2 ← now;
      modify_db
        (add_user (tu_id user)
           (py_or (tu_username user) ("user_" +:+ pretty (tu_id user)))
           (py_or (Some (tu_first_name user)) "Unknown")
           (Some (py_or (tu_last_name user) ""))
           now1 now2);;
      now3 ← now;
      modify_db (update_user_activity (tu_id user) now3);;
      let owner := bool_decide (tu_id user ∈ OWNER_IDS) in
      let who :=
        if owner then truthy (tu_username user)
        else Some (tu_first_name user) in
      db ← get_db;
      let bio_message :=
        py_str (get_setting "bio_message" (Some "Welcome to our store!") db) in
      let keyboard :=
        [[Button PremiumFiles "premium_files"]] ++
        (if is_admin (tu_id user) db || owner
         then [[Button AdminPanel "admin_panel"]] else []) in
      await (ReplyText (Welcome owner who bio_message) keyboard);;
      mret None
  | _, _ => mret None
  end.

(** [list(set(product['category'] for product in products))]. *)
Definition categories_of (products : list product) : list string :=
  elements (list_to_set (category <$> products) : gset string).

Definition category_button (c : string) : list button :=
  [Button (CategoryLabel c) ("category_" +:+ c)].

Definition premium_files_callback (update : tg_update)
    : handler (option Z) :=
  match upd_callback_query update with
  | Some query =>
      match q_from_user query with
      | Some from_user =>
          await AnswerQuery;;
          now1 ← now;
          modify_db (update_user_activity (tu_id from_user) now1);;
          db ← get_db;
          let products := get_all_products db in
          let categories := categories_of products in
          match categories with
          | [] =>
              await (EditMessageText NoProductsAvailable
                       [[Button BackToMain "back_to_main"]]);;
              mret None
          | _ =>
              let keyboard :=
                (category_button <$> categories) ++
                [[Button BackToMain "back_to_main"]] in
              await (EditMessageText ChooseCategory keyboard);;
              mret None
          end
      | None => mret None
      end
  | None => mret None
  end.

Definition product_button (p : category_product) : list button :=
  [Button (ProductLabel (cp_name p) (cp_price p))
     ("product_" +:+ pretty (cp_id p))].

Definition category_callback (update : tg_update) : handler (option Z) :=
  match upd_callback_query update with
  | Some query =>
      match q_from_user query, truthy (q_data query) with
      | Some _, Some data =>
          await AnswerQuery;;
          let category := py_replace "category_" "" data in
          db ← get_db;
          let products := get_products_by_category category db in
          match products with
          | [] =>
              await (EditMessageText (NoProductsInCategory category)
                       [[Button BackToCategories "premium_files"]]);;
              mret None
          | _ =>
              let keyboard :=
                (product_button <$> products) ++
                [[Button BackToCategories "premium_files"]] in
              await (EditMessageText (CategoryProducts category) keyboard);;
              mret None
          end
      | _, _ => mret None
      end
  | None => mret None
  end.

(** [create_payment_qr_message]: the amount line is there when the amount
    is not empty. *)
Definition create_payment_qr_message (amount : string) : text :=
  PaymentInstructions (truthy (Some amount)).

Definition buy_now_callback (update : tg_update) : handler (option Z) :=
  match upd_callback_query update with
  | Some query =>
      match q_from_user query, truthy (q_data query) with
      | Some from_user, Some data =>
          await AnswerQuery;;
          product_id ← from_option (py_int (py_replace "buy_" "" data));
          db ← get_db;
          let products := get_all_products db in
          match List.find (λ p, bool_decide (id p = product_id)) products with
          | None => await (EditMessageText ProductNotFound []);; mret None
          | Some product =>
              now1 ← now;
              modify_db
                (add_order (tu_id from_user) (name product) (price product)
                   None now1);;
              let payment_message :=
                create_payment_qr_message (price product) in
              let reply_markup :=
                [[Button UploadScreenshot
                    ("upload_screenshot_" +:+ pretty product_id)];
                 [Button MainMenu "back_to_main"]] in
              (if qr_code_exists then
                 try_except
                   (await OpenQrCode;;
                    await (ReplyPhoto payment_message reply_markup);;
                    await DeleteMessage)
                   (await (EditMessageText payment_message reply_markup))
               else await (EditMessageText payment_message reply_markup));;
              mret None
          end
      | _, _ => mret None
      end
  | None => mret None
  end.

Definition handle_photo (update : tg_update) : handler (option Z) :=
  match upd_message update, upd_effective_user update with
  | Some message, Some user =>
      file_id ← from_option (last (m_photo message));
      try_except
        (now1 ← now;
         modify_db
           (add_order (tu_id user) "Screenshot Upload" "0" (Some file_id)
              now1);;
         await (ReplyText ScreenshotReceived []))
        (await (ReplyText ScreenshotError []));;
      mret None
  | _, _ => mret None
  end.

Definition handle_message (update : tg_update) : handler (option Z) :=
  match upd_message update, upd_effective_user update with
  | Some _, Some user =>
      now1 ← now;
      now2 ← now;
      modify_db
        (add_user (tu_id user)
           (py_or (tu_username user) ("user_" +:+ pretty (tu_id user)))
           (py_or (Some (tu_first_name user)) "Unknown")
           (Some (py_or (tu_last_name user) ""))
           now1 now2);;
      await (ReplyText Hello [[Button GetStarted "back_to_main"]]);;
      mret None
  | _, _ => mret None
  end.

End Handlers.

(** ** Every write the store offers

    The handlers hold the store only through [self.db]; whatever the bot does
    to the database file is a sequence of these calls. *)
Inductive db_write :=
  | AddUser (user_id : Z) (username first_name : string)
      (last_name : option string) (now1 now2 : timestamp)
  | UpdateUserActivity (user_id : Z) (now : timestamp)
  | AddAdmin (user_id : Z) (username : string) (added_by : Z) (now : timestamp)
  | RemoveAdmin (user_id : Z)
  | AddProduct (category name features price description : string)
      (now : timestamp)
  | DeleteProduct (product_id : Z)
  | AddOrder (user_id : Z) (product_name amount : string)
      (screenshot_file_id : option string) (now : timestamp)
  | SetSetting (key value : string).

Definition run_write (op : db_write) : database → database :=
  match op with
  | AddUser u n f l t1 t2 => add_user u n f l t1 t2
  | UpdateUserActivity u t => update_user_activity u t
  | AddAdmin u n b t => add_admin u n b t
  | RemoveAdmin u => remove_admin u
  | AddProduct c n f p d t => add_product c n f p d t
  | DeleteProduct i => delete_product i
  | AddOrder u n a s t => add_order u n a s t
  | SetSetting k v => set_setting k v
  end.

Definition run_writes (ops : list db_write) (db : database) : database :=
  foldl (λ db op, run_write op db) db ops.

(** Whether a write grants admin rights to [user_id]. *)
Definition grants_admin (user_id : Z) (op : db_write) : Prop :=
  match op with
  | AddAdmin u _ _ _ => u = user_id
  | _ => False
  end.

(** ** The other handlers

    The handlers of [admin_handlers.py], [bot_handlers.py] and [main.py]
    that are not above send texts and keyboards of their own; they run in
    the same kind of monad, over a list of requests that takes those in. *)

(** [format_admin_stats]: the two numbers of the statistics text. *)
Record admin_stats := AdminStats {
  st_user_count : Z;
  st_product_count : Z }.

Definition format_admin_stats (db : database) : admin_stats :=
  AdminStats (get_user_count db) (Z.of_nat (length (get_all_products db))).

(** The dictionaries [get_all_users] returns, by their items. *)
Inductive py_value :=
  | PyInt (z : Z)
  | PyStr (s : string)
  | PyNone.

Definition user_dict (user : user_view) : list (string * py_value) :=
  [("user_id", PyInt (uv_user_id user));
   ("username", PyStr (uv_username user));
   ("first_name", PyStr (uv_first_name user));
   ("last_name",
    match uv_last_name user with Some s => PyStr s | None => PyNone end);
   ("joined_date", PyStr (uv_joined_date user));
   ("last_activity", PyStr (uv_last_activity user))].

(** [d[key]] ([None]: a [KeyError]) and [d.get(key, default)]. *)
Definition dict_item (d : list (string * py_value)) (key : string)
    : option py_value :=
  snd <$> List.find (λ kv, String.eqb kv.1 key) d.

Definition dict_get (d : list (string * py_value)) (key : string)
    (default : py_value) : py_value :=
  match dict_item d key with
  | Some value => value
  | None => default
  end.

(** What [view_users_callback] writes for one user: the number, and the
    values of the first name, the username, the id and the join date. *)
Record user_entry := UserEntry {
  ue_number : Z;
  ue_first_name : py_value;
  ue_username : py_value;
  ue_user_id : py_value;
  ue_joined : py_value }.

(** The texts of these handlers; [Known] takes in the texts above. *)
Inductive page :=
  | Known (t : text)
  | AdminAccessDenied
  | AdminPanelPage (stats : admin_stats)
  | ChangeBioPage (current_bio : string)
  | ProductManagementPage (product_count : Z)
  | NoProductsPage
  | AllProductsPage (products : list product)
  | UserManagementPage (user_count : Z)
  | NoUsersPage
  | AllUsersPage (entries : list user_entry) (more : option Z)
  | BroadcastPage (user_count : Z)
  | BroadcastUsage
  | BroadcastLine (message : string)
  | BroadcastSent (sent_count : Z)
  | ProductDetails (p : product)        (* format_product_message *)
  | BioPage (bio_message : string)
  | ActionNotAvailable
  | ErrorOccurred.

Inductive menu_label :=
  | ChangeBioButton
  | ManageProductsButton
  | UserManagementButton
  | BroadcastButton
  | BackToMainButton
  | AdminManagementButton
  | CancelButton
  | ViewAllProductsButton
  | AddNewProductButton
  | EditProductButton
  | DeleteProductButton
  | BackToAdminPanelButton
  | BackToProductsButton
  | ViewAllUsersButton
  | UserStatisticsButton
  | BackToUserManagementButton
  | BuyNowButton
  | BackButton
  | PremiumFilesButton
  | AdminPanelButton.

Record menu_button := MenuButton { mb_label : menu_label; mb_data : string }.

Inductive request :=
  | Plain (c : call)
  | EditMenu (p : page) (reply_markup : list (list menu_button))
      (* query.edit_message_text *)
  | ReplyPage (p : page)
      (* update.message.reply_text *)
  | SendPage (chat_id : Z) (p : page)
      (* context.bot.send_message *)
  | AnswerAlert (p : page).
      (* query.answer(text) *)

Record session := Session {
  s_db : database;
  s_tick : nat;
  s_sent : list request }.

Definition action (A : Type) : Type := session → outcome A * session.

Global Instance action_ret : MRet action :=
  λ A a s, (Returned a, s).

Global Instance action_bind : MBind action :=
  λ A B f m s,
    match m s with
    | (Returned a, s') => f a s'
    | (Raised, s') => (Raised, s')
    end.

Definition fail {A} : action A := λ s, (Raised, s).

Definition read_db : action database := λ s, (Returned (s_db s), s).

Definition write_db (f : database → database) : action unit :=
  λ s, (Returned tt, Session (f (s_db s)) (s_tick s) (s_sent s)).

Definition or_fail {A} (o : option A) : action A :=
  match o with
  | Some a => mret a
  | None => fail
  end.

(** [keyboard.insert(-1, row)]: before the last row. *)
Definition insert_before_last {A} (x : A) (l : list A) : list A :=
  take (length l - 1) l ++ x :: drop (length l - 1) l.

(** [' '.join(args)]. *)
Fixpoint join_words (args : list string) : string :=
  match args with
  | [] => ""
  | [a] => a
  | a :: rest => a +:+ " " +:+ join_words rest
  end.

(** The bio [_init_default_data] stores when there is none. *)
Definition default_bio : string :=
  "🚀 *Welcome to Premium Digital Store!* 🚀

🎯 Get premium apps & tools
💎 Quality guaranteed products
⚡ Instant delivery after payment
🛡️ 100% secure transactions

💬 Contact: @Abdul20298".

(** [WAITING_BIO] and [WAITING_BROADCAST]. *)
Definition WAITING_BIO : Z := 1.
Definition WAITING_BROADCAST : Z := 2.

Section MoreHandlers.
Variable OWNER_IDS : list Z.
Variable net : request → bool.
Variable clock : nat → string.

Definition send (r : request) : action unit :=
  λ s,
    if net r
    then (Returned tt, Session (s_db s) (s_tick s) (s_sent s ++ [r]))
    else (Raised, s).

(** [try: await r  except Exception: ...], telling which branch ran. *)
Definition try_send (r : request) : action bool :=
  λ s,
    match send r s with
    | (Returned _, s') => (Returned true, s')
    | (Raised, s') => (Returned false, s')
    end.

Definition read_clock : action string :=
  λ s, (Returned (clock (s_tick s)),
        Session (s_db s) (S (s_tick s)) (s_sent s)).

(** *** [bot_handlers.py] *)

(** [_init_default_data]: [not self.db.get_setting('bio_message')] holds for
    a missing bio and for an empty one; [not self.db.get_all_products()] for
    an empty catalog. *)
Definition _init_default_data : action unit :=
  db ← read_db;
  match truthy (get_setting "bio_message" None db) with
  | None => write_db (set_setting "bio_message" default_bio)
  | Some _ => mret tt
  end;;
  db ← read_db;
  match get_all_products db with
  | [] =>
      now1 ← read_clock;
      write_db
        (add_product "Diuwin" "Diuwin Premium"
           "Premium features, Ad-free experience, Priority support"
           "299" "Complete premium access to Diuwin application" now1);;
      now2 ← read_clock;
      write_db
        (add_product "Cricket 24" "Cricket 24 Pro"
           "Live scores, Premium stats, Ad-free viewing"
           "199" "Professional cricket tracking and statistics" now2)
  | _ => mret tt
  end.

Definition show_product_details (p : product) : action unit :=
  send (EditMenu (ProductDetails p)
          [[MenuButton BuyNowButton ("buy_" +:+ pretty (id p))];
           [MenuButton BackToProductsButton ("category_" +:+ category p)]]).

Definition product_callback (update : tg_update) : action (option Z) :=
  match upd_callback_query update with
  | Some query =>
      match q_from_user query, truthy (q_data query) with
      | Some _, Some data =>
          send (Plain AnswerQuery);;
          product_id ← or_fail (py_int (py_replace "product_" "" data));
          db ← read_db;
          let products := get_all_products db in
          match List.find (λ p, bool_decide (id p = product_id)) products with
          | None =>
              send (EditMenu (Known ProductNotFound)
                      [[MenuButton BackButton "premium_files"]]);;
              mret None
          | Some p => show_product_details p;; mret None
          end
      | _, _ => mret None
      end
  | None => mret None
  end.

Definition back_to_main_callback (update : tg_update) : action (option Z) :=
  match upd_callback_query update with
  | Some query =>
      match q_from_user query with
      | Some user =>
          send (Plain AnswerQuery);;
          db ← read_db;
          let bio_message :=
            py_str (get_setting "bio_message" (Some "Welcome to our store!") db) in
          let keyboard :=
            [[MenuButton PremiumFilesButton "premium_files"]] ++
            (if is_admin (tu_id user) db || bool_decide (tu_id user ∈ OWNER_IDS)
             then [[MenuButton AdminPanelButton "admin_panel"]] else []) in
          send (EditMenu (BioPage bio_message) keyboard);;
          mret None
      | None => mret None
      end
  | None => mret None
  end.

(** *** [admin_handlers.py] *)

Definition admin_panel_callback (update : tg_update) : action (option Z) :=
  match upd_callback_query update with
  | Some query =>
      match q_from_user query with
      | Some user =>
          send (Plain AnswerQuery);;
          db ← read_db;
          if negb (is_owner_or_admin OWNER_IDS (tu_id user) db)
          then
            send (EditMenu AdminAccessDenied
                    [[MenuButton BackButton "back_to_main"]]);;
            mret None
          else
            db ← read_db;
            let stats := format_admin_stats db in
            let keyboard :=
              [[MenuButton ChangeBioButton "admin_change_bio"];
               [MenuButton ManageProductsButton "admin_manage_products"];
               [MenuButton UserManagementButton "admin_user_management"];
               [MenuButton BroadcastButton "admin_broadcast"];
               [MenuButton BackToMainButton "back_to_main"]] in
            let keyboard :=
              if bool_decide (tu_id user ∈ OWNER_IDS)
              then insert_before_last
                     [MenuButton AdminManagementButton "admin_manage_admins"]
                     keyboard
              else keyboard in
            try_send (EditMenu (AdminPanelPage stats) keyboard);;
            mret None
      | None => mret None
      end
  | None => mret None
  end.

(** The common start of the admin callbacks: acknowledge, then refuse who
    is neither owner nor admin. *)
Definition privileged_callback (update : tg_update)
    (body : database → action (option Z)) : action (option Z) :=
  match upd_callback_query update with
  | Some query =>
      match q_from_user query with
      | Some user =>
          send (Plain AnswerQuery);;
          db ← read_db;
          if negb (is_owner_or_admin OWNER_IDS (tu_id user) db)
          then send (Plain (EditMessageText AccessDenied []));; mret None
          else body db
      | None => mret None
      end
  | None => mret None
  end.

Definition change_bio_callback (update : tg_update) : action (option Z) :=
  privileged_callback update (λ db,
    let current_bio :=
      py_str (get_setting "bio_message" (Some "Default bio message") db) in
    send (EditMenu (ChangeBioPage current_bio)
            [[MenuButton CancelButton "admin_panel"]]);;
    mret (Some WAITING_BIO)).

Definition manage_products_callback (update : tg_update)
    : action (option Z) :=
  privileged_callback update (λ db,
    let products := get_all_products db in
    let product_count := Z.of_nat (length products) in
    send (EditMenu (ProductManagementPage product_count)
            [[MenuButton ViewAllProductsButton "admin_view_products"];
             [MenuButton AddNewProductButton "admin_add_product"];
             [MenuButton EditProductButton "admin_edit_product"];
             [MenuButton DeleteProductButton "admin_delete_product"];
             [MenuButton BackToAdminPanelButton "admin_panel"]]);;
    mret None).

Definition view_products_callback (update : tg_update) : action (option Z) :=
  privileged_callback update (λ db,
    let products := get_all_products db in
    let message :=
      match products with
      | [] => NoProductsPage
      | _ => AllProductsPage products
      end in
    send (EditMenu message
            [[MenuButton BackToProductsButton "admin_manage_products"]]);;
    mret None).

Definition user_management_callback (update : tg_update)
    : action (option Z) :=
  privileged_callback update (λ db,
    let user_count := get_user_count db in
    send (EditMenu (UserManagementPage user_count)
            [[MenuButton ViewAllUsersButton "admin_view_users"];
             [MenuButton UserStatisticsButton "admin_user_stats"];
             [MenuButton BackToAdminPanelButton "admin_panel"]]);;
    mret None).

(** [for i, user in enumerate(users[:10], 1)]: the entries of the users
    page; [user['user_id']] of a dictionary without that key raises. *)
Fixpoint user_entries (i : Z) (users : list user_view)
    : option (list user_entry) :=
  match users with
  | [] => Some []
  | user :: rest =>
      let d := user_dict user in
      let username := dict_get d "username" (PyStr "No username") in
      let first_name := dict_get d "first_name" (PyStr "Unknown") in
      user_id ← dict_item d "user_id";
      let joined := dict_get d "created_at" (PyStr "Unknown") in
      entries ← user_entries (i + 1) rest;
      Some (UserEntry i first_name username user_id joined :: entries)
  end.

(** [view_users_callback]: the first ten users, then how many are left. *)
Definition view_users_callback (update : tg_update) : action (option Z) :=
  privileged_callback update (λ db,
    let users := get_all_users db in
    message ←
      match users with
      | [] => mret NoUsersPage
      | _ =>
          entries ← or_fail (user_entries 1 (take 10 users));
          mret (AllUsersPage entries
                  (if bool_decide (10 < length users)%nat
                   then Some (Z.of_nat (length users) - 10) else None))
      end;
    send (EditMenu message
            [[MenuButton BackToUserManagementButton "admin_user_management"]]);;
    mret None).

Definition broadcast_callback (update : tg_update) : action (option Z) :=
  privileged_callback update (λ db,
    let user_count := get_user_count db in
    send (EditMenu (BroadcastPage user_count)
            [[MenuButton CancelButton "admin_panel"]]);;
    mret (Some WAITING_BROADCAST)).

(** The loop of [broadcast_command]: only the send is in the [try]. *)
Fixpoint broadcast_command_loop (message : string) (users : list user_view)
    (sent_count : Z) : action Z :=
  match users with
  | [] => mret sent_count
  | user :: rest =>
      sent ← try_send (SendPage (uv_user_id user) (BroadcastLine message));
      if sent : bool
      then broadcast_command_loop message rest (sent_count + 1)
      else broadcast_command_loop message rest sent_count
  end.

Definition broadcast_command (update : tg_update) (args : list string)
    : action (option Z) :=
  match upd_effective_user update, upd_message update with
  | Some user, Some _ =>
      db ← read_db;
      if negb (is_owner_or_admin OWNER_IDS (tu_id user) db)
      then send (Plain (ReplyText AccessDenied []));; mret None
      else
        match args with
        | [] => send (ReplyPage BroadcastUsage);; mret None
        | _ =>
            let message := join_words args in
            db ← read_db;
            let users := get_all_users db in
            sent_count ← broadcast_command_loop message users 0;
            send (ReplyPage (BroadcastSent sent_count));;
            mret None
        end
  | _, _ => mret None
  end.

(** *** [main.py] *)

Definition handle_unknown_callback (update : tg_update) : action (option Z) :=
  match upd_callback_query update with
  | Some _ => send (AnswerAlert ActionNotAvailable);; mret None
  | None => mret None
  end.

(** [error_handler]; [effective_chat] stands for
    [update.effective_chat] of an update that is there, [None] otherwise. *)
Definition error_handler (effective_chat : option Z) : action (option Z) :=
  match effective_chat with
  | Some chat_id => try_send (SendPage chat_id ErrorOccurred);; mret None
  | None => mret None
  end.

End MoreHandlers.

(** ** [utils.py] *)

(** *** [chunk_list] *)

(** [range(start, stop, step)]; a zero step is a [ValueError] ([None]). *)
Definition py_range (start stop step : Z) : option (list Z) :=
  if bool_decide (step = 0) then None
  else
    let count :=
      if bool_decide (0 < step)
      then (stop - start + step - 1) `div` step
      else (start - stop - step - 1) `div` (- step) in
    Some ((λ j : nat, start + Z.of_nat j * step) <$> seq 0 (Z.to_nat count)).

(** [lst[i:j]] for bounds that are not negative. *)
Definition py_slice {A} (lst : list A) (i j : Z) : list A :=
  take (Z.to_nat j - Z.to_nat i) (drop (Z.to_nat i) lst).

(** [[lst[i:i + chunk_size] for i in range(0, len(lst), chunk_size)]]. *)
Definition chunk_list {A} (lst : list A) (chunk_size : Z)
    : option (list (list A)) :=
  match py_range 0 (Z.of_nat (length lst)) chunk_size with
  | Some starts => Some ((λ i, py_slice lst i (i + chunk_size)) <$> starts)
  | None => None
  end.

(** *** [escape_markdown] *)

Fixpoint chars (s : string) : list ascii :=
  match s with
  | EmptyString => []
  | String c s' => c :: chars s'
  end.

Definition escape_chars : string := "_*[]()~`>#+-=|{}.!".

(** [for char in escape_chars: text = text.replace(char, f'\\{char}')]. *)
Definition escape_markdown (text : string) : string :=
  foldl (λ text char, py_replace (String char "") ("\" +:+ String char "") text)
    text (chars escape_chars).

(** *** [is_owner] *)

Section IsOwner.
(** [config.OWNER_IDS] and [config.OWNER_USERNAMES]. *)
Variable OWNER_IDS : list Z.
Variable OWNER_USERNAMES : list string.

Definition is_owner (user_id : Z) (username : option string) : bool :=
  if bool_decide (user_id ∈ OWNER_IDS) then true
  else
    match truthy username with
    | Some u => bool_decide (py_replace "@" "" u ∈ OWNER_USERNAMES)
    | None => false
    end.
End IsOwner.

(** ** [qr_code.py] *)

(** The manager holds the path of the QR image; the files are a map from
    paths to contents.  [writable] tells whether directory creation and the
    write under a path succeed. *)
Record qr_manager := QRCodeManager { qr_file_path : string }.

Definition new_qr_manager : qr_manager :=
  QRCodeManager "static/qr_payment.jpg".

Definition get_qr_code_path (self : qr_manager) : string := qr_file_path self.

Definition qr_code_exists (self : qr_manager) (files : gmap string string)
    : bool :=
  bool_decide (is_Some (files !! qr_file_path self)).

(** [save_qr_code]: the new path is the old one with every [".jpg"]
    replaced by ["." + file_extension]; a failure inside the [try] returns
    [False] before the path is set, and is taken to leave no file behind. *)
Definition save_qr_code (writable : string → bool) (file_content : string)
    (file_extension : string) (self : qr_manager)
    (files : gmap string string) : bool * qr_manager * gmap string string :=
  let file_path :=
    py_replace ".jpg" ("." +:+ file_extension) (qr_file_path self) in
  if writable file_path
  then (true, QRCodeManager file_path, <[file_path := file_content]> files)
  else (false, self, files).

(** ** [main.py]: which handler a pressed button reaches *)

(** The patterns [setup_handlers] uses: ["^s$"] and ["^s"]. *)
Inductive pattern :=
  | Whole (s : string)
  | Start (s : string).

Definition newline : string := String (ascii_of_nat 10) "".

(** [re.match(pattern, data)]; [$] also matches before a newline that ends
    the data. *)
Definition re_match (p : pattern) (data : string) : bool :=
  match p with
  | Whole s => String.eqb data s || String.eqb data (s +:+ newline)
  | Start s => String.prefix s data
  end.

(** The callbacks [setup_handlers] registers for callback queries. *)
Inductive callback :=
  | To_change_bio_callback
  | To_broadcast_callback
  | To_cancel_conversation
  | To_admin_panel_callback
  | To_manage_products_callback
  | To_view_products_callback
  | To_user_management_callback
  | To_view_users_callback
  | To_premium_files_callback
  | To_category_callback
  | To_product_callback
  | To_buy_now_callback
  | To_back_to_main_callback
  | To_handle_unknown_callback.

(** A [CallbackQueryHandler] with a pattern takes a query whose data
    matches it. *)
Definition check_update (p : pattern) (data : option string) : bool :=
  match data with
  | Some data => re_match p data
  | None => false
  end.

(** A conversation offers a callback query to its entry point while it is
    idle for the user, and to its fallbacks while it waits for a message:
    the handlers of its states take messages only, and of the fallbacks only
    the one on ["^admin_panel$"] takes callback queries. *)
Definition conversation (entry_point : pattern * callback)
    (state : option Z) (data : option string) : option callback :=
  match state with
  | None =>
      if check_update entry_point.1 data then Some entry_point.2 else None
  | Some _ =>
      if check_update (Whole "admin_panel") data
      then Some To_cancel_conversation else None
  end.

Definition bio_conversation :=
  conversation (Whole "admin_change_bio", To_change_bio_callback).

Definition broadcast_conversation :=
  conversation (Whole "admin_broadcast", To_broadcast_callback).

(** The handlers with a pattern, in the order [setup_handlers] adds them. *)
Definition callback_handlers : list (pattern * callback) :=
  [(Whole "admin_panel", To_admin_panel_callback);
   (Whole "admin_manage_products", To_manage_products_callback);
   (Whole "admin_view_products", To_view_products_callback);
   (Whole "admin_user_management", To_user_management_callback);
   (Whole "admin_view_users", To_view_users_callback);
   (Whole "premium_files", To_premium_files_callback);
   (Start "category_", To_category_callback);
   (Start "product_", To_product_callback);
   (Start "buy_", To_buy_now_callback);
   (Whole "back_to_main", To_back_to_main_callback)].

(** All handlers are in one group: a callback query goes to the first one
    added that takes it, the two conversations first and the handler without
    a pattern last. *)
Definition setup_handlers (bio_state broadcast_state : option Z)
    (data : option string) : callback :=
  match bio_conversation bio_state data with
  | Some c => c
  | None =>
      match broadcast_conversation broadcast_state data with
      | Some c => c
      | None =>
          match List.find (λ h, check_update h.1 data) callback_handlers with
          | Some h => h.2
          | None => To_handle_unknown_callback
          end
      end
  end.

(** * Properties *)

(** ** The store *)

Section Autoincrement.
Context {A : Type}.
Implicit Types (t : gmap Z A) (l : list (Z * A)).

Lemma max_key_ge l k v :
  (k, v) ∈ l → k ≤ foldr (λ kr acc, Z.max kr.1 acc) 0 l.
Proof.
  induction l as [|[k' v'] l IH]; intros Hin.
  - by apply elem_of_nil in Hin.
  - apply elem_of_cons in Hin as [Heq | Hin]; simpl.
    + injection Heq as -> ->. lia.
    + specialize (IH Hin). lia.
Qed.

Lemma max_rowid_ge t k v : t !! k = Some v → k ≤ max_rowid t.
Proof.
  intros Hk. unfold max_rowid.
  apply (max_key_ge _ k v). by apply elem_of_map_to_list.
Qed.

(** The key an [AUTOINCREMENT] insert picks is not in the table. *)
Lemma autoincrement_fresh seq t : t !! autoincrement seq t = None.
Proof.
  destruct (t !! autoincrement seq t) as [v|] eqn:Hk; [|done].
  apply max_rowid_ge in Hk. unfold autoincrement in Hk. lia.
Qed.

Lemma autoincrement_gt_seq seq t : seq < autoincrement seq t.
Proof. unfold autoincrement. lia. Qed.
End Autoincrement.

(** C5. [set_setting(K, V)] followed by [get_setting(K)] with no default
    returns exactly V; for a key K that is not in the settings table,
    [get_setting(K, D)] returns the default D, whatever D is. *)
Theorem setting_write_then_read (K V : string) (D : option string)
    (db : database) :
  get_setting K None (set_setting K V db) = Some V ∧
  (settings db !! K = None → get_setting K D db = D).
Proof.
  split.
  - unfold get_setting, set_setting; simpl. by rewrite lookup_insert_eq.
  - intros Habsent. unfold get_setting. by rewrite Habsent.
Qed.

Lemma setting_write_then_read_witness :
  get_setting "bio_message" None
    (set_setting "bio_message" "Hi" empty_database) = Some "Hi" ∧
  get_setting "bio_message" (Some "Welcome to our store!") empty_database
    = Some "Welcome to our store!".
Proof.
  destruct (setting_write_then_read "bio_message" "Hi"
              (Some "Welcome to our store!") empty_database) as [Hset Hget].
  split; [exact Hset | apply Hget; reflexivity].
Defined.

(** C6. [delete_product] of an id that is not in the catalog leaves the
    whole store as it was (the function is total: there is no fault to
    raise), and deleting the same id twice is the same as deleting it
    once. *)
Theorem delete_product_absent_and_idempotent (product_id : Z)
    (db : database) :
  (products db !! product_id = None → delete_product product_id db = db) ∧
  delete_product product_id (delete_product product_id db)
    = delete_product product_id db.
Proof.
  destruct db as [us ads ps pseq os oseq ss]; unfold delete_product; simpl.
  split.
  - intros Habsent. by rewrite delete_id.
  - by rewrite delete_delete_eq.
Qed.

Lemma delete_product_absent_and_idempotent_witness :
  let db := add_product "Apps" "A" "f" "10" "d" "t0" empty_database in
  delete_product 7 db = db ∧
  delete_product 1 (delete_product 1 db) = delete_product 1 db.
Proof.
  intros db.
  destruct (delete_product_absent_and_idempotent 7 db) as [Habsent _].
  destruct (delete_product_absent_and_idempotent 1 db) as [_ Htwice].
  split; [apply Habsent; reflexivity | exact Htwice].
Defined.

(** The count of an aggregate over the rows that pass a filter. *)
Lemma count_filter_length {A} (P : A → Prop) `{∀ x, Decision (P x)}
    (l : list A) :
  foldr (λ x n, if bool_decide (P x) then n + 1 else n) 0 l
    = Z.of_nat (length (filter P l)).
Proof.
  induction l as [|x l IH]; simpl; [done|].
  rewrite filter_cons. case_bool_decide; case_decide; try done; simpl; lia.
Qed.

(** The rows [get_all_users] returns: one for each user id whose row has
    the blocked flag at 0. *)
Lemma elem_of_get_all_users (db : database) (v : user_view) :
  v ∈ get_all_users db ↔
  ∃ r, users db !! uv_user_id v = Some r ∧ u_is_blocked r = 0 ∧
       v = user_view_of (uv_user_id v, r).
Proof.
  unfold get_all_users. rewrite list_elem_of_fmap. split.
  - intros [[k r] [-> [Hnb Hin]%list_elem_of_filter]].
    apply elem_of_map_to_list in Hin. by exists r.
  - intros (r & Hr & Hnb & Hv). exists (uv_user_id v, r). split; [done|].
    apply list_elem_of_filter. split; [done|]. by apply elem_of_map_to_list.
Qed.

Lemma get_all_users_ids (db : database) :
  uv_user_id <$> get_all_users db
    = (filter not_blocked (map_to_list (users db))).*1.
Proof.
  unfold get_all_users. rewrite <- list_fmap_compose.
  by apply list_fmap_ext.
Qed.

Lemma NoDup_get_all_users_ids (db : database) :
  NoDup (uv_user_id <$> get_all_users db).
Proof.
  rewrite get_all_users_ids.
  eapply sublist_NoDup; [apply (NoDup_fst_map_to_list (users db))|].
  apply fmap_sublist, sublist_filter.
Qed.

Lemma elem_of_get_all_users_ids (db : database) (uid : Z) :
  uid ∈ uv_user_id <$> get_all_users db ↔
  ∃ r, users db !! uid = Some r ∧ u_is_blocked r = 0.
Proof.
  rewrite list_elem_of_fmap. split.
  - intros (v & -> & (r & Hr & Hnb & _)%elem_of_get_all_users). by exists r.
  - intros (r & Hr & Hnb). exists (user_view_of (uid, r)). split; [done|].
    apply elem_of_get_all_users. by exists r.
Qed.

(** C10. In every database state [get_user_count()] is the length of the
    sequence [get_all_users()] returns; that sequence holds each user id
    whose blocked flag is 0, and no other, once. *)
Theorem user_count_is_length_of_all_users (db : database) :
  get_user_count db = Z.of_nat (length (get_all_users db)) ∧
  (∀ uid, uid ∈ uv_user_id <$> get_all_users db ↔
          ∃ r, users db !! uid = Some r ∧ u_is_blocked r = 0) ∧
  NoDup (uv_user_id <$> get_all_users db).
Proof.
  split; [|split].
  - unfold get_user_count, get_all_users.
    by rewrite (count_filter_length not_blocked), length_fmap.
  - apply elem_of_get_all_users_ids.
  - apply NoDup_get_all_users_ids.
Qed.

(** ** The catalog *)

Lemma elem_of_get_products_by_category (C : string) (db : database)
    (cp : category_product) :
  cp ∈ get_products_by_category C db ↔
  ∃ r, products db !! cp_id cp = Some r ∧ p_category r = C ∧
       cp = category_product_of (cp_id cp, r).
Proof.
  unfold get_products_by_category. rewrite list_elem_of_fmap. split.
  - intros [[k r] [-> [Hcat Hin]%list_elem_of_filter]].
    apply elem_of_map_to_list in Hin. by exists r.
  - intros (r & Hr & Hcat & Hcp). exists (cp_id cp, r). split; [done|].
    apply list_elem_of_filter. split; [done|]. by apply elem_of_map_to_list.
Qed.

Lemma NoDup_get_products_by_category (C : string) (db : database) :
  NoDup (cp_id <$> get_products_by_category C db).
Proof.
  unfold get_products_by_category. rewrite <- list_fmap_compose.
  eapply sublist_NoDup; [apply (NoDup_fst_map_to_list (products db))|].
  erewrite list_fmap_ext; [apply fmap_sublist, sublist_filter|done].
Qed.

Lemma elem_of_get_all_products (db : database) (p : product) :
  p ∈ get_all_products db ↔
  ∃ r, products db !! id p = Some r ∧ p = product_of (id p, r).
Proof.
  unfold get_all_products. rewrite list_elem_of_fmap. split.
  - intros [[k r] [-> Hin]]. apply elem_of_map_to_list in Hin. by exists r.
  - intros (r & Hr & Hp). exists (id p, r). split; [done|].
    by apply elem_of_map_to_list.
Qed.

Lemma elem_of_categories_of (db : database) (c : string) :
  c ∈ categories_of (get_all_products db) ↔
  ∃ k r, products db !! k = Some r ∧ p_category r = c.
Proof.
  unfold categories_of.
  rewrite elem_of_elements, elem_of_list_to_set, list_elem_of_fmap. split.
  - intros (p & -> & (r & Hr & ->)%elem_of_get_all_products).
    by exists (id (product_of (id p, r))), r.
  - intros (k & r & Hr & <-). exists (product_of (k, r)). split; [done|].
    apply elem_of_get_all_products. by exists r.
Qed.

(** [get_products_by_category(C)] returns exactly the products whose
    category is C, byte for byte (each once; the empty sequence when none
    matches), and [categories_of] holds exactly the distinct category values
    of the products, each once. *)
Lemma category_lookup_and_categories (C : string) (db : database) :
  (∀ cp, cp ∈ get_products_by_category C db ↔
         ∃ r, products db !! cp_id cp = Some r ∧ p_category r = C ∧
              cp = category_product_of (cp_id cp, r)) ∧
  NoDup (cp_id <$> get_products_by_category C db) ∧
  ((∀ k r, products db !! k = Some r → p_category r ≠ C) →
   get_products_by_category C db = []) ∧
  (∀ c, c ∈ categories_of (get_all_products db) ↔
        ∃ k r, products db !! k = Some r ∧ p_category r = c) ∧
  NoDup (categories_of (get_all_products db)).
Proof.
  split; [|split; [|split; [|split]]].
  - apply elem_of_get_products_by_category.
  - apply NoDup_get_products_by_category.
  - intros Hnone.
    destruct (get_products_by_category C db) as [|cp l] eqn:Hl; [done|].
    assert (cp ∈ get_products_by_category C db) as Hin
      by (rewrite Hl; apply elem_of_cons; by left).
    apply elem_of_get_products_by_category in Hin as (r & Hr & Hcat & _).
    by destruct (Hnone _ _ Hr).
  - apply elem_of_categories_of.
  - unfold categories_of. apply NoDup_elements.
Qed.

(** Products A (category Apps) and B (category Games). *)
Definition two_products : database :=
  add_product "Games" "B" "fb" "20" "db" "t1"
    (add_product "Apps" "A" "fa" "10" "da" "t0" empty_database).

(** ** Access control *)

Lemma is_admin_spec (user_id : Z) (db : database) :
  is_admin user_id db = true ↔ is_Some (admins db !! user_id).
Proof.
  unfold is_admin. destruct (admins db !! user_id) as [row|].
  - split; [by eexists | done].
  - split; [done | by intros [? ?]].
Qed.

Lemma is_owner_or_admin_spec (OWNER_IDS : list Z) (user_id : Z)
    (db : database) :
  is_owner_or_admin OWNER_IDS user_id db = true ↔
  user_id ∈ OWNER_IDS ∨ is_Some (admins db !! user_id).
Proof.
  unfold is_owner_or_admin.
  rewrite orb_true_iff, bool_decide_eq_true, is_admin_spec. tauto.
Qed.

(** A write other than [add_admin] for that id leaves a non-admin a
    non-admin. *)
Lemma run_write_keeps_non_admin (user_id : Z) (op : db_write)
    (db : database) :
  ¬ grants_admin user_id op →
  admins db !! user_id = None →
  admins (run_write op db) !! user_id = None.
Proof.
  intros Hop Hnone. destruct op; simpl in *; try done.
  - rewrite lookup_insert_ne; [done|]. by intros ->.
  - apply lookup_delete_None. by right.
Qed.

Lemma run_writes_keep_non_admin (user_id : Z) (ops : list db_write)
    (db : database) :
  Forall (λ op, ¬ grants_admin user_id op) ops →
  admins db !! user_id = None →
  admins (run_writes ops db) !! user_id = None.
Proof.
  intros Hops. revert db.
  induction Hops as [|op ops Hop _ IH]; intros db Hnone; simpl; [done|].
  apply IH. by apply run_write_keeps_non_admin.
Qed.

(** C4, as the code has it.  For every user id, owner set and admin table
    the check is true exactly when the id is in the owner set or in the admin
    table of the state it is called on.  Removing an id that is not an owner
    from the admin table makes the check false in the resulting state and
    in every later state, until [add_admin] is called for that id again. *)
Theorem privilege_check_reads_current_tables (OWNER_IDS : list Z)
    (user_id : Z) (db : database) :
  (is_owner_or_admin OWNER_IDS user_id db = true ↔
   user_id ∈ OWNER_IDS ∨ is_Some (admins db !! user_id)) ∧
  (user_id ∉ OWNER_IDS →
   ∀ ops, Forall (λ op, ¬ grants_admin user_id op) ops →
     is_owner_or_admin OWNER_IDS user_id
       (run_writes ops (remove_admin user_id db)) = false).
Proof.
  split; [apply is_owner_or_admin_spec|].
  intros Hnot_owner ops Hops.
  apply not_true_is_false. intros [Hown | Hadm]%is_owner_or_admin_spec.
  - done.
  - rewrite (run_writes_keep_non_admin user_id ops) in Hadm.
    + by destruct Hadm.
    + done.
    + simpl. apply lookup_delete_eq.
Qed.

Lemma privilege_check_reads_current_tables_witness :
  let db := add_admin 2 "x" 1 "t0" empty_database in
  is_owner_or_admin [1] 2 db = true ∧
  is_owner_or_admin [1] 2
    (run_writes [SetSetting "bio_message" "Hi"; AddOrder 2 "A" "10" None "t1"]
       (remove_admin 2 db)) = false.
Proof.
  intros db.
  destruct (privilege_check_reads_current_tables [1] 2 db) as [Hiff Hrevoke].
  split.
  - apply Hiff. right. by eexists.
  - apply Hrevoke.
    + by intros ?%list_elem_of_singleton.
    + repeat constructor; by intros [].
Defined.

(** C4, as stated, fails for an owner: an owner who is also in the admin
    table passes the check after being removed from the table. *)
Lemma revoked_owner_still_privileged :
  let db := add_admin 1 "owner" 1 "t0" empty_database in
  admins (remove_admin 1 db) !! 1 = None ∧
  is_owner_or_admin [1] 1 (remove_admin 1 db) ≠ false.
Proof. by vm_compute. Qed.

(** ** Users and the blocked flag *)

(** C9. For a user id whose row has the blocked flag set, [add_user]
    replaces the whole row: the new row holds the arguments, the blocked flag
    0 and the time of the call as join time, whatever the old row held, and
    no other row changes.  The id was not in [get_all_users] before and is
    in it afterwards; so it is after [handle_message] or [start_command]
    handled a message of that user.  A photo is handled without [add_user]:
    after [handle_photo] the row is the old one and the id is still not in
    [get_all_users]. *)
Theorem add_user_unblocks (db : database) (user_id : Z) (old : user_row) :
  users db !! user_id = Some old →
  u_is_blocked old ≠ 0 →
  (user_id ∉ uv_user_id <$> get_all_users db) ∧
  (∀ username first_name last_name now1 now2,
     let db' := add_user user_id username first_name last_name now1 now2 db in
     users db' !! user_id
       = Some (UserRow username first_name last_name now1 0 now2) ∧
     (∀ k, k ≠ user_id → users db' !! k = users db !! k) ∧
     user_id ∈ uv_user_id <$> get_all_users db') ∧
  (∀ OWNER_IDS net clock tick trace message user,
     tu_id user = user_id →
     let update := TgUpdate (Some message) (Some user) None in
     let w := World db tick trace in
     user_id ∈ uv_user_id <$>
       get_all_users (w_db (handle_message net clock update w).2) ∧
     user_id ∈ uv_user_id <$>
       get_all_users (w_db (start_command OWNER_IDS net clock update w).2)) ∧
  (∀ net clock tick trace message user callback,
     tu_id user = user_id →
     let update := TgUpdate (Some message) (Some user) callback in
     let db' := w_db (handle_photo net clock update (World db tick trace)).2 in
     users db' !! user_id = Some old ∧
     user_id ∉ uv_user_id <$> get_all_users db').
Proof.
  intros Hold Hblocked. split; [|split; [|split]].
  - intros (r & Hr & Hnb)%elem_of_get_all_users_ids. congruence.
  - intros username first_name last_name now1 now2 db'. subst db'.
    split; [|split].
    + simpl. apply lookup_insert_eq.
    + intros k Hk. simpl. by rewrite lookup_insert_ne.
    + apply elem_of_get_all_users_ids. eexists.
      split; [simpl; apply lookup_insert_eq | done].
  - intros OWNER_IDS net clock tick trace message user <- update w.
    split; apply elem_of_get_all_users_ids.
    + unfold handle_message, mbind, handler_bind, now, modify_db, await;
        simpl.
      destruct (net _); simpl; eexists; (split; [apply lookup_insert_eq|done]).
    + unfold start_command, mbind, handler_bind, now, modify_db, get_db,
        await; simpl.
      destruct (net _); simpl; eexists;
        (split; [rewrite lookup_alter_eq, lookup_insert_eq; done|done]).
  - intros net clock tick trace message user callback _ update db'.
    assert (users db' = users db) as Hsame.
    { subst db' update. unfold handle_photo.
      cbn [upd_message upd_effective_user].
      unfold from_option, mbind, handler_bind, mret, handler_ret, try_except,
        now, modify_db, await.
      destruct (last (m_photo message)); [|done]. simpl.
      repeat (destruct (net _); simpl); done. }
    rewrite Hsame. split; [done|].
    intros (r & Hr & Hnb)%elem_of_get_all_users_ids.
    rewrite Hsame in Hr. congruence.
Qed.

(** A users table with one blocked user, as an operator's direct edit of the
    database file leaves it (no handler sets the flag). *)
Definition blocked_bob : database :=
  Database {[5 := UserRow "bob" "Bob" None "t0" 1 "t0"]} ∅ ∅ 0 ∅ 0 ∅.

Lemma add_user_unblocks_witness :
  (5 ∉ uv_user_id <$> get_all_users blocked_bob) ∧
  users (add_user 5 "bob" "Bob" (Some "") "t1" "t2" blocked_bob) !! 5
    = Some (UserRow "bob" "Bob" (Some "") "t1" 0 "t2") ∧
  5 ∈ uv_user_id <$>
    get_all_users
      (w_db (handle_message (λ _, true) (λ _, "t1")
               (TgUpdate (Some (TgMessage (Some "hello") []))
                  (Some (TgUser 5 (Some "bob") "Bob" None)) None)
               (World blocked_bob 0 [])).2).
Proof.
  destruct (add_user_unblocks blocked_bob 5
              (UserRow "bob" "Bob" None "t0" 1 "t0"))
    as (Hbefore & Hrow & Hhandled & _); [reflexivity | done |].
  split; [exact Hbefore | split].
  - apply Hrow.
  - apply (Hhandled [] (λ _, true) (λ _, "t1") O []
             (TgMessage (Some "hello") [])
             (TgUser 5 (Some "bob") "Bob" None)).
    reflexivity.
Defined.

(** A blocked user whose photo is handled stays blocked: the screenshot is
    stored and confirmed, the row keeps its flag, and [get_all_users] is
    still empty. *)
Lemma blocked_user_stays_blocked_after_photo :
  let r :=
    handle_photo (λ _, true) (λ _, "t1")
      (TgUpdate (Some (TgMessage None ["file-1"]))
         (Some (TgUser 5 (Some "bob") "Bob" None)) None)
      (World blocked_bob 0 []) in
  r.1 = Returned None ∧
  w_trace r.2 = [ReplyText ScreenshotReceived []] ∧
  users (w_db r.2) !! 5 = Some (UserRow "bob" "Bob" None "t0" 1 "t0") ∧
  get_all_users (w_db r.2) = [] ∧
  get_user_count (w_db r.2) = 0.
Proof. by vm_compute. Qed.

(** ** Handlers *)

(** Unfolds the monad and runs a handler as far as its inputs are known. *)
Ltac run_handler :=
  unfold mbind, handler_bind, mret, handler_ret, raise, get_db, modify_db,
    try_except, from_option, await, attempt, now in *;
  simpl in *.

(** Splits on every branch the handler takes. *)
Ltac split_cases := repeat (case_match; simplify_eq/=; try done).

(** *** Admin management *)

(** [addadmin_command] and [removeadmin_command] never write to the store:
    whatever they are sent, the database is the one they started with. *)
Lemma addadmin_command_leaves_store OWNER_IDS net update args w :
  w_db (addadmin_command OWNER_IDS net update args w).2 = w_db w.
Proof.
  unfold addadmin_command. run_handler. by split_cases.
Qed.

Lemma removeadmin_command_leaves_store OWNER_IDS net update args w :
  w_db (removeadmin_command OWNER_IDS net update args w).2 = w_db w.
Proof.
  unfold removeadmin_command. run_handler. by split_cases.
Qed.

(** The owner (id 1), a user X (id 2) and the messages they send. *)
Definition the_owner : tg_user := TgUser 1 (Some "owner") "Owner" None.
Definition user_x : tg_user := TgUser 2 (Some "x") "X" None.

Definition text_from (user : tg_user) (t : string) : tg_update :=
  TgUpdate (Some (TgMessage (Some t) [])) (Some user) None.

(** C1, on the code.  The owner (id 1) sends [/addadmin @x] for user X
    (id 2), who is no owner and no admin; every call to the transport goes
    through.  The bot answers that x has been added as admin, the admin table
    is as empty as before, and X's [/users] is answered with access denied.
    Likewise, with X in the admin table, the owner's [/removeadmin @x] is
    confirmed and leaves X in the table: X's [/users] still succeeds. *)
Theorem addadmin_command_does_not_add_admin :
  let net := λ _ : call, true in
  let w0 := World empty_database 0 [] in
  let w1 :=
    (addadmin_command [1] net (text_from the_owner "/addadmin @x") ["@x"]
       w0).2 in
  w_trace w1 = [ReplyText (AdminAdded "x") []] ∧
  w_db w1 = empty_database ∧
  is_owner_or_admin [1] 2 (w_db w1) = false ∧
  users_command [1] net (text_from user_x "/users") [] w1
    = (Returned None,
       World empty_database 0
         [ReplyText (AdminAdded "x") []; ReplyText AccessDenied []]) ∧
  let db := add_admin 2 "x" 1 "t0" empty_database in
  let w2 :=
    (removeadmin_command [1] net (text_from the_owner "/removeadmin @x")
       ["@x"] (World db 0 [])).2 in
  w_trace w2 = [ReplyText (AdminRemoved "x") []] ∧
  is_owner_or_admin [1] 2 (w_db w2) = true ∧
  users_command [1] net (text_from user_x "/users") [] w2
    = (Returned None,
       World db 0 [ReplyText (AdminRemoved "x") []; ReplyText (TotalUsers 0) []]).
Proof. by vm_compute. Qed.

(** *** Broadcast *)

Section Broadcast.
Variable net : call → bool.
Variable broadcast_text : string.
Variable total : Z.

(** Whether the send to this user goes through. *)
Definition delivered (user : user_view) : bool :=
  net (SendMessage (uv_user_id user) (BroadcastMessage broadcast_text)).

Definition rejected (user : user_view) : bool := negb (delivered user).

Lemma delivered_or_rejected (users : list user_view) :
  (length (List.filter delivered users)
   + length (List.filter rejected users))%nat = length users.
Proof.
  induction users as [|u users IH]; [done|].
  simpl. unfold rejected in *. destruct (delivered u); simpl; lia.
Qed.

(** The loop always runs to its end and never writes to the store.  It
    counts every delivered message as sent.  Every rejected message is
    counted as failed, and so is every refused edit of the status message;
    when the status edits go through, the failed count is the number of
    rejections. *)
Lemma broadcast_loop_counts (users : list user_view) :
  ∀ sent_count failed_count w,
  ∃ failed w',
    broadcast_loop net broadcast_text total users sent_count failed_count w
      = (Returned
           (sent_count + Z.of_nat (length (List.filter delivered users)),
            failed),
         w') ∧
    w_db w' = w_db w ∧
    failed_count + Z.of_nat (length (List.filter rejected users)) ≤ failed ∧
    ((∀ t s f, net (EditText (Broadcasting t s f)) = true) →
     failed
       = failed_count + Z.of_nat (length (List.filter rejected users))).
Proof.
  induction users as [|u users IH]; intros sent_count failed_count w.
  - exists failed_count, w. simpl. unfold mret, handler_ret.
    rewrite Z.add_0_r. repeat split; [lia | intros _; lia].
  - cbn [broadcast_loop List.filter].
    unfold mbind, handler_bind, attempt, await, rejected, delivered in *.
    destruct (net (SendMessage _ _)) eqn:Hsend; cbn [negb];
      [case_bool_decide as Hmod;
         [destruct (net (EditText _)) eqn:Hedit|]|];
      match goal with
      | |- context [broadcast_loop _ _ _ _ ?s ?f ?w0] =>
          destruct (IH s f w0) as (f' & w' & Hrun & Hdb & Hle & Heq);
          exists f', w'; rewrite Hrun; simpl length in *; simpl w_db in *
      end;
      (split; [do 3 f_equal; lia|]); (split; [done|]); (split; [lia|]);
      intros Hedits; try (specialize (Heq Hedits); lia).
    by rewrite Hedits in Hedit.
Qed.
End Broadcast.

(** [handle_broadcast_message] reads the store and never writes to it. *)
Lemma handle_broadcast_message_leaves_store OWNER_IDS net update w :
  w_db (handle_broadcast_message OWNER_IDS net update w).2 = w_db w.
Proof.
  unfold handle_broadcast_message.
  destruct (upd_message update) as [message|]; [|done].
  destruct (upd_effective_user update) as [user|]; [|done].
  run_handler.
  destruct (negb _); [by destruct (net _)|].
  destruct (net (ReplyText _ _)); [|done].
  match goal with
  | |- context [broadcast_loop _ ?t ?n ?us ?s ?f ?w0] =>
      pose proof (broadcast_loop_counts net t n us s f w0) as Hloop
  end.
  destruct Hloop as (failed & w' & Hrun & Hdb & _). rewrite Hrun.
  simpl in *. by destruct (net (EditText _)).
Qed.

(** When the reply that opens the status message and the edits of it go
    through, a privileged actor's broadcast ends with the summary: all N
    users, N − K sent, K failed, for the K users whose send was rejected. *)
Lemma broadcast_summary_when_edits_go_through OWNER_IDS net message user w :
  is_owner_or_admin OWNER_IDS (tu_id user) (w_db w) = true →
  (∀ t kb, net (ReplyText t kb) = true) →
  (∀ t, net (EditText t) = true) →
  let users := get_all_users (w_db w) in
  let broadcast_text := py_or (m_text message) "No message provided" in
  let N := Z.of_nat (length users) in
  let K := Z.of_nat (length (List.filter (rejected net broadcast_text) users)) in
  ∃ w',
    handle_broadcast_message OWNER_IDS net
      (TgUpdate (Some message) (Some user) None) w = (Returned (Some END), w') ∧
    w_db w' = w_db w ∧
    last (w_trace w') = Some (EditText (BroadcastCompleted N (N - K) K)).
Proof.
  intros Hpriv Hreply Hedit users broadcast_text N K.
  unfold handle_broadcast_message. run_handler.
  rewrite Hpriv. simpl. rewrite Hreply.
  match goal with
  | |- context [broadcast_loop _ ?t ?n ?us ?s ?f ?w0] =>
      pose proof (broadcast_loop_counts net t n us s f w0) as Hloop
  end.
  destruct Hloop as (failed & w' & Hrun & Hdb & _ & Hfailed). rewrite Hrun.
  rewrite Hedit. simpl in *. eexists. split; [done|]. split; [done|].
  cbn [w_trace]. rewrite last_snoc. do 3 f_equal.
  - pose proof (delivered_or_rejected net broadcast_text users).
    subst N K. fold users broadcast_text. lia.
  - rewrite Hfailed by (intros; apply Hedit). subst K. done.
Qed.

(** Ten users, none blocked, and an owner with id 100. *)
Definition ten_users : database :=
  foldr (λ i db, add_user i ("user_" +:+ pretty i) "U" (Some "") "t0" "t0" db)
    empty_database (seqZ 1 10).

Definition owner_100 : tg_user := TgUser 100 (Some "owner") "Owner" None.

(** A transport that delivers every message and refuses the edits of the
    status message while the broadcast runs. *)
Definition refuse_progress_edits (c : call) : bool :=
  match c with
  | EditText (Broadcasting _ _ _) => false
  | _ => true
  end.

(** C2, on the code.  Ten users, none blocked, and every send to them goes
    through (N = 10, K = 0); the edit of the status message after the tenth
    send is refused.  The summary reports 10 sent and 1 failed, where the
    specification has N − K = 10 sent and K = 0 failed.  The store is not
    written to. *)
Theorem broadcast_counts_refused_status_edit_as_failure :
  let users := get_all_users ten_users in
  let w' :=
    (handle_broadcast_message [100] refuse_progress_edits
       (text_from owner_100 "hi") (World ten_users 0 [])).2 in
  length users = 10%nat ∧
  length (List.filter (rejected refuse_progress_edits "hi") users) = 0%nat ∧
  (handle_broadcast_message [100] refuse_progress_edits
     (text_from owner_100 "hi") (World ten_users 0 [])).1
    = Returned (Some END) ∧
  last (w_trace w') = Some (EditText (BroadcastCompleted 10 10 1)) ∧
  w_db w' = ten_users.
Proof. by vm_compute. Qed.

(** *** The two wizards *)

Lemma broadcast_loop_returns net broadcast_text total users sent failed w :
  ∃ counts w',
    broadcast_loop net broadcast_text total users sent failed w
      = (Returned counts, w').
Proof.
  destruct (broadcast_loop_counts net broadcast_text total users sent failed w)
    as (f & w' & Hrun & _).
  by eexists _, w'.
Qed.




(** *** Checkout *)

Section MaxRowid.
Context {A : Type}.
Implicit Types (t : gmap Z A) (l : list (Z * A)).

Lemma max_key_bound l (b : Z) :
  0 ≤ b → (∀ k v, (k, v) ∈ l → k ≤ b) →
  foldr (λ kr acc, Z.max kr.1 acc) 0 l ≤ b.
Proof.
  intros Hb. induction l as [|[k v] l IH]; intros Hl; simpl; [done|].
  apply Z.max_lub.
  - apply (Hl k v), elem_of_cons. by left.
  - apply IH. intros k' v' Hin. apply (Hl k' v'), elem_of_cons. by right.
Qed.

Lemma max_rowid_bound t (b : Z) :
  0 ≤ b → (∀ k v, t !! k = Some v → k ≤ b) → max_rowid t ≤ b.
Proof.
  intros Hb Ht. apply max_key_bound; [done|].
  intros k v Hin. apply (Ht k v). by apply elem_of_map_to_list.
Qed.

Lemma max_rowid_nonneg t : 0 ≤ max_rowid t.
Proof.
  unfold max_rowid. induction (map_to_list t) as [|kr l IH]; simpl; lia.
Qed.

(** Two [AUTOINCREMENT] inserts in a row take consecutive keys. *)
Lemma autoincrement_next seq t (row : A) :
  autoincrement (autoincrement seq t) (<[autoincrement seq t := row]> t)
    = autoincrement seq t + 1.
Proof.
  set (k := autoincrement seq t). unfold autoincrement at 1.
  assert (max_rowid (<[k := row]> t) ≤ k) as Hle.
  { apply max_rowid_bound.
    - pose proof (max_rowid_nonneg t). unfold k, autoincrement. lia.
    - intros k' v [[-> _] | [_ Hk']]%lookup_insert_Some; [done|].
      apply max_rowid_ge in Hk'. unfold k, autoincrement. lia. }
  lia.
Qed.
End MaxRowid.

(** [next((p for p in products if p['id'] == product_id), None)] finds the
    row stored under that id. *)
Lemma find_product_by_id (db : database) (product_id : Z) (p : product_row) :
  products db !! product_id = Some p →
  List.find (λ q, bool_decide (id q = product_id)) (get_all_products db)
    = Some (product_of (product_id, p)).
Proof.
  intros Hp. unfold get_all_products.
  apply elem_of_map_to_list in Hp.
  pose proof (NoDup_fst_map_to_list (products db)) as Hnodup.
  induction (map_to_list (products db)) as [|[k r] l IH]; simpl.
  - by apply elem_of_nil in Hp.
  - apply NoDup_cons in Hnodup as [Hk Hnodup].
    apply elem_of_cons in Hp as [[= <- <-] | Hp].
    + by rewrite bool_decide_eq_true_2.
    + rewrite bool_decide_eq_false_2; [by apply IH|].
      simpl. intros ->. apply Hk.
      apply list_elem_of_fmap. by exists (product_id, p).
Qed.

(** No write of the store touches an order row that is already there. *)
Lemma run_write_keeps_orders (op : db_write) (db : database) k r :
  orders db !! k = Some r → orders (run_write op db) !! k = Some r.
Proof.
  intros Hk. destruct op; simpl; try done.
  rewrite lookup_insert_ne; [done|].
  intros Heq. by rewrite <- Heq, autoincrement_fresh in Hk.
Qed.

Lemma run_writes_keep_orders (ops : list db_write) (db : database) k r :
  orders db !! k = Some r → orders (run_writes ops db) !! k = Some r.
Proof.
  revert db. induction ops as [|op ops IH]; intros db Hk; simpl; [done|].
  by apply IH, run_write_keeps_orders.
Qed.

(** What the two checkout handlers leave in the store. *)
Lemma buy_now_callback_store net clock qr_code_exists (user : tg_user)
    (data : string) (product_id : Z) (p : product_row) effective message w :
  data ≠ "" →
  py_int (py_replace "buy_" "" data) = Some product_id →
  products (w_db w) !! product_id = Some p →
  net AnswerQuery = true →
  let update :=
    TgUpdate message effective
      (Some (TgCallbackQuery (Some user) (Some data))) in
  let w' := (buy_now_callback net clock qr_code_exists update w).2 in
  w_db w'
    = add_order (tu_id user) (p_name p) (p_price p) None (clock (w_tick w))
        (w_db w) ∧
  w_tick w' = S (w_tick w).
Proof.
  intros Hdata Hint Hp Hanswer update w'. subst update w'.
  unfold buy_now_callback. simpl.
  destruct data as [|c data]; [done|]. cbn [truthy].
  run_handler. rewrite Hanswer, Hint. simpl.
  rewrite (find_product_by_id _ _ _ Hp). simpl.
  destruct qr_code_exists; repeat (destruct (net _); simpl); done.
Qed.

Lemma handle_photo_store net clock (user : tg_user) (caption : option string)
    (photos : list string) (file_id : string) callback w :
  last photos = Some file_id →
  let update := TgUpdate (Some (TgMessage caption photos)) (Some user) callback in
  let w' := (handle_photo net clock update w).2 in
  w_db w'
    = add_order (tu_id user) "Screenshot Upload" "0" (Some file_id)
        (clock (w_tick w)) (w_db w).
Proof.
  intros Hlast update w'. subst update w'.
  unfold handle_photo. simpl. rewrite Hlast. run_handler.
  by split_cases.
Qed.

(** C3. A user's buy-now callback for a product of the catalog, once
    acknowledged, followed by the same user's photo upload, inserts two
    order rows under two different fresh keys: the first carries the
    product's name and its price at that time, the second the product name
    "Screenshot Upload", the amount "0" and the file id of the photo; both are
    pending.  No write the store offers ever changes or removes an order row
    that is there, so the two rows stay as they were inserted, unlinked. *)
Theorem purchase_and_screenshot_are_two_rows net clock qr_code_exists
    (db : database) (tick : nat) (trace : list call) (user : tg_user)
    (data : string) (product_id : Z) (p : product_row)
    (caption : option string) (photos : list string) (file_id : string) :
  data ≠ "" →
  py_int (py_replace "buy_" "" data) = Some product_id →
  products db !! product_id = Some p →
  net AnswerQuery = true →
  last photos = Some file_id →
  let buy :=
    TgUpdate None (Some user) (Some (TgCallbackQuery (Some user) (Some data))) in
  let upload := TgUpdate (Some (TgMessage caption photos)) (Some user) None in
  let w1 :=
    (buy_now_callback net clock qr_code_exists buy (World db tick trace)).2 in
  let w2 := (handle_photo net clock upload w1).2 in
  let k1 := autoincrement (orders_seq db) (orders db) in
  let k2 := k1 + 1 in
  let intent :=
    OrderRow (tu_id user) (p_name p) (p_price p) "pending" (clock tick) None in
  let evidence :=
    OrderRow (tu_id user) "Screenshot Upload" "0" "pending" (clock (S tick))
      (Some file_id) in
  orders db !! k1 = None ∧ orders db !! k2 = None ∧ k1 ≠ k2 ∧
  orders (w_db w1) = <[k1 := intent]> (orders db) ∧
  orders (w_db w2) = <[k2 := evidence]> (<[k1 := intent]> (orders db)) ∧
  (∀ ops k, k = k1 ∨ k = k2 →
     orders (run_writes ops (w_db w2)) !! k = orders (w_db w2) !! k) ∧
  (∀ ops db0 k r,
     orders db0 !! k = Some r → orders (run_writes ops db0) !! k = Some r).
Proof.
  intros Hdata Hint Hp Hanswer Hlast buy upload w1 w2 k1 k2 intent evidence.
  assert (w_db w1
            = add_order (tu_id user) (p_name p) (p_price p) None (clock tick) db
          ∧ w_tick w1 = S tick) as [Hdb1 Htick1].
  { by apply (buy_now_callback_store net clock qr_code_exists user data
                product_id p (Some user) None (World db tick trace)). }
  assert (w_db w2
            = add_order (tu_id user) "Screenshot Upload" "0" (Some file_id)
                (clock (w_tick w1)) (w_db w1)) as Hdb2.
  { by apply (handle_photo_store net clock user caption photos file_id None
                w1). }
  clearbody w1 w2. rewrite Hdb1, Htick1 in Hdb2.
  assert (orders (w_db w2) = <[k2 := evidence]> (<[k1 := intent]> (orders db)))
    as Horders2.
  { rewrite Hdb2. simpl. by rewrite autoincrement_next. }
  assert (orders db !! k2 = None) as Hk2.
  { destruct (orders db !! k2) as [r|] eqn:Hr; [|done].
    apply max_rowid_ge in Hr. unfold k2, k1, autoincrement in Hr. lia. }
  split; [apply autoincrement_fresh|]. split; [done|].
  split; [unfold k2; lia|]. split; [by rewrite Hdb1|]. split; [done|].
  split.
  - intros ops k Hk.
    assert (∃ r, orders (w_db w2) !! k = Some r) as [r Hr].
    { rewrite Horders2.
      destruct Hk as [-> | ->];
        [rewrite lookup_insert_ne by (unfold k2; lia)|];
        rewrite lookup_insert_eq; by eexists. }
    rewrite Hr. by apply run_writes_keep_orders.
  - intros ops db0 k r. apply run_writes_keep_orders.
Qed.

Lemma purchase_and_screenshot_are_two_rows_witness :
  let net := λ _ : call, true in
  let clock := λ n : nat, if n is O then "t5" else "t6" in
  let buy :=
    TgUpdate None (Some user_x)
      (Some (TgCallbackQuery (Some user_x) (Some "buy_1"))) in
  let upload :=
    TgUpdate (Some (TgMessage None ["small"; "large"])) (Some user_x) None in
  let w1 := (buy_now_callback net clock false buy (World two_products 0 [])).2 in
  let w2 := (handle_photo net clock upload w1).2 in
  orders (w_db w2)
    = <[2 := OrderRow 2 "Screenshot Upload" "0" "pending" "t6" (Some "large")]>
        (<[1 := OrderRow 2 "A" "10" "pending" "t5" None]> ∅).
Proof.
  intros net clock buy upload w1 w2.
  destruct (purchase_and_screenshot_are_two_rows net clock false two_products
              O [] user_x "buy_1" 1 (ProductRow "Apps" "A" "fa" "10" "da" "t0")
              None ["small"; "large"] "large")
    as (_ & _ & _ & _ & Hrows & _);
    [done | reflexivity | reflexivity | reflexivity | reflexivity |].
  exact Hrows.
Defined.

(** *** Handlers reach the store through [DatabaseManager] only *)

(** [written_from db db']: [db'] is [db] after some writes of the store. *)
Inductive written_from (db : database) : database → Prop :=
  | written_nothing : written_from db db
  | written_more (op : db_write) (db' : database) :
      written_from db db' → written_from db (run_write op db').

Lemma written_from_run_writes (db db' : database) :
  written_from db db' ↔ ∃ ops, db' = run_writes ops db.
Proof.
  split.
  - induction 1 as [|op db' _ [ops ->]].
    + by exists [].
    + exists (ops ++ [op]). unfold run_writes. by rewrite foldl_app.
  - intros [ops ->]. revert db.
    induction ops as [|op ops IH] using rev_ind; intros db.
    + constructor.
    + unfold run_writes. rewrite foldl_app. simpl. constructor. apply IH.
Qed.

Lemma written_add_user db db' u n f l t1 t2 :
  written_from db db' → written_from db (add_user u n f l t1 t2 db').
Proof. apply (written_more db (AddUser u n f l t1 t2)). Qed.

Lemma written_update_user_activity db db' u t :
  written_from db db' → written_from db (update_user_activity u t db').
Proof. apply (written_more db (UpdateUserActivity u t)). Qed.

Lemma written_add_order db db' u n a s t :
  written_from db db' → written_from db (add_order u n a s t db').
Proof. apply (written_more db (AddOrder u n a s t)). Qed.

Lemma written_set_setting db db' k v :
  written_from db db' → written_from db (set_setting k v db').
Proof. apply (written_more db (SetSetting k v)). Qed.

Create HintDb store_writes.
#[export] Hint Resolve written_nothing written_add_user
  written_update_user_activity written_add_order written_set_setting
  : store_writes.

(** Closes the goal on every path of a handler without a loop. *)
Ltac writes_through_store :=
  run_handler; repeat (case_match; run_handler; simplify_eq/=);
  eauto 6 with store_writes.

Section HandlersWrite.
Variable OWNER_IDS : list Z.
Variable net : call → bool.
Variable clock : nat → timestamp.
Variable qr_code_exists : bool.
Variable update : tg_update.
Variable args : list string.
Variable w : world.

Lemma users_command_writes :
  written_from (w_db w) (w_db (users_command OWNER_IDS net update args w).2).
Proof. unfold users_command. writes_through_store. Qed.

Lemma addadmin_command_writes :
  written_from (w_db w) (w_db (addadmin_command OWNER_IDS net update args w).2).
Proof. rewrite addadmin_command_leaves_store. constructor. Qed.

Lemma removeadmin_command_writes :
  written_from (w_db w)
    (w_db (removeadmin_command OWNER_IDS net update args w).2).
Proof. rewrite removeadmin_command_leaves_store. constructor. Qed.

Lemma handle_bio_message_writes :
  written_from (w_db w) (w_db (handle_bio_message OWNER_IDS net update w).2).
Proof. unfold handle_bio_message. writes_through_store. Qed.

Lemma handle_broadcast_message_writes :
  written_from (w_db w)
    (w_db (handle_broadcast_message OWNER_IDS net update w).2).
Proof. rewrite handle_broadcast_message_leaves_store. constructor. Qed.

Lemma cancel_conversation_writes :
  written_from (w_db w) (w_db (cancel_conversation net update w).2).
Proof. unfold cancel_conversation. writes_through_store. Qed.

Lemma start_command_writes :
  written_from (w_db w) (w_db (start_command OWNER_IDS net clock update w).2).
Proof. unfold start_command. writes_through_store. Qed.

Lemma premium_files_callback_writes :
  written_from (w_db w) (w_db (premium_files_callback net clock update w).2).
Proof. unfold premium_files_callback. writes_through_store. Qed.

Lemma category_callback_writes :
  written_from (w_db w) (w_db (category_callback net update w).2).
Proof. unfold category_callback. writes_through_store. Qed.

Lemma buy_now_callback_writes :
  written_from (w_db w)
    (w_db (buy_now_callback net clock qr_code_exists update w).2).
Proof. unfold buy_now_callback. writes_through_store. Qed.

Lemma handle_photo_writes :
  written_from (w_db w) (w_db (handle_photo net clock update w).2).
Proof. unfold handle_photo. writes_through_store. Qed.

Lemma handle_message_writes :
  written_from (w_db w) (w_db (handle_message net clock update w).2).
Proof. unfold handle_message. writes_through_store. Qed.
End HandlersWrite.

(** So no handler changes or removes an order row, and none but a call of
    [add_admin] could make a non-admin an admin. *)
Lemma written_from_keeps_orders (db db' : database) k r :
  written_from db db' → orders db !! k = Some r → orders db' !! k = Some r.
Proof.
  intros [ops ->]%written_from_run_writes. apply run_writes_keep_orders.
Qed.

(** *** Catalog browsing *)

(** The keyboard [premium_files_callback] shows: one button for each
    category of [categories_of], then the way back. *)
Lemma premium_files_callback_lists_categories net clock (user : tg_user)
    (data : option string) message effective w :
  net AnswerQuery = true →
  (∀ t kb, net (EditMessageText t kb) = true) →
  categories_of (get_all_products (w_db w)) ≠ [] →
  let update :=
    TgUpdate message effective (Some (TgCallbackQuery (Some user) data)) in
  last (w_trace (premium_files_callback net clock update w).2)
    = Some (EditMessageText ChooseCategory
              ((category_button <$> categories_of (get_all_products (w_db w)))
               ++ [[Button BackToMain "back_to_main"]])).
Proof.
  intros Hanswer Hedit Hsome update. subst update.
  unfold premium_files_callback. run_handler. rewrite Hanswer. simpl.
  change (get_all_products (update_user_activity _ _ (w_db w)))
    with (get_all_products (w_db w)).
  destruct (categories_of (get_all_products (w_db w))) as [|c cs]; [done|].
  rewrite Hedit. simpl. by rewrite last_snoc.
Qed.

(** A category has one button; different categories have different
    buttons, and none is the way back. *)
Lemma category_button_inj (c c' : string) :
  category_button c = category_button c' → c = c'.
Proof. unfold category_button. by intros [= ->]. Qed.

Lemma elem_of_category_keyboard (categories : list string) (c : string) :
  category_button c ∈
    (category_button <$> categories) ++ [[Button BackToMain "back_to_main"]]
  ↔ c ∈ categories.
Proof.
  rewrite elem_of_app, list_elem_of_fmap, list_elem_of_singleton. split.
  - intros [(c' & ->%category_button_inj & Hin) | [=]]. done.
  - intros Hin. left. by exists c.
Qed.

Lemma NoDup_category_keyboard (categories : list string) :
  NoDup categories →
  NoDup ((category_button <$> categories)
         ++ [[Button BackToMain "back_to_main"]]).
Proof.
  intros Hcategories. apply NoDup_app. split; [|split].
  - apply (NoDup_fmap_2_strong category_button); [|done].
    intros c c' _ _. apply category_button_inj.
  - intros row (c & -> & _)%list_elem_of_fmap [=]%list_elem_of_singleton.
  - apply NoDup_singleton.
Qed.

(** C7. In every catalog state [get_products_by_category(C)] returns exactly
    the products whose category is C, byte for byte (each once; the empty
    sequence when none matches).  The category listing shown to users is
    the keyboard of [premium_files_callback]: whenever the transport takes
    the acknowledgement and the menu, the handler shows one button for each
    distinct category value of the products, each once, in some order,
    followed by the way back, under the no-products text when the catalog
    holds no category. *)
Theorem category_lookup_and_listing (C : string) (db : database) :
  (∀ cp, cp ∈ get_products_by_category C db ↔
         ∃ r, products db !! cp_id cp = Some r ∧ p_category r = C ∧
              cp = category_product_of (cp_id cp, r)) ∧
  NoDup (cp_id <$> get_products_by_category C db) ∧
  ((∀ k r, products db !! k = Some r → p_category r ≠ C) →
   get_products_by_category C db = []) ∧
  let categories := categories_of (get_all_products db) in
  let keyboard :=
    (category_button <$> categories) ++ [[Button BackToMain "back_to_main"]] in
  let shown :=
    EditMessageText
      match categories with
      | [] => NoProductsAvailable
      | _ => ChooseCategory
      end keyboard in
  (∀ c, c ∈ categories ↔
        ∃ k r, products db !! k = Some r ∧ p_category r = c) ∧
  NoDup categories ∧
  (∀ c, category_button c ∈ keyboard ↔
        ∃ k r, products db !! k = Some r ∧ p_category r = c) ∧
  NoDup keyboard ∧
  ∀ (net : call → bool) (clock : nat → timestamp) (tick : nat)
    (trace : list call) message effective (user : tg_user)
    (data : option string),
    net AnswerQuery = true →
    (∀ t kb, net (EditMessageText t kb) = true) →
    premium_files_callback net clock
      (TgUpdate message effective (Some (TgCallbackQuery (Some user) data)))
      (World db tick trace)
    = (Returned None,
       World (update_user_activity (tu_id user) (clock tick) db) (S tick)
         (trace ++ [AnswerQuery; shown])).
Proof.
  destruct (category_lookup_and_categories C db)
    as (Hlookup & Hids & Hnone & Hcategories & Hdistinct).
  split; [done|]. split; [done|]. split; [done|].
  intros categories keyboard shown. fold categories in Hcategories, Hdistinct.
  split; [done|]. split; [done|]. split; [|split].
  - intros c. subst keyboard. by rewrite elem_of_category_keyboard.
  - by apply NoDup_category_keyboard.
  - intros net clock tick trace message effective user data Hanswer Hedit.
    unfold premium_files_callback.
    cbn [upd_callback_query q_from_user].
    unfold mbind, handler_bind, mret, handler_ret, get_db, modify_db, await,
      now.
    rewrite Hanswer. cbn [w_db w_tick w_trace].
    change (get_all_products (update_user_activity _ _ db))
      with (get_all_products db).
    fold categories. subst shown keyboard.
    destruct categories as [|c cs]; rewrite Hedit; cbn [w_db w_tick w_trace];
      by rewrite <- app_assoc.
Qed.

Lemma category_lookup_and_listing_witness :
  get_products_by_category "Tools" two_products = [] ∧
  get_products_by_category "apps" two_products = [] ∧
  get_products_by_category "Apps" two_products
    = [CategoryProduct 1 "A" "fa" "10" "da"] ∧
  w_trace (premium_files_callback (λ _, true) (λ _, "t9")
             (TgUpdate None (Some user_x)
                (Some (TgCallbackQuery (Some user_x) (Some "premium_files"))))
             (World two_products 0 [])).2
    = [AnswerQuery;
       EditMessageText ChooseCategory
         [[Button (CategoryLabel "Games") "category_Games"];
          [Button (CategoryLabel "Apps") "category_Apps"];
          [Button BackToMain "back_to_main"]]].
Proof.
  assert (∀ C, C ≠ "Apps" → C ≠ "Games" →
          ∀ k r, products two_products !! k = Some r → p_category r ≠ C)
    as Hother.
  { intros C HA HG k r Hr Heq.
    apply (map_Forall_lookup_1
             (λ _ r, p_category r = "Apps" ∨ p_category r = "Games")
             _ k r) in Hr.
    - destruct Hr; congruence.
    - apply (bool_decide_unpack _). by vm_compute. }
  destruct (category_lookup_and_listing "Tools" two_products)
    as (_ & _ & Htools & _ & _ & _ & _ & Hshown).
  destruct (category_lookup_and_listing "apps" two_products)
    as (_ & _ & Happs & _).
  split; [by apply Htools, Hother|]. split; [by apply Happs, Hother|].
  split; [by vm_compute|].
  rewrite (Hshown (λ _, true) (λ _, "t9") O [] None (Some user_x) user_x
             (Some "premium_files")); [|reflexivity..].
  by vm_compute.
Defined.

(** The scenario of the specification: products A (Apps) and B (Games);
    the listing shows the two categories, and category Tools is answered
    with the no-products message. *)
Example browse_two_products :
  let net := λ _ : call, true in
  let clock := λ _ : nat, "t9" in
  let press (data : string) :=
    TgUpdate None (Some user_x)
      (Some (TgCallbackQuery (Some user_x) (Some data))) in
  last (w_trace (premium_files_callback net clock (press "premium_files")
                   (World two_products 0 [])).2)
    = Some (EditMessageText ChooseCategory
              [[Button (CategoryLabel "Games") "category_Games"];
               [Button (CategoryLabel "Apps") "category_Apps"];
               [Button BackToMain "back_to_main"]]) ∧
  last (w_trace (category_callback net (press "category_Tools")
                   (World two_products 0 [])).2)
    = Some (EditMessageText (NoProductsInCategory "Tools")
              [[Button BackToCategories "premium_files"]]).
Proof. by vm_compute. Qed.

(** * Further properties of the store *)

(** ** Counting users through an update of the table *)

(** What one row adds to [get_user_count]. *)
Definition counts_as_user (r : user_row) : Z :=
  if bool_decide (u_is_blocked r = 0) then 1 else 0.

Definition count_rows (l : list (Z * user_row)) : Z :=
  foldr (λ kr n, if bool_decide (not_blocked kr) then n + 1 else n) 0 l.

Lemma count_rows_permutation (l1 l2 : list (Z * user_row)) :
  l1 ≡ₚ l2 → count_rows l1 = count_rows l2.
Proof.
  intros Hperm. unfold count_rows.
  rewrite !(count_filter_length not_blocked). by rewrite Hperm.
Qed.

Lemma user_count_insert_new (m : gmap Z user_row) uid r :
  m !! uid = None →
  count_rows (map_to_list (<[uid := r]> m))
    = count_rows (map_to_list m) + counts_as_user r.
Proof.
  intros Hnew.
  rewrite (count_rows_permutation _ _ (map_to_list_insert m uid r Hnew)).
  unfold count_rows, counts_as_user. simpl.
  destruct (decide (u_is_blocked r = 0)) as [Hr|Hr].
  - rewrite !bool_decide_eq_true_2 by done. lia.
  - rewrite !bool_decide_eq_false_2 by done. lia.
Qed.

Lemma user_count_delete (m : gmap Z user_row) uid r :
  m !! uid = Some r →
  count_rows (map_to_list m)
    = count_rows (map_to_list (delete uid m)) + counts_as_user r.
Proof.
  intros Hold.
  rewrite <- (count_rows_permutation _ _ (map_to_list_delete m uid r Hold)).
  unfold count_rows, counts_as_user. simpl.
  destruct (decide (u_is_blocked r = 0)) as [Hr|Hr].
  - rewrite !bool_decide_eq_true_2 by done. lia.
  - rewrite !bool_decide_eq_false_2 by done. lia.
Qed.

Lemma user_count_insert_old (m : gmap Z user_row) uid old r :
  m !! uid = Some old →
  count_rows (map_to_list (<[uid := r]> m))
    = count_rows (map_to_list m) - counts_as_user old + counts_as_user r.
Proof.
  intros Hold. rewrite <- (insert_delete_eq m uid r).
  rewrite user_count_insert_new by apply lookup_delete_eq.
  rewrite (user_count_delete m uid old Hold). lia.
Qed.

(** X1.  [add_user] is an upsert: for an id that is not in the table the
    user count grows by one; for an id that is there and not blocked the
    count stays, however often the user writes; a blocked id is counted
    again. *)
Theorem add_user_counts_each_user_once (user_id : Z)
    (username first_name : string) (last_name : option string)
    (now1 now2 : string) (db : database) :
  get_user_count (add_user user_id username first_name last_name now1 now2 db)
    = get_user_count db +
      match users db !! user_id with
      | None => 1
      | Some old => if bool_decide (u_is_blocked old = 0) then 0 else 1
      end.
Proof.
  unfold get_user_count, add_user. simpl. fold (count_rows).
  change (foldr _ 0 ?l) with (count_rows l).
  destruct (users db !! user_id) as [old|] eqn:Hold.
  - rewrite (user_count_insert_old _ _ old) by done.
    unfold counts_as_user. simpl. case_bool_decide; lia.
  - rewrite user_count_insert_new by done. unfold counts_as_user. simpl. lia.
Qed.

(** X2.  [update_user_activity] is an [UPDATE ... WHERE user_id = ?]: for an
    id that is not in the table the store stays as it is; for an id that is
    there only the activity time of that row changes (the join time and the
    blocked flag stay), no other row changes, and the user count stays. *)
Theorem update_user_activity_sets_activity_only (user_id : Z) (now : string)
    (db : database) :
  let db' := update_user_activity user_id now db in
  (users db !! user_id = None → db' = db) ∧
  (∀ r, users db !! user_id = Some r →
        users db' !! user_id
          = Some (UserRow (u_username r) (u_first_name r) (u_last_name r)
                    (u_joined_date r) (u_is_blocked r) now)) ∧
  (∀ k, k ≠ user_id → users db' !! k = users db !! k) ∧
  get_user_count db' = get_user_count db ∧
  (uv_user_id <$> get_all_users db') ≡ₚ (uv_user_id <$> get_all_users db).
Proof.
  intros db'. subst db'.
  assert (get_user_count (update_user_activity user_id now db)
            = get_user_count db) as Hcount.
  { unfold get_user_count, update_user_activity. simpl.
    change (foldr _ 0 ?l) with (count_rows l).
    destruct (users db !! user_id) as [r|] eqn:Hr.
    - rewrite (alter_alt_Some _ _ _ r Hr).
      rewrite (user_count_insert_old _ _ r) by done.
      unfold counts_as_user. simpl. lia.
    - by rewrite alter_id'. }
  split; [|split; [|split; [|split]]].
  - intros Hnone. destruct db. unfold update_user_activity. simpl in *.
    by rewrite alter_id'.
  - intros r Hr. simpl. by rewrite lookup_alter_eq, Hr.
  - intros k Hk. simpl. by rewrite lookup_alter_ne.
  - done.
  - apply NoDup_Permutation; [apply NoDup_get_all_users_ids..|].
    intros uid. rewrite !elem_of_get_all_users_ids. simpl.
    destruct (decide (uid = user_id)) as [->|Hne].
    + rewrite lookup_alter_eq. destruct (users db !! user_id) as [r|]; simpl.
      * split; intros (r' & [= <-] & Hb); eexists; split; done.
      * split; intros (r' & [=] & _).
    + by rewrite lookup_alter_ne.
Qed.

Lemma update_user_activity_sets_activity_only_witness :
  let db := add_user 7 "ann" "Ann" (Some "") "t0" "t0" empty_database in
  update_user_activity 8 "t1" db = db ∧
  users (update_user_activity 7 "t1" db) !! 7
    = Some (UserRow "ann" "Ann" (Some "") "t0" 0 "t1").
Proof.
  intros db.
  destruct (update_user_activity_sets_activity_only 8 "t1" db)
    as (Hunknown & _).
  destruct (update_user_activity_sets_activity_only 7 "t1" db)
    as (_ & Hknown & _).
  split; [apply Hunknown; reflexivity|].
  apply (Hknown (UserRow "ann" "Ann" (Some "") "t0" 0 "t0")). reflexivity.
Defined.

(** ** The catalog *)

Lemma add_product_length (cat nm feats pr descr now : string) (db : database) :
  length (get_all_products (add_product cat nm feats pr descr now db))
    = S (length (get_all_products db)).
Proof.
  unfold get_all_products. rewrite !length_fmap. simpl.
  by rewrite map_to_list_insert by apply autoincrement_fresh.
Qed.

(** X3.  [add_product] stores the product under a key that was never used:
    it is above the sequence counter and not in the table.  Every product
    that was there stays as it was, the new one is in [get_all_products] and
    in [get_products_by_category] of its category, and the catalog is one
    longer. *)
Theorem add_product_extends_catalog
    (cat nm feats pr descr now : string) (db : database) :
  let k := autoincrement (products_seq db) (products db) in
  let db' := add_product cat nm feats pr descr now db in
  products db !! k = None ∧
  products_seq db < k ∧
  products_seq db' = k ∧
  (∀ j row, products db !! j = Some row → products db' !! j = Some row) ∧
  Product k cat nm feats pr descr ∈ get_all_products db' ∧
  CategoryProduct k nm feats pr descr ∈ get_products_by_category cat db' ∧
  length (get_all_products db') = S (length (get_all_products db)).
Proof.
  intros k db'. subst db'.
  pose proof (autoincrement_fresh (products_seq db) (products db)) as Hfresh.
  fold k in Hfresh.
  split; [done|]. split; [apply autoincrement_gt_seq|]. split; [done|].
  split; [|split; [|split]].
  - intros j row Hj. simpl. fold k. rewrite lookup_insert_ne; [done|].
    intros <-. congruence.
  - apply elem_of_get_all_products. simpl. fold k.
    eexists. split; [apply lookup_insert_eq | done].
  - apply elem_of_get_products_by_category. simpl. fold k.
    eexists. split; [apply lookup_insert_eq | done].
  - apply add_product_length.
Qed.

Lemma products_seq_never_decreases (op : db_write) (db : database) :
  products_seq db ≤ products_seq (run_write op db).
Proof.
  destruct op; simpl; try lia.
  pose proof (autoincrement_gt_seq (products_seq db) (products db)). lia.
Qed.

Lemma products_seq_monotone (ops : list db_write) (db : database) :
  products_seq db ≤ products_seq (run_writes ops db).
Proof.
  revert db. induction ops as [|op ops IH]; intros db; simpl; [lia|].
  etrans; [apply (products_seq_never_decreases op)|apply IH].
Qed.

(** X4.  A product id is never given twice: whatever is written to the store
    after an [add_product], deletions of products included, the id the next
    [add_product] assigns is greater than the one assigned before. *)
Theorem add_product_never_reuses_an_id
    (cat nm feats pr descr now : string) (db : database)
    (ops : list db_write) (cat' nm' feats' pr' descr' now' : string) :
  let first := add_product cat nm feats pr descr now db in
  let later := run_writes ops first in
  let second := add_product cat' nm' feats' pr' descr' now' later in
  products first !! products_seq first
    = Some (ProductRow cat nm feats pr descr now) ∧
  products second !! products_seq second
    = Some (ProductRow cat' nm' feats' pr' descr' now') ∧
  products_seq first < products_seq second.
Proof.
  intros first later second. subst second.
  split; [simpl; apply lookup_insert_eq|].
  split; [simpl; apply lookup_insert_eq|].
  pose proof (products_seq_monotone ops first). fold later in H.
  pose proof (autoincrement_gt_seq (products_seq later) (products later)).
  simpl in *. lia.
Qed.

(** X5.  [delete_product] removes the product with that id and nothing else:
    the id is no longer in [get_all_products], every other product is as
    before, and the sequence counter keeps its value. *)
Theorem delete_product_removes_that_product (product_id : Z) (db : database) :
  let db' := delete_product product_id db in
  (∀ p, p ∈ get_all_products db' ↔ p ∈ get_all_products db ∧ id p ≠ product_id) ∧
  products_seq db' = products_seq db ∧
  (∀ row, products db !! product_id = Some row →
          length (get_all_products db) = S (length (get_all_products db'))).
Proof.
  intros db'. subst db'. split; [|split; [done|]].
  - intros p. rewrite !elem_of_get_all_products. simpl. split.
    + intros (r & [Hne Hr]%lookup_delete_Some & Hp). split; [by exists r|done].
    + intros [(r & Hr & Hp) Hne]. exists r.
      split; [by apply lookup_delete_Some | done].
  - intros row Hrow. unfold get_all_products. rewrite !length_fmap. simpl.
    by rewrite <- (map_to_list_delete _ _ _ Hrow).
Qed.

Lemma delete_product_removes_that_product_witness :
  length (get_all_products two_products)
    = S (length (get_all_products (delete_product 1 two_products))).
Proof.
  destruct (delete_product_removes_that_product 1 two_products)
    as (_ & _ & Hlen).
  apply (Hlen (ProductRow "Apps" "A" "fa" "10" "da" "t0")). reflexivity.
Defined.

(** ** Admins and settings *)

(** X6.  [add_admin] makes the id an admin with the given row, replacing an
    older grant, and changes the standing of no other id; [remove_admin]
    of an id that is no admin leaves the store as it is; an [add_admin]
    undone by [remove_admin] leaves the id no admin. *)
Theorem add_admin_then_remove_admin (user_id : Z) (username : string)
    (added_by : Z) (now : string) (db : database) :
  let db' := add_admin user_id username added_by now db in
  is_admin user_id db' = true ∧
  admins db' !! user_id = Some (AdminRow username added_by now) ∧
  (∀ other, other ≠ user_id → is_admin other db' = is_admin other db) ∧
  is_admin user_id (remove_admin user_id db') = false ∧
  (is_admin user_id db = false → remove_admin user_id db = db) ∧
  (is_admin user_id db = false → remove_admin user_id db' = db).
Proof.
  intros db'. subst db'. unfold is_admin, add_admin, remove_admin. simpl.
  rewrite lookup_insert_eq, lookup_delete_eq.
  split; [done|]. split; [done|]. split; [|split; [done|split]].
  - intros other Hne. by rewrite lookup_insert_ne.
  - destruct (admins db !! user_id) eqn:Hadm; [done|]. intros _.
    destruct db; simpl in *. by rewrite delete_id.
  - destruct (admins db !! user_id) eqn:Hadm; [done|]. intros _.
    destruct db; simpl in *. by rewrite delete_insert_id.
Qed.

Lemma add_admin_then_remove_admin_witness :
  remove_admin 2 empty_database = empty_database ∧
  remove_admin 2 (add_admin 2 "x" 1 "t0" empty_database) = empty_database.
Proof.
  destruct (add_admin_then_remove_admin 2 "x" 1 "t0" empty_database)
    as (_ & _ & _ & _ & Hnoop & Hundo).
  split; [apply Hnoop | apply Hundo]; reflexivity.
Defined.

(** X7.  Settings are last-write-wins and independent of one another: a
    second [set_setting] of a key replaces the first, writing one key does
    not change what [get_setting] returns for another, and a stored value,
    the empty string too, wins over the default. *)
Theorem set_setting_last_write_wins (K K' V1 V2 : string)
    (D : option string) (db : database) :
  set_setting K V2 (set_setting K V1 db) = set_setting K V2 db ∧
  get_setting K D (set_setting K V1 db) = Some V1 ∧
  get_setting K D (set_setting K "" db) = Some "" ∧
  (K' ≠ K →
   get_setting K' D (set_setting K V1 db) = get_setting K' D db) ∧
  (K' ≠ K →
   set_setting K V1 (set_setting K' V2 db)
     = set_setting K' V2 (set_setting K V1 db)).
Proof.
  unfold get_setting, set_setting. simpl. rewrite !lookup_insert_eq.
  split; [by rewrite insert_insert_eq|]. split; [done|]. split; [done|].
  split; intros Hne.
  - by rewrite lookup_insert_ne.
  - by rewrite insert_insert_ne.
Qed.

Lemma set_setting_last_write_wins_witness :
  get_setting "qr" (Some "d")
    (set_setting "bio_message" "Hi" empty_database) = Some "d".
Proof.
  destruct (set_setting_last_write_wins "bio_message" "qr" "Hi" "x"
              (Some "d") empty_database) as (_ & _ & _ & Hframe & _).
  rewrite Hframe; [reflexivity | done].
Defined.

(** ** What holds in every store the bot has written *)

(** The store starts as the empty tables of [init_database] and changes by
    the writes of [DatabaseManager] only. *)
Record store_invariant (db : database) : Prop := StoreInvariant {
  inv_orders_pending :
    ∀ k r, orders db !! k = Some r → o_status r = "pending";
  inv_orders_keys : ∀ k r, orders db !! k = Some r → 0 < k ≤ orders_seq db;
  inv_products_keys :
    ∀ k r, products db !! k = Some r → 0 < k ≤ products_seq db;
  inv_users_not_blocked : ∀ u r, users db !! u = Some r → u_is_blocked r = 0 }.

Lemma store_invariant_empty : store_invariant empty_database.
Proof. split; intros ? ? Hk; simpl in Hk; by rewrite lookup_empty in Hk. Qed.

Lemma autoincrement_positive {A} (seq : Z) (t : gmap Z A) :
  0 < autoincrement seq t.
Proof. pose proof (max_rowid_nonneg t). unfold autoincrement. lia. Qed.

Lemma store_invariant_step (op : db_write) (db : database) :
  store_invariant db → store_invariant (run_write op db).
Proof.
  intros [Hpending Hokeys Hpkeys Husers].
  destruct op; simpl; split; simpl; try done.
  - intros u r [[_ <-] | [_ Hr]]%lookup_insert_Some; [done | by eapply Husers].
  - intros u r. rewrite lookup_alter_Some.
    intros [(_ & r' & Hr' & ->) | [_ Hr]]; [|by eapply Husers].
    simpl. by eapply Husers.
  - intros k r [[<- _] | [_ Hr]]%lookup_insert_Some.
    + pose proof (autoincrement_positive (products_seq db) (products db)). lia.
    + pose proof (autoincrement_gt_seq (products_seq db) (products db)).
      specialize (Hpkeys _ _ Hr). lia.
  - intros k r [_ Hr]%lookup_delete_Some. by eapply Hpkeys.
  - intros k r [[_ <-] | [_ Hr]]%lookup_insert_Some; [done | by eapply Hpending].
  - intros k r [[<- _] | [_ Hr]]%lookup_insert_Some.
    + pose proof (autoincrement_positive (orders_seq db) (orders db)). lia.
    + pose proof (autoincrement_gt_seq (orders_seq db) (orders db)).
      specialize (Hokeys _ _ Hr). lia.
Qed.

Lemma store_invariant_run_writes (ops : list db_write) (db : database) :
  store_invariant db → store_invariant (run_writes ops db).
Proof.
  revert db. induction ops as [|op ops IH]; intros db Hinv; simpl; [done|].
  by apply IH, store_invariant_step.
Qed.

(** X8.  In every store reached from the empty tables by writes of
    [DatabaseManager], every order has the status "pending" - no write
    moves an order on - and order and product ids are positive and at most
    their sequence counter. *)
Theorem orders_stay_pending (ops : list db_write) :
  let db := run_writes ops empty_database in
  (∀ k r, orders db !! k = Some r →
          o_status r = "pending" ∧ 0 < k ≤ orders_seq db) ∧
  (∀ k r, products db !! k = Some r → 0 < k ≤ products_seq db).
Proof.
  intros db.
  destruct (store_invariant_run_writes ops _ store_invariant_empty)
    as [Hpending Hokeys Hpkeys _].
  split; [|done]. intros k r Hr. split; [by eapply Hpending | by eapply Hokeys].
Qed.

Lemma orders_stay_pending_witness :
  let db :=
    run_writes [AddOrder 2 "A" "10" None "t0"; SetSetting "bio_message" "Hi"]
      empty_database in
  o_status (OrderRow 2 "A" "10" "pending" "t0" None) = "pending" ∧
  0 < 1 ≤ orders_seq db.
Proof.
  intros db.
  destruct (orders_stay_pending
              [AddOrder 2 "A" "10" None "t0"; SetSetting "bio_message" "Hi"])
    as [Horders _].
  apply (Horders 1 (OrderRow 2 "A" "10" "pending" "t0" None)). reflexivity.
Defined.

Lemma filter_all {A} (P : A → Prop) `{∀ x, Decision (P x)} (l : list A) :
  Forall P l → filter P l = l.
Proof.
  induction 1 as [|x l Hx _ IH]; [done|].
  by rewrite filter_cons_True, IH.
Qed.

(** X9.  No write of the store sets the blocked flag: in every store reached
    from the empty tables no user is blocked, so [get_all_users] lists every
    row of the users table and [get_user_count] is the size of the table. *)
Theorem no_write_blocks_a_user (ops : list db_write) :
  let db := run_writes ops empty_database in
  (∀ u r, users db !! u = Some r → u_is_blocked r = 0) ∧
  (∀ u, u ∈ uv_user_id <$> get_all_users db ↔ is_Some (users db !! u)) ∧
  get_user_count db = Z.of_nat (size (users db)).
Proof.
  intros db.
  destruct (store_invariant_run_writes ops _ store_invariant_empty)
    as [_ _ _ Husers].
  fold db in Husers. split; [done|]. split.
  - intros u. rewrite elem_of_get_all_users_ids. split.
    + intros (r & Hr & _). by exists r.
    + intros [r Hr]. exists r. split; [done | by eapply Husers].
  - unfold get_user_count.
    rewrite (count_filter_length not_blocked), filter_all.
    + by rewrite length_map_to_list.
    + apply Forall_forall. intros [u r] Hin%elem_of_map_to_list.
      by eapply Husers.
Qed.

Lemma no_write_blocks_a_user_witness :
  let ops := [AddUser 7 "ann" "Ann" None "t0" "t0";
              UpdateUserActivity 7 "t1"] in
  u_is_blocked (UserRow "ann" "Ann" None "t0" 0 "t1") = 0.
Proof.
  intros ops.
  destruct (no_write_blocks_a_user ops) as [Hflag _].
  apply (Hflag 7). reflexivity.
Defined.

(** * Further properties of the Python helpers *)

(** ** [str.replace] *)

(** Whether [old] occurs in [s]. *)
Fixpoint occurs (old s : string) : bool :=
  String.prefix old s ||
  match s with
  | EmptyString => false
  | String _ s' => occurs old s'
  end.

Lemma replace_go_absent (old new s : string) :
  occurs old s = false → replace_go old new O s = s.
Proof.
  induction s as [|c s IH]; [done|].
  cbn [occurs replace_go]. intros [Hprefix Hrest]%orb_false_iff.
  rewrite Hprefix. f_equal. by apply IH.
Qed.

(** A text in which [old] does not occur is left as it is. *)
Lemma py_replace_absent (old new s : string) :
  old ≠ "" → occurs old s = false → py_replace old new s = s.
Proof.
  intros Hold Habsent. destruct old as [|c old]; [done|].
  by apply replace_go_absent.
Qed.

(** Dropping the rest of a matched occurrence. *)
Lemma replace_go_skip (old new t s : string) :
  replace_go old new (String.length t) (t +:+ s) = replace_go old new O s.
Proof. induction t as [|c t IH]; [done|]. simpl. apply IH. Qed.

Lemma prefix_app (old s : string) : String.prefix old (old +:+ s) = true.
Proof.
  induction old as [|c old IH]; simpl; [by destruct s|].
  destruct (ascii_dec c c); [done|congruence].
Qed.

(** An occurrence at the front is replaced and the scan goes on behind
    it. *)
Lemma py_replace_front (old new s : string) :
  old ≠ "" →
  py_replace old new (old +:+ s) = new +:+ py_replace old new s.
Proof.
  intros Hold. destruct old as [|c old]; [done|].
  unfold py_replace.
  change (String c old +:+ s) with (String c (old +:+ s)).
  cbn [replace_go].
  change (String c (old +:+ s)) with (String c old +:+ s).
  rewrite prefix_app. f_equal. simpl. apply replace_go_skip.
Qed.

(** ** [int] and [str] *)

Fixpoint all_chars (P : ascii → bool) (s : string) : bool :=
  match s with
  | EmptyString => true
  | String c s' => P c && all_chars P s'
  end.

Definition is_digit (c : ascii) : bool :=
  match digit_of c with Some _ => true | None => false end.

Lemma digit_of_pretty_N_char (d : N) :
  (d < 10)%N → digit_of (pretty_N_char d) = Some (Z.of_N d).
Proof.
  intros Hd.
  assert (d = 0 ∨ d = 1 ∨ d = 2 ∨ d = 3 ∨ d = 4 ∨ d = 5 ∨ d = 6 ∨ d = 7
          ∨ d = 8 ∨ d = 9)%N as Hcases by lia.
  repeat destruct Hcases as [-> | Hcases]; try subst d; done.
Qed.

(** Reading the digits [str] wrote gives the number back. *)
Lemma digits_go_pretty_N_go (x : N) :
  ∃ m, ∀ acc s,
    digits_go acc (pretty_N_go x s) = digits_go (acc * m + Z.of_N x) s.
Proof.
  induction (N.lt_wf_0 x) as [x _ IH].
  destruct (decide (x = 0)%N) as [->|Hpos].
  { exists 1. intros acc s. rewrite pretty_N_go_0. f_equal. lia. }
  destruct (IH (x `div` 10)%N) as [m Hm]; [apply N.div_lt; lia|].
  exists (m * 10). intros acc s.
  rewrite pretty_N_go_step by lia. rewrite Hm. cbn [digits_go].
  rewrite digit_of_pretty_N_char by (apply N.mod_lt; lia).
  f_equal. rewrite (N.div_mod x 10) at 3 by lia.
  rewrite N2Z.inj_add, N2Z.inj_mul. simpl (Z.of_N 10). lia.
Qed.

Lemma pretty_N_go_head (x : N) (s : string) :
  (0 < x)%N →
  ∃ d t, (d < 10)%N ∧ pretty_N_go x s = String (pretty_N_char d) t.
Proof.
  revert s. induction (N.lt_wf_0 x) as [x _ IH]; intros s Hpos.
  rewrite pretty_N_go_step by done.
  destruct (decide (x `div` 10 = 0)%N) as [Hz|Hnz].
  - rewrite Hz, pretty_N_go_0. eexists _, _. split; [|done].
    apply N.mod_lt. lia.
  - apply IH; [apply N.div_lt; lia | by apply N.neq_0_lt_0].
Qed.

Lemma py_int_digits (d : N) (t : string) :
  (d < 10)%N →
  py_int (String (pretty_N_char d) t) = digits_go 0 (String (pretty_N_char d) t).
Proof.
  intros Hd.
  assert (d = 0 ∨ d = 1 ∨ d = 2 ∨ d = 3 ∨ d = 4 ∨ d = 5 ∨ d = 6 ∨ d = 7
          ∨ d = 8 ∨ d = 9)%N as Hcases by lia.
  repeat destruct Hcases as [-> | Hcases]; try subst d; done.
Qed.

Lemma digits_pretty_positive (p : positive) :
  digits (pretty (Npos p)) = Some (Zpos p) ∧
  py_int (pretty (Npos p)) = Some (Zpos p).
Proof.
  unfold pretty, pretty_N. rewrite decide_False by done.
  destruct (pretty_N_go_head (Npos p) "") as (d & t & Hd & Hhead); [lia|].
  destruct (digits_go_pretty_N_go (Npos p)) as [m Hm].
  assert (digits_go 0 (pretty_N_go (N.pos p) "") = Some (Z.pos p)) as Hgo.
  { rewrite Hm. simpl. f_equal. }
  split.
  - unfold digits. rewrite Hhead in *. done.
  - rewrite Hhead in *. by rewrite py_int_digits.
Qed.

(** [int(str(z)) == z]. *)
Lemma py_int_pretty (z : Z) : py_int (pretty z) = Some z.
Proof.
  destruct z as [|p|p]; [done|apply digits_pretty_positive|].
  destruct (digits_pretty_positive p) as [Hdigits _].
  change (py_int (pretty (Zneg p)))
    with (Z.opp <$> digits (pretty (Npos p))).
  by rewrite Hdigits.
Qed.

(** [str(z)] is made of digits and the sign. *)
Definition digit_or_sign (c : ascii) : bool :=
  is_digit c || bool_decide (c = "-"%char).

Lemma pretty_N_go_chars (x : N) (s : string) :
  all_chars digit_or_sign s = true →
  all_chars digit_or_sign (pretty_N_go x s) = true.
Proof.
  revert s. induction (N.lt_wf_0 x) as [x _ IH]; intros s Hs.
  destruct (decide (x = 0)%N) as [->|Hpos]; [by rewrite pretty_N_go_0|].
  rewrite pretty_N_go_step by lia.
  apply IH; [apply N.div_lt; lia|].
  cbn [all_chars]. rewrite Hs, andb_true_r.
  unfold digit_or_sign, is_digit.
  by rewrite digit_of_pretty_N_char by (apply N.mod_lt; lia).
Qed.

Lemma pretty_Z_chars (z : Z) : all_chars digit_or_sign (pretty z) = true.
Proof.
  assert (∀ p, all_chars digit_or_sign (pretty (Npos p)) = true) as Hpos.
  { intros p. unfold pretty, pretty_N. rewrite decide_False by done.
    by apply pretty_N_go_chars. }
  destruct z as [|p|p]; [done|apply Hpos|].
  unfold pretty, pretty_Z. simpl. apply Hpos.
Qed.

(** A word that starts with a character [str(z)] cannot hold does not occur
    in it. *)
Lemma occurs_other_chars (P : ascii → bool) (c : ascii) (old s : string) :
  P c = false → all_chars P s = true → occurs (String c old) s = false.
Proof.
  intros Hc. induction s as [|c' s IH]; [done|].
  cbn [all_chars occurs]. intros [Hc' Hs]%andb_true_iff.
  rewrite IH, orb_false_r by done. simpl.
  destruct (ascii_dec c c') as [->|]; [congruence|done].
Qed.

(** The number a button carries behind its prefix is read back as it was
    written: [int((prefix + str(z)).replace(prefix, ""))] is [z], for a
    prefix that does not start with a digit or the sign. *)
Lemma callback_number_roundtrip (c : ascii) (tag : string) (z : Z) :
  digit_or_sign c = false →
  py_int (py_replace (String c tag) "" (String c tag +:+ pretty z)) = Some z.
Proof.
  intros Hc. rewrite py_replace_front by done.
  change ("" +:+ ?s) with s.
  rewrite py_replace_absent; [apply py_int_pretty | done |].
  eapply occurs_other_chars; [done | apply pretty_Z_chars].
Qed.

(** * The other handlers *)

Ltac run_action :=
  unfold mbind, action_bind, mret, action_ret, fail, read_db, write_db,
    or_fail, send, try_send, read_clock in *;
  simpl in *.

(** ** Start-up data *)

Definition diuwin (now : string) : database → database :=
  add_product "Diuwin" "Diuwin Premium"
    "Premium features, Ad-free experience, Priority support"
    "299" "Complete premium access to Diuwin application" now.

Definition cricket (now : string) : database → database :=
  add_product "Cricket 24" "Cricket 24 Pro"
    "Live scores, Premium stats, Ad-free viewing"
    "199" "Professional cricket tracking and statistics" now.

(** What a run of [_init_default_data] comes to. *)
Lemma init_default_data_run (clock : nat → string) (db : database)
    (tick : nat) (sent : list request) :
  _init_default_data clock (Session db tick sent)
    = let db1 :=
        match truthy (get_setting "bio_message" None db) with
        | None => set_setting "bio_message" default_bio db
        | Some _ => db
        end in
      match get_all_products db1 with
      | [] =>
          (Returned tt,
           Session (cricket (clock (S tick)) (diuwin (clock tick) db1))
             (S (S tick)) sent)
      | _ => (Returned tt, Session db1 tick sent)
      end.
Proof.
  unfold _init_default_data, mbind, action_bind, mret, action_ret, read_db,
    write_db, read_clock.
  cbn [s_db s_tick s_sent].
  destruct (truthy (get_setting "bio_message" None db)) as [bio|];
    cbn [s_db s_tick s_sent];
    by destruct (get_all_products _).
Qed.

Lemma get_all_products_nil (db : database) :
  get_all_products db = [] ↔ products db = ∅.
Proof.
  unfold get_all_products. rewrite <- map_to_list_empty_iff.
  split; [apply fmap_nil_inv | by intros ->].
Qed.

(** X10.  [_init_default_data] never raises and sends nothing.  It leaves a
    bio that is not empty and a catalog that is not empty as they are,
    stores the default bio over a missing or empty one, and fills an empty
    catalog with the two default products.  Afterwards the bio is not empty
    and the catalog is not empty, so running it again changes nothing. *)
Theorem init_default_data_fills_once (clock1 clock2 : nat → string)
    (s : session) :
  let r := _init_default_data clock1 s in
  let db := s_db s in
  let db' := s_db r.2 in
  r.1 = Returned tt ∧
  s_sent r.2 = s_sent s ∧
  (is_Some (truthy (get_setting "bio_message" None db)) →
   settings db' = settings db) ∧
  (truthy (get_setting "bio_message" None db) = None →
   get_setting "bio_message" None db' = Some default_bio) ∧
  (get_all_products db ≠ [] →
   products db' = products db ∧ products_seq db' = products_seq db) ∧
  (get_all_products db = [] → length (get_all_products db') = 2%nat) ∧
  is_Some (truthy (get_setting "bio_message" None db')) ∧
  get_all_products db' ≠ [] ∧
  users db' = users db ∧ admins db' = admins db ∧ orders db' = orders db ∧
  s_db (_init_default_data clock2 r.2).2 = db'.
Proof.
  intros r db db'. subst r db db'. destruct s as [db tick sent].
  rewrite init_default_data_run. cbn [s_db s_sent]. cbv zeta.
  set (db1 := match truthy (get_setting "bio_message" None db) with
              | None => set_setting "bio_message" default_bio db
              | Some _ => db
              end).
  assert (is_Some (truthy (get_setting "bio_message" None db1))) as Hbio1.
  { subst db1.
    destruct (truthy (get_setting "bio_message" None db)) as [bio|] eqn:Hbio.
    - rewrite Hbio. by eexists.
    - unfold get_setting, set_setting. cbn [settings].
      rewrite lookup_insert_eq. exists default_bio. reflexivity. }
  assert (products db1 = products db ∧ products_seq db1 = products_seq db ∧
          users db1 = users db ∧ admins db1 = admins db ∧
          orders db1 = orders db) as (Hp1 & Hseq1 & Hu1 & Ha1 & Ho1).
  { subst db1.
    destruct (truthy (get_setting "bio_message" None db)); by repeat split. }
  assert (get_all_products db1 = get_all_products db) as Hall1.
  { unfold get_all_products. by rewrite Hp1. }
  assert (∀ now1 now2 d,
            get_all_products d = [] →
            length (get_all_products (cricket now2 (diuwin now1 d))) = 2%nat)
    as Htwo.
  { intros now1 now2 d Hd. unfold cricket, diuwin.
    by rewrite !add_product_length, Hd. }
  destruct (get_all_products db1) as [|p ps] eqn:Hps1;
    cbn [fst snd s_db s_sent s_tick].
  - specialize (Htwo (clock1 tick) (clock1 (S tick)) db1 Hps1).
    set (db2 := cricket (clock1 (S tick)) (diuwin (clock1 tick) db1)) in *.
    assert (settings db2 = settings db1) as Hs2 by done.
    assert (get_all_products db2 ≠ []) as Hne2.
    { intros Hnil. by rewrite Hnil in Htwo. }
    split; [done|]. split; [done|]. split.
    { intros Hsome. rewrite Hs2. subst db1. by destruct Hsome as [? ->]. }
    split.
    { intros Hnone. unfold get_setting. rewrite Hs2. subst db1.
      rewrite Hnone. cbn [set_setting settings].
      by rewrite lookup_insert_eq. }
    split; [by rewrite <- Hall1|]. split; [done|].
    split.
    { unfold get_setting in *. by rewrite Hs2. }
    split; [done|]. split; [done|]. split; [done|]. split; [done|].
    rewrite init_default_data_run. cbv zeta.
    assert (truthy (get_setting "bio_message" None db2)
              = truthy (get_setting "bio_message" None db1)) as Hb2.
    { unfold get_setting. by rewrite Hs2. }
    destruct Hbio1 as [bio Hbio1]. rewrite Hb2, Hbio1.
    by destruct (get_all_products db2).
  - split; [done|]. split; [done|]. split.
    { intros Hsome. subst db1. by destruct Hsome as [? ->]. }
    split.
    { intros Hnone. subst db1. rewrite Hnone.
      unfold get_setting, set_setting. cbn [settings].
      by rewrite lookup_insert_eq. }
    split; [done|]. split; [by rewrite <- Hall1|].
    split; [done|]. split; [by rewrite Hps1|].
    split; [done|]. split; [done|]. split; [done|].
    rewrite init_default_data_run. cbv zeta.
    destruct Hbio1 as [bio Hbio1]. rewrite Hbio1, Hps1. done.
Qed.

Lemma init_default_data_fills_once_witness :
  let s := Session empty_database 0 [] in
  let db' := s_db (_init_default_data (λ _, "t0") s).2 in
  get_setting "bio_message" None db' = Some default_bio ∧
  length (get_all_products db') = 2%nat ∧
  settings (s_db (_init_default_data (λ _, "t1") (Session db' 0 [])).2)
    = settings db'.
Proof.
  intros s db'.
  destruct (init_default_data_fills_once (λ _, "t0") (λ _, "t1") s)
    as (_ & _ & _ & Hbio & _ & Hcatalog & Hsome & _).
  destruct (init_default_data_fills_once (λ _, "t1") (λ _, "t1")
              (Session db' 0 [])) as (_ & _ & Hkeep & _).
  split; [apply Hbio; reflexivity|].
  split; [apply Hcatalog; reflexivity|].
  apply Hkeep. exact Hsome.
Defined.

(** ** Access control at the handlers *)

(** The requests a refused actor gets to see. *)
Definition denial (r : request) : Prop :=
  r = Plain AnswerQuery ∨
  r = Plain (EditMessageText AccessDenied []) ∨
  r = EditMenu AdminAccessDenied [[MenuButton BackButton "back_to_main"]] ∨
  r = Plain (ReplyText AccessDenied []).

(** A run that wrote nothing, entered no wizard and sent denials only. *)
Definition refused (s : session) (r : outcome (option Z) * session) : Prop :=
  s_db r.2 = s_db s ∧
  (r.1 = Returned None ∨ r.1 = Raised) ∧
  ∃ l, s_sent r.2 = s_sent s ++ l ∧ Forall denial l.

Definition refused_in_chat (w : world) (r : outcome (option Z) * world)
    : Prop :=
  w_db r.2 = w_db w ∧
  (r.1 = Returned None ∨ r.1 = Returned (Some END) ∨ r.1 = Raised) ∧
  (w_trace r.2 = w_trace w ∨
   w_trace r.2 = w_trace w ++ [ReplyText AccessDenied []]).

Ltac show_denials :=
  simpl;
  first
    [ exists []; split; [by rewrite app_nil_r | constructor]
    | eexists; split;
      [ by rewrite <- ?app_assoc
      | repeat constructor; unfold denial; tauto ] ].

(** X11.  Who is neither owner nor admin gets nothing out of the admin
    handlers: the panel, the five management callbacks, both wizard entries,
    [/broadcast], [/users] and the two wizard message handlers write nothing
    to the store, send nothing but the acknowledgement and the denial, send
    no broadcast, and enter no wizard state. *)
Theorem unprivileged_actor_is_refused (OWNER_IDS : list Z)
    (net : request → bool) (net' : call → bool) (user : tg_user)
    (data : option string) (message : tg_message) (args : list string)
    (s : session) (w : world) :
  is_owner_or_admin OWNER_IDS (tu_id user) (s_db s) = false →
  is_owner_or_admin OWNER_IDS (tu_id user) (w_db w) = false →
  let press :=
    TgUpdate None (Some user) (Some (TgCallbackQuery (Some user) data)) in
  let command := TgUpdate (Some message) (Some user) None in
  Forall (refused s)
    [admin_panel_callback OWNER_IDS net press s;
     change_bio_callback OWNER_IDS net press s;
     manage_products_callback OWNER_IDS net press s;
     view_products_callback OWNER_IDS net press s;
     user_management_callback OWNER_IDS net press s;
     view_users_callback OWNER_IDS net press s;
     broadcast_callback OWNER_IDS net press s;
     broadcast_command OWNER_IDS net command args s] ∧
  Forall (refused_in_chat w)
    [users_command OWNER_IDS net' command args w;
     handle_bio_message OWNER_IDS net' command w;
     handle_broadcast_message OWNER_IDS net' command w].
Proof.
  intros Hs Hw press command. subst press command. split.
  - repeat apply Forall_cons_2; [..|apply Forall_nil_2];
      unfold admin_panel_callback, change_bio_callback,
        manage_products_callback, view_products_callback,
        user_management_callback, view_users_callback, broadcast_callback,
        broadcast_command, privileged_callback;
      cbn [upd_callback_query upd_effective_user upd_message q_from_user];
      unfold refused, mbind, action_bind, mret, action_ret, read_db, send;
      cbn [s_db s_sent s_tick]; try rewrite Hs; cbn [negb];
      repeat (destruct (net _); cbn [s_db s_sent s_tick fst snd]);
      try rewrite Hs; cbn [negb];
      repeat (destruct (net _); cbn [s_db s_sent s_tick fst snd]);
      (split; [done | split; [tauto | show_denials]]).
  - repeat apply Forall_cons_2; [..|apply Forall_nil_2];
      unfold users_command, handle_bio_message, handle_broadcast_message;
      cbn [upd_callback_query upd_effective_user upd_message];
      unfold refused_in_chat, mbind, handler_bind, mret, handler_ret, get_db,
        await;
      cbn [w_db w_trace w_tick]; rewrite Hw; cbn [negb];
      destruct (net' _); cbn [w_db w_trace w_tick fst snd]; tauto.
Qed.

Lemma unprivileged_actor_is_refused_witness :
  let s := Session empty_database 0 [] in
  let w := World empty_database 0 [] in
  let press :=
    TgUpdate None (Some user_x)
      (Some (TgCallbackQuery (Some user_x) (Some "admin_broadcast"))) in
  refused s (broadcast_callback [1] (λ _, true) press s) ∧
  refused_in_chat w
    (handle_bio_message [1] (λ _, true) (text_from user_x "mine") w).
Proof.
  intros s w press.
  destruct (unprivileged_actor_is_refused [1] (λ _, true) (λ _, true) user_x
              (Some "admin_broadcast") (TgMessage (Some "mine") []) [] s w)
    as [Hmenus Hchat]; [reflexivity | reflexivity |].
  split.
  - by do 6 apply Forall_cons_1 in Hmenus as [_ Hmenus];
      apply Forall_cons_1 in Hmenus as [Hmenu _].
  - by apply Forall_cons_1 in Hchat as [_ Hchat];
      apply Forall_cons_1 in Hchat as [Hbio _].
Defined.

Ltac entry_cases :=
  repeat match goal with
         | |- _ ∧ _ => split
         | |- ∀ _, _ => intro
         | |- _ ↔ _ => split
         end;
  try done; try (intuition congruence).

(** X12.  A wizard is entered by its entry callback only, and by a
    privileged actor only: [change_bio_callback] returns [WAITING_BIO], and
    [broadcast_callback] returns [WAITING_BROADCAST], exactly when the actor
    is owner or admin and the acknowledgement and the prompt went through;
    they return no other state, and neither writes to the store. *)
Theorem wizard_entry_needs_privilege (OWNER_IDS : list Z) (net : request → bool)
    (user : tg_user) (data : option string) (s : session) :
  let press :=
    TgUpdate None (Some user) (Some (TgCallbackQuery (Some user) data)) in
  let bio := change_bio_callback OWNER_IDS net press s in
  let broadcast := broadcast_callback OWNER_IDS net press s in
  let current_bio :=
    py_str (get_setting "bio_message" (Some "Default bio message") (s_db s)) in
  (∀ state, bio.1 = Returned (Some state) ↔
     state = WAITING_BIO ∧
     is_owner_or_admin OWNER_IDS (tu_id user) (s_db s) = true ∧
     net (Plain AnswerQuery) = true ∧
     net (EditMenu (ChangeBioPage current_bio)
            [[MenuButton CancelButton "admin_panel"]]) = true) ∧
  (∀ state, broadcast.1 = Returned (Some state) ↔
     state = WAITING_BROADCAST ∧
     is_owner_or_admin OWNER_IDS (tu_id user) (s_db s) = true ∧
     net (Plain AnswerQuery) = true ∧
     net (EditMenu (BroadcastPage (get_user_count (s_db s)))
            [[MenuButton CancelButton "admin_panel"]]) = true) ∧
  s_db bio.2 = s_db s ∧ s_db broadcast.2 = s_db s.
Proof.
  intros press bio broadcast current_bio.
  subst press bio broadcast current_bio.
  unfold change_bio_callback, broadcast_callback, privileged_callback.
  cbn [upd_callback_query q_from_user].
  unfold mbind, action_bind, mret, action_ret, read_db, send.
  cbn [s_db s_sent s_tick].
  destruct (net (Plain AnswerQuery)); cbn [s_db s_sent s_tick fst snd];
    [|entry_cases].
  destruct (is_owner_or_admin OWNER_IDS (tu_id user) (s_db s)); cbn [negb];
    [|destruct (net _); cbn [fst snd s_db]; entry_cases].
  destruct (net (EditMenu (ChangeBioPage _) _));
    destruct (net (EditMenu (BroadcastPage _) _));
    cbn [fst snd s_db]; entry_cases.
Qed.

(** ** [/broadcast] *)

Section BroadcastCommand.
Variable net : request → bool.
Variable message : string.

Definition reached (user : user_view) : bool :=
  net (SendPage (uv_user_id user) (BroadcastLine message)).

Definition line_to (user : user_view) : request :=
  SendPage (uv_user_id user) (BroadcastLine message).

(** The loop never raises, writes nothing, sends the line to the users the
    transport lets it reach, in order, and counts them. *)
Lemma broadcast_command_loop_run (users : list user_view) :
  ∀ sent_count s,
    broadcast_command_loop net message users sent_count s
      = (Returned (sent_count + Z.of_nat (length (List.filter reached users))),
         Session (s_db s) (s_tick s)
           (s_sent s ++ (line_to <$> List.filter reached users))).
Proof.
  induction users as [|u users IH]; intros sent_count s.
  - simpl. unfold mret, action_ret. rewrite Z.add_0_r, app_nil_r.
    by destruct s.
  - cbn [broadcast_command_loop List.filter].
    unfold mbind, action_bind, try_send, send, reached in *.
    destruct (net (SendPage _ _)) eqn:Hsend; cbn [fst snd].
    + rewrite IH. cbn [s_db s_tick s_sent length fmap list_fmap].
      f_equal; [f_equal; lia | f_equal; by rewrite <- app_assoc].
    + by rewrite IH.
Qed.
End BroadcastCommand.

(** X13.  [/broadcast] by an owner or admin with a text: every user of
    [get_all_users] is tried once, a refused send is skipped without ending
    the loop, and the reply reports exactly the number of messages that went
    through.  The text is the arguments joined by single spaces.  The store
    is not written to. *)
Theorem broadcast_command_reports_delivered (OWNER_IDS : list Z)
    (net : request → bool) (user : tg_user) (message : tg_message)
    (args : list string) (s : session) :
  is_owner_or_admin OWNER_IDS (tu_id user) (s_db s) = true →
  args ≠ [] →
  (∀ n, net (ReplyPage (BroadcastSent n)) = true) →
  let text := join_words args in
  let users := List.filter (reached net text) (get_all_users (s_db s)) in
  broadcast_command OWNER_IDS net
    (TgUpdate (Some message) (Some user) None) args s
    = (Returned None,
       Session (s_db s) (s_tick s)
         (s_sent s ++ (line_to text <$> users)
          ++ [ReplyPage (BroadcastSent (Z.of_nat (length users)))])).
Proof.
  intros Hpriv Hargs Hreply text users. subst text users.
  unfold broadcast_command. cbn [upd_effective_user upd_message].
  unfold mbind, action_bind, mret, action_ret, read_db.
  cbn [s_db]. rewrite Hpriv. cbn [negb].
  destruct args as [|a args]; [done|].
  rewrite broadcast_command_loop_run. cbn [s_db s_tick s_sent].
  unfold send. rewrite Hreply. cbn [s_db s_tick s_sent].
  by rewrite <- app_assoc.
Qed.

Lemma broadcast_command_reports_delivered_witness :
  let net := λ r : request,
    match r with
    | SendPage 3 _ => false
    | _ => true
    end in
  let s := Session ten_users 0 [] in
  (broadcast_command [100] net (text_from owner_100 "/broadcast Hello all")
     ["Hello"; "all"] s).1 = Returned None ∧
  last (s_sent (broadcast_command [100] net
                  (text_from owner_100 "/broadcast Hello all")
                  ["Hello"; "all"] s).2)
    = Some (ReplyPage (BroadcastSent 9)).
Proof.
  intros net s. unfold text_from.
  rewrite (broadcast_command_reports_delivered [100] net owner_100
             (TgMessage (Some "/broadcast Hello all") []) ["Hello"; "all"] s);
    [|reflexivity|done|reflexivity].
  split; [reflexivity|]. by vm_compute.
Defined.

(** ** The admin panel *)

Definition admin_management_row : list menu_button :=
  [MenuButton AdminManagementButton "admin_manage_admins"].

(** X14.  [admin_panel_callback] for an owner or admin, once the callback is
    acknowledged: the handler returns whether or not the panel could be
    shown, writes nothing, and the panel it shows carries the statistics of
    the store and five rows of buttons, with the admin-management row put
    before the last row exactly when the actor is an owner. *)
Theorem admin_panel_shows_admin_management_to_owners (OWNER_IDS : list Z)
    (net : request → bool) (user : tg_user) (data : option string)
    (s : session) :
  is_owner_or_admin OWNER_IDS (tu_id user) (s_db s) = true →
  net (Plain AnswerQuery) = true →
  let press :=
    TgUpdate None (Some user) (Some (TgCallbackQuery (Some user) data)) in
  let r := admin_panel_callback OWNER_IDS net press s in
  let rows :=
    [[MenuButton ChangeBioButton "admin_change_bio"];
     [MenuButton ManageProductsButton "admin_manage_products"];
     [MenuButton UserManagementButton "admin_user_management"];
     [MenuButton BroadcastButton "admin_broadcast"]] in
  let back := [MenuButton BackToMainButton "back_to_main"] in
  let keyboard :=
    if bool_decide (tu_id user ∈ OWNER_IDS)
    then rows ++ [admin_management_row; back]
    else rows ++ [back] in
  let panel := EditMenu (AdminPanelPage (format_admin_stats (s_db s))) keyboard in
  r.1 = Returned None ∧
  s_db r.2 = s_db s ∧
  s_sent r.2
    = s_sent s ++ [Plain AnswerQuery] ++ (if net panel then [panel] else []) ∧
  (admin_management_row ∈ keyboard ↔ tu_id user ∈ OWNER_IDS).
Proof.
  intros Hpriv Hack press r rows back keyboard panel.
  subst r press panel keyboard rows back.
  unfold admin_panel_callback. cbn [upd_callback_query q_from_user].
  unfold mbind, action_bind, mret, action_ret, read_db, try_send, send.
  rewrite Hack. cbn [s_db s_sent s_tick]. rewrite Hpriv. cbn [negb].
  destruct (bool_decide (tu_id user ∈ OWNER_IDS)) eqn:Howner.
  - apply bool_decide_eq_true in Howner.
    unfold insert_before_last. simpl.
    destruct (net (EditMenu _ _)); simpl;
      (split; [done|split; [done|split; [by rewrite <- ?app_assoc|]]]);
      (split; [done|intros _]);
      do 4 apply list_elem_of_further; apply list_elem_of_here.
  - apply bool_decide_eq_false in Howner. simpl.
    destruct (net (EditMenu _ _)); simpl;
      (split; [done|split; [done|split; [by rewrite <- ?app_assoc|]]]);
      (split; [|done]); unfold admin_management_row;
      intros Hin; exfalso;
      repeat (apply elem_of_cons in Hin as [Hin|Hin]; [discriminate Hin|]);
      by apply elem_of_nil in Hin.
Qed.

Lemma admin_panel_shows_admin_management_to_owners_witness :
  let s := Session (add_admin 2 "x" 1 "t0" empty_database) 0 [] in
  let press (user : tg_user) :=
    TgUpdate None (Some user)
      (Some (TgCallbackQuery (Some user) (Some "admin_panel"))) in
  (admin_panel_callback [1] (λ _, true) (press user_x) s).1 = Returned None ∧
  (admin_panel_callback [1] (λ _, true) (press the_owner) s).1 = Returned None.
Proof.
  intros s press.
  split.
  - by apply (admin_panel_shows_admin_management_to_owners [1] (λ _, true)
                user_x (Some "admin_panel") s).
  - by apply (admin_panel_shows_admin_management_to_owners [1] (λ _, true)
                the_owner (Some "admin_panel") s).
Defined.

(** ** The users page *)

Lemma get_user_count_length (db : database) :
  get_user_count db = Z.of_nat (length (get_all_users db)).
Proof.
  unfold get_user_count, get_all_users.
  by rewrite (count_filter_length not_blocked), length_fmap.
Qed.

(** The entries never fail on the dictionaries of [get_all_users]. *)
Lemma user_entries_run (users : list user_view) :
  ∀ i, ∃ entries,
    user_entries i users = Some entries ∧
    ue_user_id <$> entries = (λ u, PyInt (uv_user_id u)) <$> users ∧
    ue_number <$> entries = (λ j : nat, i + Z.of_nat j) <$> seq 0 (length users) ∧
    Forall (λ e, ue_joined e = PyStr "Unknown") entries.
Proof.
  induction users as [|u users IH]; intros i.
  - by exists [].
  - destruct (IH (i + 1)) as (entries & Hrun & Hids & Hnumbers & Hjoined).
    eexists. cbn [user_entries]. rewrite Hrun. split; [reflexivity|].
    cbn [fmap list_fmap ue_user_id ue_number length seq].
    split; [by rewrite Hids|]. split.
    + rewrite Hnumbers, <- fmap_S_seq, <- list_fmap_compose.
      f_equal; [lia|]. apply list_fmap_ext. intros _ j _. simpl. lia.
    + by constructor.
Qed.

(** X15.  [view_users_callback] for an owner or admin, when the transport
    takes the calls: the page lists the first ten users of [get_all_users],
    numbered from 1, each with its id, and reports how many are left, so
    that the users listed and those left add up to [get_user_count]; with
    no user it says so.  The join date of every user listed reads
    "Unknown", whatever the table holds: the page asks the dictionary for
    ['created_at'], and [get_all_users] names the column ['joined_date']. *)
Theorem view_users_never_shows_the_join_date (OWNER_IDS : list Z)
    (net : request → bool) (user : tg_user) (data : option string)
    (s : session) :
  is_owner_or_admin OWNER_IDS (tu_id user) (s_db s) = true →
  net (Plain AnswerQuery) = true →
  (∀ p kb, net (EditMenu p kb) = true) →
  let press :=
    TgUpdate None (Some user) (Some (TgCallbackQuery (Some user) data)) in
  let users := get_all_users (s_db s) in
  let back :=
    [[MenuButton BackToUserManagementButton "admin_user_management"]] in
  ∃ message,
    view_users_callback OWNER_IDS net press s
      = (Returned None,
         Session (s_db s) (s_tick s)
           (s_sent s ++ [Plain AnswerQuery; EditMenu message back])) ∧
    match message with
    | NoUsersPage => get_user_count (s_db s) = 0
    | AllUsersPage entries more =>
        ue_user_id <$> entries
          = (λ u, PyInt (uv_user_id u)) <$> take 10 users ∧
        ue_number <$> entries
          = (λ j : nat, 1 + Z.of_nat j) <$> seq 0 (length entries) ∧
        Forall (λ e, ue_joined e = PyStr "Unknown") entries ∧
        Z.of_nat (length entries) + default 0 more = get_user_count (s_db s) ∧
        (is_Some more ↔ 10 < get_user_count (s_db s))
    | _ => False
    end.
Proof.
  intros Hpriv Hack Hedit press users back. subst press back.
  unfold view_users_callback, privileged_callback.
  cbn [upd_callback_query q_from_user].
  unfold mbind at 1 2, action_bind, send at 1, read_db.
  rewrite Hack. cbn [s_db s_tick s_sent]. rewrite Hpriv. cbn [negb].
  rewrite get_user_count_length. fold users.
  destruct (user_entries_run (take 10 users) 1)
    as (entries & Hrun & Hids & Hnumbers & Hjoined).
  assert (length entries = length (take 10 users)) as Hlen.
  { by rewrite <- (length_fmap ue_user_id), Hids, length_fmap. }
  destruct users as [|u users'] eqn:Husers.
  - exists NoUsersPage.
    unfold mbind, action_bind, mret, action_ret, send. cbn beta iota zeta.
    rewrite Hedit. cbn [s_db s_tick s_sent].
    split; [by rewrite <- app_assoc | done].
  - rewrite <- Husers in *. rewrite Hrun.
    eexists.
    unfold or_fail. unfold mbind, action_bind, mret, action_ret, send.
    cbn beta iota zeta. rewrite Hedit. cbn [s_db s_tick s_sent].
    split; [by rewrite <- app_assoc|]. cbn beta iota.
    split; [done|]. split; [by rewrite Hnumbers, Hlen|]. split; [done|].
    rewrite Hlen, length_take.
    case_bool_decide as Hmore; cbn [stdpp.option.from_option]; unfold Datatypes.id.
    + split; [lia|]. split; [lia | by eexists].
    + split; [lia|]. split; [by intros [? [=]] | lia].
Qed.

Lemma view_users_never_shows_the_join_date_witness :
  (view_users_callback [100] (λ _, true)
     (TgUpdate None (Some owner_100)
        (Some (TgCallbackQuery (Some owner_100) (Some "admin_view_users"))))
     (Session ten_users 0 [])).1 = Returned None.
Proof.
  destruct (view_users_never_shows_the_join_date [100] (λ _, true) owner_100
              (Some "admin_view_users") (Session ten_users 0 []))
    as (message & -> & _); reflexivity.
Defined.

(** ** From button to handler *)

Definition press (user : tg_user) (data : string) : tg_update :=
  TgUpdate None (Some user) (Some (TgCallbackQuery (Some user) (Some data))).

(** What [category_callback] answers to the button of a category. *)
Lemma category_callback_run (net' : call → bool) (db : database)
    (tick : nat) (trace : list call) (user : tg_user) (c : string) :
  net' AnswerQuery = true →
  (∀ t kb, net' (EditMessageText t kb) = true) →
  let looked_up := py_replace "category_" "" c in
  let back := [Button BackToCategories "premium_files"] in
  category_callback net' (press user ("category_" +:+ c)) (World db tick trace)
    = (Returned None,
       World db tick
         (trace ++
          [AnswerQuery;
           match get_products_by_category looked_up db with
           | [] => EditMessageText (NoProductsInCategory looked_up) [back]
           | products =>
               EditMessageText (CategoryProducts looked_up)
                 ((product_button <$> products) ++ [back])
           end])).
Proof.
  intros Hack Hedit looked_up back.
  unfold category_callback, press.
  cbn [upd_callback_query q_from_user q_data].
  change (truthy (Some ("category_" +:+ c))) with (Some ("category_" +:+ c)).
  unfold mbind, handler_bind, mret, handler_ret, get_db, await.
  rewrite Hack. cbn [w_db w_tick w_trace].
  rewrite (py_replace_front "category_" "" c) by done.
  change ("" +:+ py_replace "category_" "" c) with looked_up.
  destruct (get_products_by_category looked_up db); rewrite Hedit;
    cbn [w_db w_tick w_trace]; by rewrite <- app_assoc.
Qed.

(** X16.  The buttons of a product lead to that product.  For a product of
    the catalog whose category does not hold the word ["category_"], the
    button of its category, pressed, makes [category_callback] show the
    products of the category, among them a button for this product that
    carries ["product_" + str(id)]; pressed, [product_callback] shows the
    details of that product with a buy button that carries
    ["buy_" + str(id)]; pressed, [buy_now_callback] records an order with
    that product's name and price. *)
Theorem product_buttons_lead_to_the_product (net : request → bool)
    (net' : call → bool) (clock : nat → string) (qr_code_exists : bool)
    (db : database) (tick : nat) (sent : list request) (trace : list call)
    (user : tg_user) (product_id : Z) (row : product_row) :
  products db !! product_id = Some row →
  occurs "category_" (p_category row) = false →
  net (Plain AnswerQuery) = true →
  (∀ p kb, net (EditMenu p kb) = true) →
  net' AnswerQuery = true →
  (∀ t kb, net' (EditMessageText t kb) = true) →
  let listed := product_button (category_product_of (product_id, row)) in
  let buy := "buy_" +:+ pretty product_id in
  let details :=
    EditMenu (ProductDetails (product_of (product_id, row)))
      [[MenuButton BuyNowButton buy];
       [MenuButton BackToProductsButton ("category_" +:+ p_category row)]] in
  let keyboard :=
    (product_button <$> get_products_by_category (p_category row) db)
    ++ [[Button BackToCategories "premium_files"]] in
  category_callback net' (press user ("category_" +:+ p_category row))
    (World db tick trace)
    = (Returned None,
       World db tick
         (trace ++
          [AnswerQuery;
           EditMessageText (CategoryProducts (p_category row)) keyboard])) ∧
  listed ∈ keyboard ∧
  callback_data <$> listed = ["product_" +:+ pretty product_id] ∧
  product_callback net (press user ("product_" +:+ pretty product_id))
    (Session db tick sent)
    = (Returned None, Session db tick (sent ++ [Plain AnswerQuery; details])) ∧
  w_db (buy_now_callback net' clock qr_code_exists (press user buy)
          (World db tick trace)).2
    = add_order (tu_id user) (p_name row) (p_price row) None (clock tick) db.
Proof.
  intros Hrow Hword Hack Hedit Hack' Hedit' listed buy details keyboard.
  subst listed buy details keyboard.
  assert (product_button (category_product_of (product_id, row))
            ∈ product_button <$> get_products_by_category (p_category row) db)
    as Hlisted.
  { apply list_elem_of_fmap. eexists. split; [done|].
    apply elem_of_get_products_by_category. by exists row. }
  split; [|split; [|split; [done|split]]].
  - rewrite (category_callback_run net' db tick trace user (p_category row))
      by done.
    rewrite (py_replace_absent "category_" "" (p_category row)) by done.
    destruct (get_products_by_category (p_category row) db) as [|cp cps];
      [|done].
    by apply elem_of_nil in Hlisted.
  - apply elem_of_app. by left.
  - unfold product_callback, press.
    cbn [upd_callback_query q_from_user q_data].
    change (truthy (Some ("product_" +:+ pretty product_id)))
      with (Some ("product_" +:+ pretty product_id)).
    unfold mbind, action_bind, send. rewrite Hack.
    rewrite (callback_number_roundtrip "p" "roduct_" product_id) by done.
    unfold or_fail, mret, action_ret, read_db. cbn [s_db s_tick s_sent].
    rewrite (find_product_by_id _ _ _ Hrow).
    unfold show_product_details, send. rewrite Hedit.
    cbn [s_db s_tick s_sent]. by rewrite <- app_assoc.
  - apply (buy_now_callback_store net' clock qr_code_exists user
             ("buy_" +:+ pretty product_id) product_id row (Some user) None
             (World db tick trace)); try done.
    apply (callback_number_roundtrip "b" "uy_" product_id). done.
Qed.

Lemma product_buttons_lead_to_the_product_witness :
  category_callback (λ _, true) (press user_x "category_Apps")
    (World two_products 0 [])
    = (Returned None,
       World two_products 0
         [AnswerQuery;
          EditMessageText (CategoryProducts "Apps")
            [[Button (ProductLabel "A" "10") "product_1"];
             [Button BackToCategories "premium_files"]]]) ∧
  product_callback (λ _, true) (press user_x "product_1")
    (Session two_products 0 [])
    = (Returned None,
       Session two_products 0
         [Plain AnswerQuery;
          EditMenu (ProductDetails (Product 1 "Apps" "A" "fa" "10" "da"))
            [[MenuButton BuyNowButton "buy_1"];
             [MenuButton BackToProductsButton "category_Apps"]]]).
Proof.
  destruct (product_buttons_lead_to_the_product (λ _, true) (λ _, true)
              (λ _, "t0") false two_products 0 [] [] user_x 1
              (ProductRow "Apps" "A" "fa" "10" "da" "t0"))
    as (Hlisted & _ & _ & Hshown & _); [reflexivity..|].
  split; [exact Hlisted | exact Hshown].
Defined.

(** X17.  The button of a category carries ["category_" + c], and
    [category_callback] looks up what is left of that after every
    ["category_"] is taken out: the products of [c] when the word does not
    occur in [c], and in general those of [c] without it.  It shows one
    button for each product found, or the no-products text. *)
Theorem category_buttons_lead_to_the_category (net' : call → bool)
    (db : database) (tick : nat) (trace : list call) (user : tg_user)
    (c : string) :
  net' AnswerQuery = true →
  (∀ t kb, net' (EditMessageText t kb) = true) →
  let looked_up := py_replace "category_" "" c in
  let products := get_products_by_category looked_up db in
  let back := [Button BackToCategories "premium_files"] in
  let shown :=
    match products with
    | [] => EditMessageText (NoProductsInCategory looked_up) [back]
    | _ =>
        EditMessageText (CategoryProducts looked_up)
          ((product_button <$> products) ++ [back])
    end in
  callback_data <$> category_button c = ["category_" +:+ c] ∧
  category_callback net' (press user ("category_" +:+ c)) (World db tick trace)
    = (Returned None, World db tick (trace ++ [AnswerQuery; shown])) ∧
  (occurs "category_" c = false → looked_up = c).
Proof.
  intros Hack Hedit looked_up products back shown.
  split; [done|]. split.
  - unfold category_callback, press.
    cbn [upd_callback_query q_from_user q_data].
    change (truthy (Some ("category_" +:+ c))) with (Some ("category_" +:+ c)).
    unfold mbind, handler_bind, mret, handler_ret, get_db, await.
    rewrite Hack. cbn [w_db w_tick w_trace].
    rewrite (py_replace_front "category_" "" c) by done.
    change ("" +:+ py_replace "category_" "" c) with looked_up.
    fold products. subst shown.
    destruct products; rewrite Hedit; cbn [w_db w_tick w_trace];
      by rewrite <- app_assoc.
  - intros Habsent. by apply py_replace_absent.
Qed.

Lemma category_buttons_lead_to_the_category_witness :
  category_callback (λ _, true) (press user_x "category_Apps")
    (World two_products 0 [])
    = (Returned None,
       World two_products 0
         [AnswerQuery;
          EditMessageText (CategoryProducts "Apps")
            [[Button (ProductLabel "A" "10") "product_1"];
             [Button BackToCategories "premium_files"]]]).
Proof.
  destruct (category_buttons_lead_to_the_category (λ _, true) two_products
              0 [] user_x "Apps") as (_ & Hshown & _); [reflexivity..|].
  exact Hshown.
Defined.

(** A category whose name holds the word is looked up under another name. *)
Example category_named_with_the_prefix :
  py_replace "category_" "" ("category_" +:+ "category_x") = "x".
Proof. reflexivity. Qed.

(** ** The bio and the main menu *)

(** What [handle_bio_message] stores for an owner or admin. *)
Lemma handle_bio_message_store OWNER_IDS net' (actor : tg_user)
    (message : tg_message) (w : world) :
  is_owner_or_admin OWNER_IDS (tu_id actor) (w_db w) = true →
  w_db (handle_bio_message OWNER_IDS net'
          (TgUpdate (Some message) (Some actor) None) w).2
    = set_setting "bio_message" (py_or (m_text message) "Default bio message")
        (w_db w).
Proof.
  intros Hpriv. unfold handle_bio_message.
  cbn [upd_message upd_effective_user].
  unfold mbind, handler_bind, mret, handler_ret, get_db, modify_db, await.
  cbn [w_db]. rewrite Hpriv. cbn [negb w_db w_tick w_trace].
  by destruct (net' _).
Qed.

(** X18.  The bio an owner or admin sends in the bio wizard is the bio every
    user sees from then on: it is stored whether or not the confirmation
    goes through, an empty text is stored as "Default bio message", and
    [back_to_main_callback] shows the stored bio with the premium-files
    button and, for owners and admins only, the admin-panel button. *)
Theorem new_bio_is_shown_on_the_main_menu (OWNER_IDS : list Z)
    (net' : call → bool) (net : request → bool) (actor user : tg_user)
    (message : tg_message) (data : option string) (w : world) (tick : nat)
    (sent : list request) :
  is_owner_or_admin OWNER_IDS (tu_id actor) (w_db w) = true →
  net (Plain AnswerQuery) = true →
  (∀ p kb, net (EditMenu p kb) = true) →
  let bio := py_or (m_text message) "Default bio message" in
  let db' :=
    w_db (handle_bio_message OWNER_IDS net'
            (TgUpdate (Some message) (Some actor) None) w).2 in
  let keyboard :=
    [MenuButton PremiumFilesButton "premium_files"] ::
    (if is_owner_or_admin OWNER_IDS (tu_id user) (w_db w)
     then [[MenuButton AdminPanelButton "admin_panel"]] else []) in
  bio ≠ "" ∧
  (∀ D, get_setting "bio_message" D db' = Some bio) ∧
  back_to_main_callback OWNER_IDS net
    (TgUpdate None (Some user) (Some (TgCallbackQuery (Some user) data)))
    (Session db' tick sent)
    = (Returned None,
       Session db' tick
         (sent ++ [Plain AnswerQuery; EditMenu (BioPage bio) keyboard])).
Proof.
  intros Hpriv Hack Hedit bio db' keyboard. subst db' keyboard.
  rewrite handle_bio_message_store by done. fold bio.
  assert (∀ D, get_setting "bio_message" D
                 (set_setting "bio_message" bio (w_db w)) = Some bio) as Hget.
  { intros D. unfold get_setting, set_setting. cbn [settings].
    by rewrite lookup_insert_eq. }
  split; [|split; [done|]].
  - subst bio. by destruct (m_text message) as [[|c t]|].
  - unfold back_to_main_callback. cbn [upd_callback_query q_from_user].
    unfold mbind, action_bind, mret, action_ret, read_db, send.
    rewrite Hack. cbn [s_db s_tick s_sent]. rewrite Hget. cbn [py_str default].
    rewrite Hedit. cbn [s_db s_tick s_sent].
    rewrite <- app_assoc. do 5 f_equal. simpl.
    unfold is_owner_or_admin, is_admin, set_setting. cbn [admins].
    by rewrite orb_comm.
Qed.

Lemma new_bio_is_shown_on_the_main_menu_witness :
  let w := World empty_database 0 [] in
  let db' :=
    w_db (handle_bio_message [1] (λ _, false) (text_from the_owner "Sale!") w).2 in
  back_to_main_callback [1] (λ _, true)
    (TgUpdate None (Some user_x) (Some (TgCallbackQuery (Some user_x) None)))
    (Session db' 0 [])
    = (Returned None,
       Session db' 0
         [Plain AnswerQuery;
          EditMenu (BioPage "Sale!")
            [[MenuButton PremiumFilesButton "premium_files"]]]).
Proof.
  intros w db'.
  destruct (new_bio_is_shown_on_the_main_menu [1] (λ _, false) (λ _, true)
              the_owner user_x (TgMessage (Some "Sale!") []) None w 0 [])
    as (_ & _ & Hshown); [reflexivity..|].
  exact Hshown.
Defined.

(** ** What no handler does *)

(** The admins table, the catalog and its counter are as before. *)
Definition same_admins_and_catalog (db db' : database) : Prop :=
  admins db' = admins db ∧ products db' = products db ∧
  products_seq db' = products_seq db.

Lemma broadcast_command_leaves_store OWNER_IDS net update args s :
  s_db (broadcast_command OWNER_IDS net update args s).2 = s_db s.
Proof.
  unfold broadcast_command.
  destruct (upd_effective_user update) as [user|]; [|done].
  destruct (upd_message update) as [message|]; [|done].
  unfold mbind, action_bind, mret, action_ret, read_db, send.
  cbn [s_db]. destruct (negb _); [by destruct (net _)|].
  destruct args as [|a args]; [by destruct (net _)|].
  rewrite broadcast_command_loop_run. cbn [s_db s_tick s_sent].
  by destruct (net _).
Qed.

Ltac keeps_admins_and_catalog :=
  unfold same_admins_and_catalog; run_handler; run_action;
  repeat (case_match; run_handler; run_action; simplify_eq/=);
  done.

(** X19.  No handler of the bot writes to the admins table or to the
    catalog: whatever update arrives and whatever the transport does, after
    each handler of [admin_handlers.py], [bot_handlers.py] and [main.py] the
    admins, the products and the product counter are those before.  (Only
    [_init_default_data], at start-up, adds products.)  So nobody becomes or
    stops being an admin, and no product is added or deleted, through the
    bot. *)
Theorem handlers_never_change_admins_or_catalog (OWNER_IDS : list Z)
    (net' : call → bool) (net : request → bool) (clock : nat → string)
    (qr_code_exists : bool) (update : tg_update) (args : list string)
    (effective_chat : option Z) (db : database) (tick : nat)
    (trace : list call) (sent : list request) :
  let w := World db tick trace in
  let s := Session db tick sent in
  Forall (same_admins_and_catalog db)
    [w_db (start_command OWNER_IDS net' clock update w).2;
     w_db (premium_files_callback net' clock update w).2;
     w_db (category_callback net' update w).2;
     w_db (buy_now_callback net' clock qr_code_exists update w).2;
     w_db (handle_photo net' clock update w).2;
     w_db (handle_message net' clock update w).2;
     w_db (users_command OWNER_IDS net' update args w).2;
     w_db (addadmin_command OWNER_IDS net' update args w).2;
     w_db (removeadmin_command OWNER_IDS net' update args w).2;
     w_db (handle_bio_message OWNER_IDS net' update w).2;
     w_db (handle_broadcast_message OWNER_IDS net' update w).2;
     w_db (cancel_conversation net' update w).2;
     s_db (product_callback net update s).2;
     s_db (back_to_main_callback OWNER_IDS net update s).2;
     s_db (admin_panel_callback OWNER_IDS net update s).2;
     s_db (change_bio_callback OWNER_IDS net update s).2;
     s_db (manage_products_callback OWNER_IDS net update s).2;
     s_db (view_products_callback OWNER_IDS net update s).2;
     s_db (user_management_callback OWNER_IDS net update s).2;
     s_db (view_users_callback OWNER_IDS net update s).2;
     s_db (broadcast_callback OWNER_IDS net update s).2;
     s_db (broadcast_command OWNER_IDS net update args s).2;
     s_db (handle_unknown_callback net update s).2;
     s_db (error_handler net effective_chat s).2] ∧
  ∀ user_id db',
    same_admins_and_catalog db db' →
    is_owner_or_admin OWNER_IDS user_id db'
      = is_owner_or_admin OWNER_IDS user_id db.
Proof.
  intros w s. subst w s. split.
  - repeat apply Forall_cons_2; [..|apply Forall_nil_2].
    + unfold start_command. keeps_admins_and_catalog.
    + unfold premium_files_callback. keeps_admins_and_catalog.
    + unfold category_callback. keeps_admins_and_catalog.
    + unfold buy_now_callback. keeps_admins_and_catalog.
    + unfold handle_photo. keeps_admins_and_catalog.
    + unfold handle_message. keeps_admins_and_catalog.
    + unfold users_command. keeps_admins_and_catalog.
    + by rewrite addadmin_command_leaves_store.
    + by rewrite removeadmin_command_leaves_store.
    + unfold handle_bio_message. keeps_admins_and_catalog.
    + by rewrite handle_broadcast_message_leaves_store.
    + unfold cancel_conversation. keeps_admins_and_catalog.
    + unfold product_callback, show_product_details.
      keeps_admins_and_catalog.
    + unfold back_to_main_callback. keeps_admins_and_catalog.
    + unfold admin_panel_callback. keeps_admins_and_catalog.
    + unfold change_bio_callback, privileged_callback. keeps_admins_and_catalog.
    + unfold manage_products_callback, privileged_callback.
      keeps_admins_and_catalog.
    + unfold view_products_callback, privileged_callback.
      keeps_admins_and_catalog.
    + unfold user_management_callback, privileged_callback.
      keeps_admins_and_catalog.
    + unfold view_users_callback, privileged_callback. keeps_admins_and_catalog.
    + unfold broadcast_callback, privileged_callback. keeps_admins_and_catalog.
    + by rewrite broadcast_command_leaves_store.
    + unfold handle_unknown_callback. keeps_admins_and_catalog.
    + unfold error_handler. keeps_admins_and_catalog.
  - intros user_id db' (Hadmins & _).
    unfold is_owner_or_admin, is_admin. by rewrite Hadmins.
Qed.

Lemma handlers_never_change_admins_or_catalog_witness :
  is_owner_or_admin [1] 2
    (w_db (handle_message (λ _, true) (λ _, "t0") (text_from user_x "hi")
             (World empty_database 0 [])).2)
    = is_owner_or_admin [1] 2 empty_database.
Proof.
  destruct (handlers_never_change_admins_or_catalog [1] (λ _, true)
              (λ _, true) (λ _, "t0") false (text_from user_x "hi") [] None
              empty_database 0 [] []) as [Hall Hsame].
  apply Hsame.
  by do 5 apply Forall_cons_1 in Hall as [_ Hall];
    apply Forall_cons_1 in Hall as [Hmessage _].
Defined.

(** ** Who a broadcast reaches *)

(** The calls the broadcast loop makes. *)
Definition broadcast_call (broadcast_text : string) (users : list user_view)
    (c : call) : Prop :=
  match c with
  | SendMessage chat_id t =>
      t = BroadcastMessage broadcast_text ∧ chat_id ∈ uv_user_id <$> users
  | EditText (Broadcasting _ _ _) => True
  | _ => False
  end.

Lemma broadcast_call_weaken broadcast_text u users c :
  broadcast_call broadcast_text users c →
  broadcast_call broadcast_text (u :: users) c.
Proof.
  destruct c as [| chat_id t | t | | | | |]; try done.
  intros [-> Hin]. split; [done|].
  rewrite fmap_cons. by apply list_elem_of_further.
Qed.

Lemma broadcast_loop_calls net broadcast_text total (users : list user_view) :
  ∀ sent_count failed_count w,
  ∃ l,
    w_trace (broadcast_loop net broadcast_text total users sent_count
               failed_count w).2 = w_trace w ++ l ∧
    Forall (broadcast_call broadcast_text users) l.
Proof.
  induction users as [|u users IH]; intros sent_count failed_count w.
  - exists []. by rewrite app_nil_r.
  - assert (∀ s f w0 pre,
              Forall (broadcast_call broadcast_text (u :: users)) pre →
              w_trace w0 = w_trace w ++ pre →
              ∃ l,
                w_trace (broadcast_loop net broadcast_text total users s f
                           w0).2 = w_trace w ++ l ∧
                Forall (broadcast_call broadcast_text (u :: users)) l)
      as Hrest.
    { intros s f w0 pre Hpre Hw0.
      destruct (IH s f w0) as (l & Hl & Hcalls).
      exists (pre ++ l). rewrite Hl, Hw0, app_assoc. split; [done|].
      apply Forall_app. split; [done|].
      eapply Forall_impl; [done|].
      intros c. apply broadcast_call_weaken. }
    cbn [broadcast_loop].
    unfold mbind, handler_bind, attempt, await.
    destruct (net (SendMessage _ _)) eqn:Hsend; cbn [fst snd].
    + case_bool_decide.
      * destruct (net (EditText _)) eqn:Hedit; cbn [fst snd].
        -- eapply Hrest; [|cbn [w_trace]; by rewrite <- app_assoc].
           by repeat constructor.
        -- eapply Hrest; [|done].
           by repeat constructor.
      * eapply Hrest; [|done].
        by repeat constructor.
    + eapply (Hrest _ _ _ []); [constructor|by rewrite app_nil_r].
Qed.

(** X20.  The broadcast wizard sends the message to users of
    [get_all_users] only: every message it sends carries the broadcast text
    (or "No message provided" for an empty one) and goes to a user of the
    users table whose blocked flag is 0. *)
Theorem broadcast_reaches_listed_users_only (OWNER_IDS : list Z)
    (net : call → bool) (update : tg_update) (w : world) (chat_id : Z)
    (t : text) :
  let w' := (handle_broadcast_message OWNER_IDS net update w).2 in
  SendMessage chat_id t ∈ w_trace w' →
  SendMessage chat_id t ∈ w_trace w ∨
  (∃ message, upd_message update = Some message ∧
     t = BroadcastMessage (py_or (m_text message) "No message provided")) ∧
  ∃ row, users (w_db w) !! chat_id = Some row ∧ u_is_blocked row = 0.
Proof.
  intros w'. subst w'. unfold handle_broadcast_message.
  destruct (upd_message update) as [message|]; [|by left].
  destruct (upd_effective_user update) as [user|]; [|by left].
  unfold mbind, handler_bind, mret, handler_ret, get_db, await.
  cbn [w_db]. destruct (negb _).
  { destruct (net _); cbn [fst snd w_trace]; [|by left].
    intros [Hin | Hin%list_elem_of_singleton]%elem_of_app; [by left|done]. }
  destruct (net (ReplyText _ _)); cbn [fst snd w_trace]; [|by left].
  match goal with
  | |- context [broadcast_loop _ ?b ?n ?us ?s ?f ?w0] =>
      pose proof (broadcast_loop_calls net b n us s f w0) as (l & Hl & Hcalls);
      destruct (broadcast_loop_returns net b n us s f w0)
        as (counts & w1 & Hrun)
  end.
  rewrite Hrun in *. cbn [fst snd w_trace] in *.
  assert (SendMessage chat_id t ∈ w_trace w1 →
          SendMessage chat_id t ∈ w_trace w ∨
          (∃ m, Some message = Some m ∧
             t = BroadcastMessage (py_or (m_text m) "No message provided")) ∧
          ∃ row, users (w_db w) !! chat_id = Some row ∧ u_is_blocked row = 0)
    as Hsent.
  { rewrite Hl. rewrite !elem_of_app.
    intros [[Hin | Hin%list_elem_of_singleton] | Hin]; [by left|done|].
    right. rewrite Forall_forall in Hcalls.
    destruct (Hcalls _ Hin) as [-> Hlisted].
    split; [by exists message|].
    by apply elem_of_get_all_users_ids. }
  destruct (net (EditText _)); cbn [fst snd w_trace]; [|done].
  intros [Hin | Hin%list_elem_of_singleton]%elem_of_app; [by apply Hsent|done].
Qed.

Lemma broadcast_reaches_listed_users_only_witness :
  let w' :=
    (handle_broadcast_message [100] (λ _, true) (text_from owner_100 "hi")
       (World ten_users 0 [])).2 in
  ∃ row, users ten_users !! 4 = Some row ∧ u_is_blocked row = 0.
Proof.
  intros w'.
  destruct (broadcast_reaches_listed_users_only [100] (λ _, true)
              (text_from owner_100 "hi") (World ten_users 0 []) 4
              (BroadcastMessage "hi")) as [Hbefore | [_ Hrow]].
  - apply list_elem_of_In. vm_compute.
    repeat (first [left; reflexivity | right]).
  - by apply elem_of_nil in Hbefore.
  - exact Hrow.
Defined.

(** ** Checkout: the edges *)

Lemma find_product_absent (db : database) (product_id : Z) :
  products db !! product_id = None →
  List.find (λ q, bool_decide (id q = product_id)) (get_all_products db) = None.
Proof.
  intros Habsent.
  destruct (List.find _ _) as [q|] eqn:Hfind; [|done].
  apply find_some in Hfind as [Hin%list_elem_of_In Hid%bool_decide_eq_true].
  apply elem_of_get_all_products in Hin as (r & Hr & _). congruence.
Qed.

(** X21.  [handle_photo] stores before it replies.  With no photo in the
    message it raises at once and stores nothing.  Otherwise the order row is
    in the store whatever the transport does; the confirmation is tried, and
    when it is refused the error text asking to try again is tried, with the
    row already stored.  The handler returns when one of the two replies
    went through. *)
Theorem handle_photo_stores_before_it_replies (net : call → bool)
    (clock : nat → string) (user : tg_user) (caption : option string)
    (photos : list string) (callback : option tg_callback_query) (w : world) :
  let update := TgUpdate (Some (TgMessage caption photos)) (Some user) callback in
  let r := handle_photo net clock update w in
  let received := ReplyText ScreenshotReceived [] in
  let error := ReplyText ScreenshotError [] in
  match last photos with
  | None => r = (Raised, w)
  | Some file_id =>
      w_db r.2
        = add_order (tu_id user) "Screenshot Upload" "0" (Some file_id)
            (clock (w_tick w)) (w_db w) ∧
      w_trace r.2
        = w_trace w ++
          (if net received then [received]
           else if net error then [error] else []) ∧
      (r.1 = Returned None ↔ net received = true ∨ net error = true)
  end.
Proof.
  intros update r received error. subst update r received error.
  unfold handle_photo. cbn [upd_message upd_effective_user m_photo].
  destruct (last photos) as [file_id|]; [|done].
  unfold from_option, mbind, handler_bind, mret, handler_ret, try_except, now,
    modify_db, await.
  cbn [w_db w_tick w_trace].
  destruct (net (ReplyText ScreenshotReceived [])); cbn [w_db w_tick w_trace fst snd].
  - split; [done|]. split; [done|]. split; [by left|done].
  - destruct (net (ReplyText ScreenshotError []));
      cbn [w_db w_tick w_trace fst snd].
    + split; [done|]. split; [done|]. split; [by right|done].
    + split; [done|]. split; [by rewrite app_nil_r|].
      split; [done|by intros [|]].
Qed.

(** Whether the character is an ASCII letter; [int] takes none. *)
Definition is_letter (c : ascii) : bool :=
  let n := Z.of_N (N_of_ascii c) in
  bool_decide (65 ≤ n ≤ 90) || bool_decide (97 ≤ n ≤ 122).

Definition has_letter (s : string) : bool :=
  negb (all_chars (λ c, negb (is_letter c)) s).

Lemma digits_go_letter (s : string) :
  ∀ acc, has_letter s = true → digits_go acc s = None.
Proof.
  unfold has_letter. induction s as [|c s IH]; intros acc; [done|].
  cbn [all_chars digits_go]. intros Hletter.
  destruct (digit_of c) as [d|] eqn:Hd; [|done].
  apply IH. unfold digit_of in Hd. case_bool_decide; [|done].
  replace (is_letter c) with false in Hletter; [done|].
  unfold is_letter. symmetry. apply orb_false_iff.
  split; apply bool_decide_eq_false; lia.
Qed.

Lemma py_int_letter (s : string) : has_letter s = true → py_int s = None.
Proof.
  assert (∀ t, has_letter t = true → digits t = None) as Hdigits.
  { intros [|c t] Ht; [done|]. by apply digits_go_letter. }
  intros Hletter. destruct s as [|c s]; [done|].
  unfold py_int.
  destruct (decide (c = "-"%char)) as [->|Hminus];
    [by rewrite Hdigits|].
  destruct (decide (c = "+"%char)) as [->|Hplus];
    [by rewrite Hdigits|].
  transitivity (digits (String c s)); [|by apply Hdigits].
  destruct c as [[] [] [] [] [] [] [] []]; done.
Qed.

(** X22.  [buy_now_callback], once the callback is acknowledged.  Callback
    data with a letter left after ["buy_"] is taken out raises in [int] and
    stores nothing; an id that is not in the catalog is answered with the
    not-found text and stores nothing.  For a product of the catalog the
    order is stored before anything is sent, and whenever the handler
    returns the payment instructions have been sent, as the caption of the
    QR photo or, when there is no QR image or a call on that path failed, as
    text. *)
Theorem buy_now_callback_edges (net : call → bool) (clock : nat → string)
    (qr_code_exists : bool) (user : tg_user) (data : string) (w : world) :
  net AnswerQuery = true →
  data ≠ "" →
  let r := buy_now_callback net clock qr_code_exists (press user data) w in
  let number := py_replace "buy_" "" data in
  (has_letter number = true →
   r = (Raised, World (w_db w) (w_tick w) (w_trace w ++ [AnswerQuery]))) ∧
  ∀ product_id, py_int number = Some product_id →
    match products (w_db w) !! product_id with
    | None =>
        w_db r.2 = w_db w ∧
        w_trace r.2
          = w_trace w ++ AnswerQuery ::
            (if net (EditMessageText ProductNotFound [])
             then [EditMessageText ProductNotFound []] else [])
    | Some row =>
        let payment := create_payment_qr_message (p_price row) in
        let keyboard :=
          [[Button UploadScreenshot
              ("upload_screenshot_" +:+ pretty product_id)];
           [Button MainMenu "back_to_main"]] in
        w_db r.2
          = add_order (tu_id user) (p_name row) (p_price row) None
              (clock (w_tick w)) (w_db w) ∧
        (r.1 = Returned None →
         ReplyPhoto payment keyboard ∈ w_trace r.2 ∨
         EditMessageText payment keyboard ∈ w_trace r.2) ∧
        (qr_code_exists = false →
         r.1 = Returned None ↔ net (EditMessageText payment keyboard) = true)
    end.
Proof.
  intros Hack Hdata r number. subst r number. unfold buy_now_callback, press.
  cbn [upd_callback_query q_from_user q_data].
  destruct data as [|c data]; [done|]. cbn [truthy].
  unfold mbind, handler_bind, await. rewrite Hack.
  split.
  { intros Hletter. by rewrite (py_int_letter _ Hletter). }
  intros product_id ->.
  unfold from_option, mret, handler_ret, get_db. cbn [w_db w_tick w_trace].
  destruct (products (w_db w) !! product_id) as [row|] eqn:Hrow.
  - rewrite (find_product_by_id _ _ _ Hrow).
    set (payment := create_payment_qr_message (p_price row)).
    set (keyboard := [[Button UploadScreenshot _]; _]).
    unfold now, modify_db, try_except, mbind, handler_bind, await.
    cbn [w_db w_tick w_trace fst snd].
    change (create_payment_qr_message (price (product_of (product_id, row))))
      with payment.
    change (name (product_of (product_id, row))) with (p_name row).
    change (price (product_of (product_id, row))) with (p_price row).
    destruct qr_code_exists.
    + destruct (net OpenQrCode); cbn [w_db w_tick w_trace fst snd];
        [destruct (net (ReplyPhoto payment keyboard));
           cbn [w_db w_tick w_trace fst snd];
           [destruct (net DeleteMessage); cbn [w_db w_tick w_trace fst snd]|]|];
        try (destruct (net (EditMessageText payment keyboard));
             cbn [w_db w_tick w_trace fst snd]);
        (split; [done|]); (split; [|done]);
        intros Hreturned; try done;
        rewrite ?elem_of_app, ?elem_of_cons, ?list_elem_of_singleton;
        eauto 10.
    + destruct (net (EditMessageText payment keyboard)) eqn:Hedit;
        cbn [w_db w_tick w_trace fst snd];
        (split; [done|]); (split; [|done]);
        intros Hreturned; try done;
        rewrite ?elem_of_app, ?elem_of_cons, ?list_elem_of_singleton;
        eauto 10.
  - rewrite (find_product_absent _ _ Hrow).
    unfold mbind, handler_bind, await, mret, handler_ret.
    cbn [w_db w_tick w_trace].
    destruct (net (EditMessageText ProductNotFound []));
      cbn [w_db w_tick w_trace fst snd]; (split; [done|]);
      by rewrite <- ?app_assoc.
Qed.

Lemma buy_now_callback_edges_witness :
  let w := World two_products 0 [] in
  w_db (buy_now_callback (λ _, true) (λ _, "t0") false (press user_x "buy_9")
          w).2 = two_products ∧
  buy_now_callback (λ _, true) (λ _, "t0") false (press user_x "buy_now") w
    = (Raised, World two_products 0 [AnswerQuery]).
Proof.
  intros w.
  destruct (buy_now_callback_edges (λ _, true) (λ _, "t0") false user_x
              "buy_9" w eq_refl) as [_ Habsent]; [done|].
  destruct (buy_now_callback_edges (λ _, true) (λ _, "t0") false user_x
              "buy_now" w eq_refl) as [Hword _]; [done|].
  split; [apply (Habsent 9 eq_refl) | apply Hword; reflexivity].
Defined.

(** ** What a message does to the sender's row *)

(** X23.  [handle_message] and [start_command] write the sender's row anew,
    whatever the transport does with the reply: the row holds the sender's
    current names (["user_" + str(id)] for a missing username), the blocked
    flag 0 and, as join date, the time of this message, so the date of the
    first contact and a block set in the table are both lost with the next
    message; the sender is among [get_all_users] afterwards.  The rows of
    the other users stay as they were. *)
Theorem every_message_renews_the_sender_row (OWNER_IDS : list Z)
    (net : call → bool) (clock : nat → string) (user : tg_user)
    (message : tg_message) (callback : option tg_callback_query) (w : world) :
  let update := TgUpdate (Some message) (Some user) callback in
  let username := py_or (tu_username user) ("user_" +:+ pretty (tu_id user)) in
  let first_name := py_or (Some (tu_first_name user)) "Unknown" in
  let last_name := Some (py_or (tu_last_name user) "") in
  let tick := w_tick w in
  let after_message := w_db (handle_message net clock update w).2 in
  let after_start := w_db (start_command OWNER_IDS net clock update w).2 in
  users after_message !! tu_id user
    = Some (UserRow username first_name last_name (clock tick) 0
              (clock (S tick))) ∧
  users after_start !! tu_id user
    = Some (UserRow username first_name last_name (clock tick) 0
              (clock (S (S tick)))) ∧
  tu_id user ∈ uv_user_id <$> get_all_users after_message ∧
  tu_id user ∈ uv_user_id <$> get_all_users after_start ∧
  ∀ other, other ≠ tu_id user →
    users after_message !! other = users (w_db w) !! other ∧
    users after_start !! other = users (w_db w) !! other.
Proof.
  intros update username first_name last_name tick after_message after_start.
  assert (users after_message !! tu_id user
            = Some (UserRow username first_name last_name (clock tick) 0
                      (clock (S tick)))) as Hmessage.
  { subst after_message update. unfold handle_message.
    cbn [upd_message upd_effective_user].
    unfold mbind, handler_bind, mret, handler_ret, now, modify_db, await.
    cbn [w_db w_tick w_trace].
    destruct (net _); cbn [w_db snd add_user users]; apply lookup_insert_eq. }
  assert (users after_start !! tu_id user
            = Some (UserRow username first_name last_name (clock tick) 0
                      (clock (S (S tick))))) as Hstart.
  { subst after_start update. unfold start_command.
    cbn [upd_message upd_effective_user].
    unfold mbind, handler_bind, mret, handler_ret, now, modify_db, get_db,
      await.
    cbn [w_db w_tick w_trace].
    destruct (net _);
      cbn [w_db snd add_user update_user_activity users];
      by rewrite lookup_alter_eq, lookup_insert_eq. }
  split; [done|]. split; [done|].
  split; [apply elem_of_get_all_users_ids; by eexists|].
  split; [apply elem_of_get_all_users_ids; by eexists|].
  intros other Hother. split.
  - subst after_message update. unfold handle_message.
    cbn [upd_message upd_effective_user].
    unfold mbind, handler_bind, mret, handler_ret, now, modify_db, await.
    cbn [w_db w_tick w_trace].
    destruct (net _); cbn [w_db snd add_user users];
      by rewrite lookup_insert_ne.
  - subst after_start update. unfold start_command.
    cbn [upd_message upd_effective_user].
    unfold mbind, handler_bind, mret, handler_ret, now, modify_db, get_db,
      await.
    cbn [w_db w_tick w_trace].
    destruct (net _);
      cbn [w_db snd add_user update_user_activity users];
      by rewrite lookup_alter_ne, lookup_insert_ne.
Qed.

(** * [utils.py] *)

(** ** [chunk_list] *)

Lemma chunks_concat {A} (k : nat) :
  (0 < k)%nat →
  ∀ (m : nat) (l : list A),
    (length l ≤ m * k)%nat →
    concat ((λ j : nat, take k (drop (j * k) l)) <$> seq 0 m) = l.
Proof.
  intros Hk. induction m as [|m IH]; intros l Hlen.
  - simpl in *. by destruct l; [|simpl in Hlen; lia].
  - cbn [seq fmap list_fmap concat]. rewrite Nat.mul_0_l, drop_0.
    rewrite <- fmap_S_seq, <- list_fmap_compose.
    transitivity (take k l ++ drop k l); [|apply take_drop].
    f_equal.
    etrans; [|apply (IH (drop k l)); rewrite length_drop; lia].
    f_equal. apply list_fmap_ext. intros _ j _. simpl.
    rewrite drop_drop. do 2 f_equal; lia.
Qed.

Lemma chunk_list_run {A} (lst : list A) (chunk_size : Z) :
  0 < chunk_size →
  let k := Z.to_nat chunk_size in
  let m := ((length lst + k - 1) `div` k)%nat in
  chunk_list lst chunk_size
    = Some ((λ j : nat, take k (drop (j * k) lst)) <$> seq 0 m).
Proof.
  intros Hpos k m. unfold chunk_list, py_range.
  rewrite bool_decide_eq_false_2 by lia.
  rewrite bool_decide_eq_true_2 by lia.
  f_equal. rewrite <- list_fmap_compose.
  replace (Z.to_nat
             ((Z.of_nat (length lst) - 0 + chunk_size - 1) `div` chunk_size))
    with m.
  - apply list_fmap_ext. intros _ j _. unfold py_slice. simpl.
    replace (Z.to_nat (0 + Z.of_nat j * chunk_size)) with (j * k)%nat by lia.
    f_equal. lia.
  - subst m k. rewrite Z2Nat.inj_div by lia.
    f_equal; lia.
Qed.

(** X24.  [chunk_list] with a positive chunk size cuts the list into
    consecutive pieces: put together again they give the list, there are
    [ceil(len / size)] of them, none is empty and none is longer than the
    size.  A chunk size of 0 raises ([range] with step 0); a negative one
    gives no chunk at all, whatever the list holds. *)
Theorem chunk_list_cuts_the_list {A} (lst : list A) (chunk_size : Z) :
  (chunk_size = 0 → chunk_list lst chunk_size = None) ∧
  (chunk_size < 0 → chunk_list lst chunk_size = Some []) ∧
  (0 < chunk_size →
   ∃ chunks,
     chunk_list lst chunk_size = Some chunks ∧
     concat chunks = lst ∧
     Z.of_nat (length chunks)
       = (Z.of_nat (length lst) + chunk_size - 1) `div` chunk_size ∧
     Forall (λ c, 0 < Z.of_nat (length c) ≤ chunk_size) chunks).
Proof.
  split; [|split].
  - intros ->. done.
  - intros Hneg. unfold chunk_list, py_range.
    rewrite bool_decide_eq_false_2 by lia.
    rewrite bool_decide_eq_false_2 by lia.
    replace (Z.to_nat _) with O; [done|].
    assert ((0 - Z.of_nat (length lst) - chunk_size - 1) `div` (- chunk_size)
              < 1); [|lia].
    apply Z.div_lt_upper_bound; lia.
  - intros Hpos. rewrite chunk_list_run by done.
    set (k := Z.to_nat chunk_size).
    set (m := ((length lst + k - 1) `div` k)%nat).
    assert (0 < k)%nat as Hk by lia.
    assert (length lst ≤ m * k)%nat as Hcover.
    { subst m. pose proof (Nat.div_mod (length lst + k - 1) k) as Hdm.
      pose proof (Nat.mod_upper_bound (length lst + k - 1) k). lia. }
    assert (∀ j, (j < m)%nat → (j * k < length lst)%nat) as Hstart.
    { intros j Hj. subst m.
      pose proof (Nat.div_mod (length lst + k - 1) k) as Hdm.
      assert (S j * k ≤ (length lst + k - 1) `div` k * k)%nat
        by (apply Nat.mul_le_mono_r; lia).
      lia. }
    eexists. split; [done|]. split; [by apply chunks_concat|]. split.
    + rewrite length_fmap, length_seq. subst m k.
      rewrite Nat2Z.inj_div. f_equal; lia.
    + apply Forall_fmap, Forall_forall. intros j [_ Hj]%elem_of_seq. simpl.
      rewrite length_take, length_drop. specialize (Hstart j). lia.
Qed.

Lemma chunk_list_cuts_the_list_witness :
  chunk_list [1; 2; 3; 4; 5] 0 = None ∧
  chunk_list [1; 2; 3; 4; 5] (-2) = Some [] ∧
  ∃ chunks, chunk_list [1; 2; 3; 4; 5] 2 = Some chunks ∧
            concat chunks = [1; 2; 3; 4; 5].
Proof.
  destruct (chunk_list_cuts_the_list [1; 2; 3; 4; 5] 0) as (Hzero & _).
  destruct (chunk_list_cuts_the_list [1; 2; 3; 4; 5] (-2)) as (_ & Hneg & _).
  destruct (chunk_list_cuts_the_list [1; 2; 3; 4; 5] 2) as (_ & _ & Hpos).
  split; [by apply Hzero|]. split; [by apply Hneg|].
  destruct Hpos as (chunks & Hrun & Hconcat & _); [done|].
  by exists chunks.
Defined.

(** ** [escape_markdown] *)

(** Replacing one character, written as a map over the text. *)
Fixpoint substitute (c : ascii) (new s : string) : string :=
  match s with
  | EmptyString => EmptyString
  | String x s' =>
      (if bool_decide (x = c) then new else String x "") +:+ substitute c new s'
  end.

Lemma py_replace_char (c : ascii) (new s : string) :
  py_replace (String c "") new s = substitute c new s.
Proof.
  unfold py_replace. induction s as [|x s IH]; [done|].
  cbn [replace_go substitute String.prefix String.length Nat.pred].
  destruct (ascii_dec c x) as [->|Hne].
  - rewrite bool_decide_eq_true_2 by done.
    destruct s; by rewrite IH.
  - rewrite bool_decide_eq_false_2 by done. by rewrite IH.
Qed.

Lemma append_cons (c : ascii) (s1 s2 : string) :
  String c s1 +:+ s2 = String c (s1 +:+ s2).
Proof. reflexivity. Qed.

Lemma append_nil_l (s : string) : "" +:+ s = s.
Proof. reflexivity. Qed.

Lemma append_assoc (s1 s2 s3 : string) :
  (s1 +:+ s2) +:+ s3 = s1 +:+ (s2 +:+ s3).
Proof.
  induction s1 as [|c s1 IH]; [done|]. by rewrite !append_cons, IH.
Qed.

Lemma substitute_app (c : ascii) (new s1 s2 : string) :
  substitute c new (s1 +:+ s2) = substitute c new s1 +:+ substitute c new s2.
Proof.
  induction s1 as [|x s1 IH]; [done|].
  rewrite append_cons. cbn [substitute]. by rewrite IH, append_assoc.
Qed.

Definition escape_with (cs : list ascii) (text : string) : string :=
  foldl (λ text char, substitute char ("\" +:+ String char "") text) text cs.

Lemma escape_with_app (cs : list ascii) (s1 s2 : string) :
  escape_with cs (s1 +:+ s2) = escape_with cs s1 +:+ escape_with cs s2.
Proof.
  unfold escape_with. revert s1 s2.
  induction cs as [|c cs IH]; intros s1 s2; [done|].
  cbn [foldl]. rewrite substitute_app. apply IH.
Qed.

Lemma escape_markdown_escape_with (text : string) :
  escape_markdown text = escape_with (chars escape_chars) text.
Proof.
  unfold escape_markdown, escape_with. generalize (chars escape_chars).
  intros cs. revert text. induction cs as [|c cs IH]; intros text; [done|].
  cbn [foldl]. by rewrite py_replace_char, IH.
Qed.

(** Whether Markdown reads the character as markup. *)
Definition special (c : ascii) : bool :=
  bool_decide (c ∈ chars escape_chars).

Definition escape_char (c : ascii) : string :=
  if special c then String "\" (String c "") else String c "".

Fixpoint escape_each (text : string) : string :=
  match text with
  | EmptyString => EmptyString
  | String c s => escape_char c +:+ escape_each s
  end.

Lemma escape_with_char (c : ascii) :
  escape_with (chars escape_chars) (String c "") = escape_char c.
Proof.
  destruct c as [[] [] [] [] [] [] [] []]; by vm_compute.
Qed.

(** X25.  [escape_markdown] puts one backslash before each of the eighteen
    characters of [escape_chars] and leaves every other character as it is:
    the eighteen replacements in a row come to one pass over the text.  The
    backslash is not among the eighteen, so a text that is escaped already is
    escaped once more; the result is never shorter than the text. *)
Theorem escape_markdown_escapes_each_special (text : string) :
  escape_markdown text = escape_each text ∧
  escape_markdown (String "\" "") = String "\" "" ∧
  (String.length text ≤ String.length (escape_markdown text))%nat ∧
  (all_chars (λ c, negb (special c)) text = true →
   escape_markdown text = text).
Proof.
  assert (escape_markdown text = escape_each text) as Hpass.
  { rewrite escape_markdown_escape_with.
    induction text as [|c s IH]; [done|].
    change (String c s) with (String c "" +:+ s).
    rewrite escape_with_app, escape_with_char, IH. done. }
  split; [done|]. split; [by vm_compute|]. rewrite Hpass. split.
  - clear Hpass. induction text as [|c s IH]; [done|].
    cbn [escape_each]. unfold escape_char.
    destruct (special c); rewrite !append_cons, append_nil_l;
      cbn [String.length]; lia.
  - clear Hpass. induction text as [|c s IH]; [done|].
    cbn [escape_each all_chars].
    intros [Hc Hs]%andb_true_iff. unfold escape_char.
    apply negb_true_iff in Hc.
    by rewrite Hc, append_cons, append_nil_l, IH.
Qed.

Lemma escape_markdown_escapes_each_special_witness :
  escape_markdown "Hello world" = "Hello world" ∧
  escape_markdown "50%_off!" = "50%\_off\!".
Proof.
  destruct (escape_markdown_escapes_each_special "Hello world")
    as (_ & _ & _ & Hplain).
  split; [by apply Hplain|].
  by destruct (escape_markdown_escapes_each_special "50%_off!") as (-> & _).
Defined.

(** ** [is_owner] *)

(** The text without a character. *)
Fixpoint without (c : ascii) (s : string) : string :=
  match s with
  | EmptyString => EmptyString
  | String x s' =>
      if bool_decide (x = c) then without c s' else String x (without c s')
  end.

Lemma substitute_nothing (c : ascii) (s : string) :
  substitute c "" s = without c s.
Proof.
  induction s as [|x s IH]; [done|]. simpl. rewrite IH.
  by case_bool_decide.
Qed.

(** X26.  [is_owner] knows an owner by id whatever the username, and
    otherwise by a username that is not empty and, with every ["@"] in it
    dropped, wherever it stands, is one of the owner usernames; so two
    usernames that differ in their ["@"] only are treated alike. *)
Theorem is_owner_ignores_at_signs (OWNER_IDS : list Z)
    (OWNER_USERNAMES : list string) (user_id : Z) (username : option string) :
  (user_id ∈ OWNER_IDS →
   is_owner OWNER_IDS OWNER_USERNAMES user_id username = true) ∧
  (user_id ∉ OWNER_IDS →
   is_owner OWNER_IDS OWNER_USERNAMES user_id username = true ↔
   ∃ u, username = Some u ∧ u ≠ "" ∧ without "@" u ∈ OWNER_USERNAMES) ∧
  (∀ u u', u ≠ "" → u' ≠ "" → without "@" u = without "@" u' →
     is_owner OWNER_IDS OWNER_USERNAMES user_id (Some u)
       = is_owner OWNER_IDS OWNER_USERNAMES user_id (Some u')).
Proof.
  unfold is_owner. split; [|split].
  - intros Hid. by rewrite bool_decide_eq_true_2.
  - intros Hid. rewrite bool_decide_eq_false_2 by done.
    destruct username as [[|c u]|]; cbn [truthy].
    + split; [done|]. by intros (u & [= <-] & Hu & _).
    + rewrite bool_decide_eq_true. change "@" with (String "@" "") at 1.
      rewrite py_replace_char, substitute_nothing. split.
      * intros Hin. by eexists.
      * by intros (u' & [= <-] & _ & Hin).
    + split; [done|]. by intros (u & [=] & _).
  - intros u u' Hu Hu' Hsame.
    destruct u as [|c u]; [done|]. destruct u' as [|c' u']; [done|].
    cbn [truthy]. change "@" with (String "@" "") at 1 3.
    by rewrite !py_replace_char, !substitute_nothing, Hsame.
Qed.

Lemma is_owner_ignores_at_signs_witness :
  is_owner [1] ["boss"] 1 None = true ∧
  is_owner [1] ["boss"] 7 (Some "@bo@ss") = is_owner [1] ["boss"] 7 (Some "boss").
Proof.
  destruct (is_owner_ignores_at_signs [1] ["boss"] 1 None) as (Hid & _).
  destruct (is_owner_ignores_at_signs [1] ["boss"] 7 None) as (_ & _ & Hsame).
  split.
  - apply Hid. apply list_elem_of_singleton. reflexivity.
  - apply Hsame; done.
Defined.

(** * [qr_code.py] *)

(** ** [save_qr_code] *)

Lemma append_nil_r (s : string) : s +:+ "" = s.
Proof. induction s as [|c s IH]; [done|]. by rewrite append_cons, IH. Qed.

Lemma first_save_path (new : string) :
  py_replace ".jpg" new "static/qr_payment.jpg" = "static/qr_payment" +:+ new.
Proof.
  transitivity ("static/qr_payment" +:+ (new +:+ "")).
  - vm_compute. reflexivity.
  - by rewrite append_nil_r.
Qed.

(** X27.  [save_qr_code].  A save that fails keeps the path.  A save that
    succeeds stores the content
    under the new path, and [qr_code_exists] is true afterwards.  From the
    initial path the new path ends in the given extension.  Once the path
    holds no [".jpg"] any more, later saves cannot move it: the content goes
    to the same path whatever extension is given. *)
Theorem save_qr_code_moves_the_path_once (writable : string → bool)
    (file_content file_extension : string) (self : qr_manager)
    (files : gmap string string) :
  let r := save_qr_code writable file_content file_extension self files in
  (r.1.1 = false → r.1.2 = self) ∧
  (r.1.1 = true →
   r.2 !! qr_file_path r.1.2 = Some file_content ∧
   qr_code_exists r.1.2 r.2 = true ∧
   (∀ path, path ≠ qr_file_path r.1.2 → r.2 !! path = files !! path)) ∧
  (self = new_qr_manager → r.1.1 = true →
   qr_file_path r.1.2 = "static/qr_payment." +:+ file_extension) ∧
  (occurs ".jpg" (qr_file_path self) = false → r.1.1 = true →
   qr_file_path r.1.2 = qr_file_path self).
Proof.
  intros r. subst r. unfold save_qr_code.
  set (file_path := py_replace ".jpg" ("." +:+ file_extension)
                      (qr_file_path self)).
  assert (occurs ".jpg" (qr_file_path self) = false →
          file_path = qr_file_path self) as Hstay.
  { intros Habsent. by apply py_replace_absent. }
  assert (self = new_qr_manager →
          file_path = "static/qr_payment." +:+ file_extension) as Hfirst.
  { intros ->. apply (first_save_path ("." +:+ file_extension)). }
  destruct (writable file_path); cbn [fst snd qr_file_path].
  - split; [done|]. split; [|split; [by intros ? _; apply Hfirst|by intros ? _; apply Hstay]].
    intros _. split; [apply lookup_insert_eq|]. split.
    + unfold qr_code_exists. cbn [qr_file_path].
      rewrite bool_decide_eq_true, lookup_insert_eq. by eexists.
    + intros path Hpath. by rewrite lookup_insert_ne.
  - by repeat split.
Qed.

Lemma save_qr_code_moves_the_path_once_witness :
  let first := save_qr_code (λ _, true) "PNG" "png" new_qr_manager ∅ in
  let second := save_qr_code (λ _, true) "JPG" "jpg" first.1.2 first.2 in
  qr_file_path first.1.2 = "static/qr_payment.png" ∧
  qr_file_path second.1.2 = "static/qr_payment.png" ∧
  second.2 !! "static/qr_payment.png" = Some "JPG".
Proof.
  intros first second.
  destruct (save_qr_code_moves_the_path_once (λ _, true) "PNG" "png"
              new_qr_manager ∅) as (_ & _ & Hfirst & _).
  destruct (save_qr_code_moves_the_path_once (λ _, true) "JPG" "jpg"
              first.1.2 first.2) as (_ & Hstored & _ & Hstay).
  specialize (Hfirst eq_refl eq_refl).
  specialize (Hstay eq_refl eq_refl).
  destruct (Hstored eq_refl) as (Hcontent & _).
  fold first in Hfirst. fold second in Hstay, Hcontent.
  rewrite Hstay in Hcontent |- *.
  rewrite Hfirst in Hcontent |- *.
  by repeat split.
Defined.

(** * [main.py] *)

(** ** Which handler a pressed button reaches *)

(** The buttons the menus show that no pattern of [setup_handlers] takes. *)
Definition unrouted_buttons : list string :=
  ["admin_manage_admins"; "admin_add_product"; "admin_edit_product";
   "admin_delete_product"; "admin_user_stats"].

Ltac route :=
  unfold setup_handlers, bio_conversation, broadcast_conversation,
    conversation;
  repeat match goal with
         | state : option Z |- _ => destruct state
         end;
  vm_compute; reflexivity.

(** X28.  [setup_handlers], with the keyboards of [buy_now_callback],
    [admin_panel_callback], [manage_products_callback] and
    [user_management_callback].  Whatever the two wizards wait for, the
    "Upload Screenshot" button of the payment message (["upload_screenshot_"]
    and the product id), the owner's "Admin Management" button and the
    "Add", "Edit", "Delete Product" and "User Statistics" buttons reach no
    handler but [handle_unknown_callback]; so does a query without data. *)
Theorem buttons_without_a_handler (bio_state broadcast_state : option Z) :
  (∀ product_id : Z,
     setup_handlers bio_state broadcast_state
       (Some ("upload_screenshot_" +:+ pretty product_id))
       = To_handle_unknown_callback) ∧
  Forall (λ data, setup_handlers bio_state broadcast_state (Some data)
                    = To_handle_unknown_callback) unrouted_buttons ∧
  setup_handlers bio_state broadcast_state None = To_handle_unknown_callback.
Proof.
  split; [|split].
  - intros product_id. generalize (pretty product_id). intros tail. route.
  - unfold unrouted_buttons. repeat (apply Forall_cons; split; [route|]).
    apply Forall_nil_2.
  - route.
Qed.

(** X29.  [setup_handlers], with the keyboards of the handlers.  The category,
    product and buy buttons reach their handlers whatever follows the prefix
    and whatever the wizards wait for.  The ["admin_panel"] button, which is
    also the "Cancel" button of both wizards, reaches [cancel_conversation]
    as soon as one of the wizards waits for a message, whichever menu showed
    it, and [admin_panel_callback] only when both are idle. *)
Theorem pressed_button_reaches (bio_state broadcast_state : option Z) :
  (∀ category,
     setup_handlers bio_state broadcast_state (Some ("category_" +:+ category))
       = To_category_callback) ∧
  (∀ rest,
     setup_handlers bio_state broadcast_state (Some ("product_" +:+ rest))
       = To_product_callback) ∧
  (∀ rest,
     setup_handlers bio_state broadcast_state (Some ("buy_" +:+ rest))
       = To_buy_now_callback) ∧
  setup_handlers bio_state broadcast_state (Some "admin_panel")
    = (if bool_decide (bio_state = None ∧ broadcast_state = None)
       then To_admin_panel_callback else To_cancel_conversation).
Proof.
  split; [|split; [|split]].
  - intros [|c tail]; route.
  - intros [|c tail]; route.
  - intros [|c tail]; route.
  - route.
Qed.
